(** * ComfyUI serverless pipeline: a shallow embedding

    The development follows the four Python modules of the worker:
    [handler.py] (request validation and orchestration),
    [workflow_loader.py] (template loading and parameter injection),
    [comfyui_client.py] (readiness probe, submission, event loop, output
    retrieval) and [storage.py] (upload and presigned URL).

    Python values that cross the JSON boundary are modelled by [json];
    dictionaries are finite maps.  Everything outside the repository (the
    interpreter, the render engine, the object store, the file system, the
    clock and the random sources) is collected in the classes [Platform]
    and [Services]; the code is a state-and-exception monad over [State],
    whose [trace] records every external call in the order it is made.
    Time is counted in milliseconds.  Logging calls are left out: the
    logging package never raises on a formatting problem and the log has no
    reader inside the program.

    Conventions.  A JSON integer is a [Z]; a JSON float is the rational it
    denotes, of which the code uses only the sign, the test for zero and
    equality.  The text of [repr] for floats and containers, the order in
    which a set prints, the hash of a string and the wording of the
    interpreter's own error messages are fields of [Platform]: the
    statements hold for every choice of them.  A [dict] keeps the order
    of its document and a finite map does not: the order in which the
    history lists the nodes of its outputs, which the code iterates over,
    comes with the response ([outputs_order]); only where a dict stands in
    the place of a list of images does iteration follow the order of the
    finite map.  The template path is joined as [pathlib] joins it.  A
    template file holds a JSON object.  Exceptions are those that derive
    from [Exception]; [KeyboardInterrupt] and the like are outside the
    model. *)

From stdpp Require Import gmap strings list pretty.
From Stdlib Require Import Ascii ZArith QArith Lia.

Local Open Scope Z_scope.

(** ** JSON values, as [json.loads] produces them *)

#[warnings="-register-all"]
Inductive json :=
| JNull
| JBool (b : bool)
| JInt (z : Z)
| JFloat (q : Q)
| JStr (s : string)
| JArr (l : list json)
| JObj (d : gmap string json).

Definition bytes := list Byte.byte.

(** ** Exceptions *)

(** [Foreign] names the class of an exception raised inside a library
    (requests, websocket-client, botocore, json). *)
Inductive exn_class :=
| TimeoutError
| RuntimeError
| ValueError
| FileNotFoundError
| KeyError
| TypeError
| AttributeError
| Foreign (qualified_name : string).

(** [exn_msg] is what [str(e)] returns. *)
Record exn := Exn { exn_cls : exn_class; exn_msg : string }.

Inductive result (A : Type) :=
| Ok (a : A)
| Raise (e : exn).
Arguments Ok {A} a.
Arguments Raise {A} e.

(** Operations the interpreter or a library rejects; the wording of the
    message is the platform's. *)
Inductive fault :=
| Unhashable (v : json)
| NoAttribute (v : json) (attr : string)
| NotSubscriptable (v : json)
| NoItemAssignment (v : json)
| NotIterable (v : json)
| NotOrdered (v : json)
| InvalidJson
| HttpStatus (code : Z).

(** ** The interpreter *)

Class Platform := {
  (** [repr] of a float, a list or a dict *)
  py_repr : json -> string;
  (** [repr] of a set of strings; the order of the elements depends on the
      hash seed of the process *)
  py_repr_set : list string -> string;
  (** [==] between two containers *)
  py_eq_compound : json -> json -> bool;
  (** [hash] of a string *)
  py_hash : string -> Z;
  (** text of the exception raised for a fault *)
  fault_text : fault -> string;
}.

(** ** The services the worker talks to *)

Inductive http_reply (A : Type) :=
| Reply (status : Z) (body : A)
| NoReply (e : exn).
Arguments Reply {A} status body.
Arguments NoReply {A} e.

(** A frame delivered by [ws.recv()]: binary, or text that [json.loads]
    parses ([Some]) or rejects ([None]). *)
Inductive frame :=
| BinaryFrame (b : bytes)
| TextFrame (msg : option json).

Inductive recv_outcome :=
| Recv (f : frame)
| RecvRaises (e : exn).

(** What a stream delivers: for each [recv], the time it blocks and its
    outcome.  After the last entry the peer has closed the connection. *)
Definition stream := list (N * recv_outcome).

Class Services := {
  (** values [uuid.uuid4()] yields, in order *)
  uuid_source : nat -> string;
  (** raw values behind [random.randint], in order *)
  entropy : nat -> Z;
  (** [os.environ] *)
  environ : gmap string string;
  (** template files by path: absent, unparsable ([Some None]) or a JSON
      object *)
  template_files : gmap string (option (gmap string json));
  (** [GET /system_stats], by attempt: duration and outcome *)
  system_stats : nat -> N * http_reply unit;
  (** [POST /prompt] with the workflow and the client id *)
  prompt_endpoint : gmap string json -> string -> http_reply (option json);
  (** opening the stream for a client id *)
  ws_endpoint : string -> result stream;
  (** [GET /history/<prompt id>] *)
  history_endpoint : string -> http_reply (option json);
  (** the node ids of the [outputs] of a prompt, in the order in which the
      history document lists them: a [dict] keeps the order of its
      document, the maps of the model do not *)
  outputs_order : string -> list string;
  (** [GET /view] with filename, subfolder and type *)
  view_endpoint : json -> json -> json -> http_reply bytes;
  (** [requests.get(url)] on a reference image: content type header, if
      any, and content *)
  web : string -> http_reply (option string * bytes);
  (** the exception of [requests.get] for a URL that is not a string *)
  url_rejection : json -> exn;
  (** failure of a file-system call on a path, if any *)
  fs_failure : string -> option exn;
  (** failure of [boto3.client], if any *)
  s3_client_failure : option exn;
  (** failure of [put_object] on bucket, key, body and content type, if
      any *)
  s3_put_failure : string -> string -> bytes -> string -> option exn;
  (** [generate_presigned_url] for bucket, key and validity *)
  s3_presign : string -> string -> Z -> result string;
}.

(** External calls, as they appear in the trace. *)
Inductive effect :=
| GetSystemStats
| Sleep (ms : Z)
| ReadTemplate (path : string)
| Makedirs (path : string)
| FetchUrl (url : json)
| WriteFile (path : string) (content : bytes)
| PostPrompt (workflow : gmap string json) (client_id : string)
| WsConnect (client_id : string)
| WsRecv
| WsClose
| GetHistory (url_suffix : string)
| GetView (filename subfolder img_type : json)
| NewS3Client
| PutObject (bucket key : string) (body : bytes) (content_type : string)
| PresignGet (bucket key : string) (expires_in : Z).

Record State := mkState {
  clock : Z;
  uuids_drawn : nat;
  entropy_drawn : nat;
  probes_done : nat;
  trace : list effect;
}.

Definition emit (e : effect) (s : State) : State :=
  mkState (clock s) (uuids_drawn s) (entropy_drawn s) (probes_done s)
          (trace s ++ [e]).

Definition tick (ms : Z) (s : State) : State :=
  mkState (clock s + ms) (uuids_drawn s) (entropy_drawn s) (probes_done s)
          (trace s).

(** ** The monad of the code: state and exceptions *)

Definition M (A : Type) : Type := State -> result A * State.

Definition ret {A} (a : A) : M A := fun s => (Ok a, s).

Definition raise {A} (e : exn) : M A := fun s => (Raise e, s).

Definition bind {A B} (c : M A) (k : A -> M B) : M B :=
  fun s => match c s with
           | (Ok a, s') => k a s'
           | (Raise e, s') => (Raise e, s')
           end.

Definition lift {A} (r : result A) : M A := fun s => (r, s).

Definition perform (e : effect) : M unit := fun s => (Ok tt, emit e s).

(** [try: c finally: f] *)
Definition try_finally {A} (c : M A) (f : M unit) : M A :=
  fun s => match c s with
           | (r, s') => match f s' with
                        | (Ok _, s'') => (r, s'')
                        | (Raise e, s'') => (Raise e, s'')
                        end
           end.

Definition bind_result {A B} (r : result A) (k : A -> result B) : result B :=
  match r with
  | Ok a => k a
  | Raise e => Raise e
  end.

Notation "'let*' x ':=' c 'in' k" := (bind c (fun x => k))
  (at level 10, x pattern, c at level 200, k at level 200).
Notation "c ';;' k" := (bind c (fun _ => k))
  (at level 100, k at level 200, right associativity).

(** ** Python operations on JSON values *)

Section Python.
Context `{py : Platform}.

(** [str(v)], as an f-string formats it *)
Definition py_str (v : json) : string :=
  match v with
  | JNull => "None"
  | JBool true => "True"
  | JBool false => "False"
  | JInt z => pretty z
  | JStr s => s
  | _ => py_repr v
  end.

(** [bool(v)] *)
Definition truthy (v : json) : bool :=
  match v with
  | JNull => false
  | JBool b => b
  | JInt z => negb (z =? 0)
  | JFloat q => negb (Qeq_bool q 0%Q)
  | JStr s => negb (bool_decide (s = EmptyString))
  | JArr l => negb (bool_decide (length l = 0%nat))
  | JObj d => negb (bool_decide (size d = 0%nat))
  end.

Definition num_of (v : json) : option Q :=
  match v with
  | JBool b => Some (if b then 1%Q else 0%Q)
  | JInt z => Some (inject_Z z)
  | JFloat q => Some q
  | _ => None
  end.

(** [a == b] *)
Definition py_eq (a b : json) : bool :=
  match a, b with
  | JStr x, JStr y => bool_decide (x = y)
  | JNull, JNull => true
  | (JArr _ | JObj _), (JArr _ | JObj _) => py_eq_compound a b
  | _, _ => match num_of a, num_of b with
            | Some x, Some y => Qeq_bool x y
            | _, _ => false
            end
  end.

(** [v is None] *)
Definition is_none (v : json) : bool :=
  match v with JNull => true | _ => false end.

(** [d.get(k)] and [d.get(k, dflt)] on a dict *)
Definition dict_get (d : gmap string json) (k : string) : json :=
  default JNull (d !! k).

Definition dict_get_or (d : gmap string json) (k : string) (dflt : json) : json :=
  default dflt (d !! k).

Definition type_error (f : fault) : exn := Exn TypeError (fault_text f).
Definition attribute_error (f : fault) : exn := Exn AttributeError (fault_text f).

(** [repr] of a string without quotes or escapes in it, as in the text of
    a [KeyError] *)
Definition key_error (k : string) : exn := Exn KeyError ("'" +:+ k +:+ "'").

(** [v.get]: only a dict has the method *)
Definition as_dict (v : json) : result (gmap string json) :=
  match v with
  | JObj d => Ok d
  | _ => Raise (attribute_error (NoAttribute v "get"))
  end.

(** [v[k]] for a string [k] *)
Definition py_getitem (v : json) (k : string) : result json :=
  match v with
  | JObj d => match d !! k with
              | Some x => Ok x
              | None => Raise (key_error k)
              end
  | _ => Raise (type_error (NotSubscriptable v))
  end.

(** [v[k] = x] for a string [k] *)
Definition py_setitem (v : json) (k : string) (x : json) : result json :=
  match v with
  | JObj d => Ok (JObj (<[k := x]> d))
  | _ => Raise (type_error (NoItemAssignment v))
  end.

(** [d.get(key, dflt)] for a key that is any value: a dict decoded from
    JSON has string keys only, and hashing a list or a dict fails *)
Definition dict_get_any (d : gmap string json) (key dflt : json) : result json :=
  match key with
  | JStr k => Ok (dict_get_or d k dflt)
  | JArr _ | JObj _ => Raise (type_error (Unhashable key))
  | _ => Ok dflt
  end.

(** [for x in v] *)
Definition py_iter (v : json) : result (list json) :=
  match v with
  | JArr l => Ok l
  | JObj d => Ok (JStr <$> (map_to_list d).*1)
  | JStr s => Ok ((fun c => JStr (String c EmptyString))
                    <$> String.list_ascii_of_string s)
  | _ => Raise (type_error (NotIterable v))
  end.

(** [v > 0] *)
Definition py_gt_zero (v : json) : result bool :=
  match num_of v with
  | Some q => Ok (if Qlt_le_dec 0%Q q then true else false)
  | None => Raise (type_error (NotOrdered v))
  end.

(** [v in {s1, s2, ...}] for a set of strings *)
Definition in_str_set (v : json) (set : list string) : result bool :=
  match v with
  | JArr _ | JObj _ => Raise (type_error (Unhashable v))
  | JStr s => Ok (bool_decide (s ∈ set))
  | _ => Ok false
  end.

(** [resp.raise_for_status()] *)
Definition raise_for_status {A} (r : http_reply A) : result A :=
  match r with
  | Reply status body =>
      if bool_decide (400 <= status < 600)
      then Raise (Exn (Foreign "requests.exceptions.HTTPError")
                      (fault_text (HttpStatus status)))
      else Ok body
  | NoReply e => Raise e
  end.

(** [resp.json()] *)
Definition body_json (body : option json) : result json :=
  match body with
  | Some j => Ok j
  | None => Raise (Exn (Foreign "requests.exceptions.JSONDecodeError")
                       (fault_text InvalidJson))
  end.

End Python.


(** ** Small string helpers *)

(** [needle in haystack] between strings *)
Definition str_contains (needle haystack : string) : bool :=
  match String.index 0 needle haystack with
  | Some _ => true
  | None => false
  end.

(** [os.path.basename] *)
Fixpoint basename (path : string) : string :=
  match path with
  | EmptyString => EmptyString
  | String c rest =>
      if str_contains "/" rest then basename rest
      else if bool_decide (c = "/"%char) then rest
      else path
  end.

Definition hex_digit (d : Z) : ascii :=
  nth (Z.to_nat d) (String.list_ascii_of_string "0123456789abcdef") "0"%char.

(** [format(n, "0<width>x")] for [0 <= n < 16 ^ width] *)
Fixpoint hex_fixed (width : nat) (n : Z) : string :=
  match width with
  | O => EmptyString
  | S w => hex_fixed w (n / 16) +:+ String (hex_digit (n `mod` 16)) EmptyString
  end.

(** ** Constants of the modules *)

Definition EXECUTION_TIMEOUT : Z := 300.
Definition PRESIGNED_URL_EXPIRY : Z := 3600 * 24.

Definition WORKFLOW_MAP : gmap string string :=
  <["image_gen" := "flux_image_gen.json"]>
    (<["face_swap" := "face_swap.json"]> ∅).

Definition valid_types : list string := ["image_gen"; "face_swap"].

Record ComfyUIClient := mkClient {
  base_url : string;
  ws_url : string;
  client_id : string;
}.

Record StorageClient := mkStorage {
  bucket : string;
  endpoint : option string;
  region : string;
}.

(** What one message does to the wait loop. *)
Inductive verdict :=
| Continue
| Completed
| Failed (e : exn).

Definition draw_uuid (s : State) : State :=
  mkState (clock s) (S (uuids_drawn s)) (entropy_drawn s) (probes_done s)
          (trace s).

Definition draw_entropy (s : State) : State :=
  mkState (clock s) (uuids_drawn s) (S (entropy_drawn s)) (probes_done s)
          (trace s).

Definition next_probe (s : State) : State :=
  mkState (clock s) (uuids_drawn s) (entropy_drawn s) (S (probes_done s))
          (trace s).

Definition try_except {A} (c : M A) (h : exn -> M A) : M A :=
  fun s => match c s with
           | (Ok a, s') => (Ok a, s')
           | (Raise e, s') => h e s'
           end.

Definition has_key (d : gmap string json) (k : string) : bool :=
  bool_decide (is_Some (d !! k)).

(** [d.items()] for a dict whose document lists its keys in [order]: the
    entries in that order, each once.  Keys that [order] leaves out, of
    which a faithful [order] has none, follow in the order of the map. *)
Fixpoint items_in_order (order : list string) (d : gmap string json)
    : list (string * json) :=
  match order with
  | [] => map_to_list d
  | k :: rest =>
      match d !! k with
      | Some v => (k, v) :: items_in_order rest (delete k d)
      | None => items_in_order rest d
      end
  end.

(** *** pathlib *)

(** The text between the slashes of [s]. *)
Fixpoint split_slash (s : string) : list string :=
  match s with
  | EmptyString => [EmptyString]
  | String c rest =>
      if bool_decide (c = "/"%char) then EmptyString :: split_slash rest
      else match split_slash rest with
           | [] => [String c EmptyString]
           | part :: parts => String c part :: parts
           end
  end.

(** The components [PurePosixPath] keeps: empty ones and single dots are
    dropped. *)
Definition path_parts (s : string) : list string :=
  filter (fun part => part <> EmptyString /\ part <> ".") (split_slash s).

(** The root of a POSIX path: exactly two leading slashes are kept, one
    or three and more are one. *)
Definition path_root (s : string) : string :=
  if String.prefix "///" s then "/"
  else if String.prefix "//" s then "//"
  else if String.prefix "/" s then "/"
  else EmptyString.

(** [str(Path(dir) / name)] *)
Definition Path_join (dir name : string) : string :=
  let joined :=
    if bool_decide (path_root name = EmptyString)
    then path_root dir
         +:+ String.concat "/" (path_parts dir ++ path_parts name)
    else path_root name +:+ String.concat "/" (path_parts name) in
  if bool_decide (joined = EmptyString) then "." else joined.

Section Pipeline.
Context `{py : Platform} `{svc : Services}.

(** *** Library calls *)

(** [random.randint(a, b)]: an integer between [a] and [b], both
    included *)
Definition randint (a b : Z) : M Z :=
  fun s => (Ok (a + entropy (entropy_drawn s) `mod` (b - a + 1)),
            draw_entropy s).

(** [time.sleep(seconds)] *)
Definition sleep (seconds : Z) : M unit :=
  fun s => (Ok tt, emit (Sleep (seconds * 1000)) (tick (seconds * 1000) s)).

(** a file-system call on [path] *)
Definition fs_call (e : effect) (path : string) : M unit :=
  perform e ;;
  match fs_failure path with
  | Some x => raise x
  | None => ret tt
  end.

(** [os.environ[name]] *)
Definition environ_item (name : string) : result string :=
  match environ !! name with
  | Some v => Ok v
  | None => Raise (key_error name)
  end.

(** *** workflow_loader.py *)

(** [workflow[node]["inputs"][field] = value] *)
Definition set_input (workflow : gmap string json) (node field : string)
    (value : json) : result (gmap string json) :=
  bind_result (py_getitem (JObj workflow) node) (fun n =>
  bind_result (py_getitem n "inputs") (fun inputs =>
  bind_result (py_setitem inputs field value) (fun inputs' =>
  bind_result (py_setitem n "inputs" inputs') (fun n' =>
  Ok (<[node := n']> workflow))))).

(** [if node in workflow: workflow[node]["inputs"][field] = value] after
    the test has been made *)
Definition set_inputs (node : string) (fields : list (string * json))
    (workflow : gmap string json) : result (gmap string json) :=
  if has_key workflow node
  then foldl (fun r fv => bind_result r (fun w => set_input w node fv.1 fv.2))
             (Ok workflow) fields
  else Ok workflow.

Definition _inject_image_gen (workflow params : gmap string json)
    : M (gmap string json) :=
  let* prompt := lift (py_getitem (JObj params) "prompt") in
  let negative := dict_get_or params "negative_prompt"
                    (JStr "blurry, low quality, watermark, text") in
  let width := dict_get_or params "width" (JInt 1280) in
  let height := dict_get_or params "height" (JInt 720) in
  let* drawn := randint 0 (2 ^ 32 - 1) in
  let seed := dict_get_or params "seed" (JInt drawn) in
  let steps := dict_get_or params "steps" (JInt 25) in
  let cfg_scale := dict_get_or params "cfg_scale" (JFloat (15 # 2)) in
  let* workflow := lift (set_inputs "3" [("text", prompt)] workflow) in
  let* workflow := lift (set_inputs "4" [("text", negative)] workflow) in
  let* workflow := lift (set_inputs "5" [("width", width);
                                         ("height", height);
                                         ("batch_size", JInt 1)] workflow) in
  let* workflow := lift (set_inputs "6" [("seed", seed);
                                         ("steps", steps);
                                         ("cfg", cfg_scale)] workflow) in
  ret workflow.

Definition _download_image (url : json) (dest_dir prefix : string) : M string :=
  perform (FetchUrl url) ;;
  match url with
  | JStr u =>
      let* resp := lift (raise_for_status (web u)) in
      let content_type := default "image/png" resp.1 in
      let ext := if str_contains "jpeg" content_type then "jpg" else "png" in
      let filename := prefix +:+ "_"
                      +:+ hex_fixed 8 (Z.land (py_hash u) 4294967295)
                      +:+ "." +:+ ext in
      let filepath := dest_dir +:+ "/" +:+ filename in
      fs_call (WriteFile filepath resp.2) filepath ;;
      ret filepath
  | _ => raise (url_rejection url)
  end.

Definition _inject_face_swap (workflow params : gmap string json)
    : M (gmap string json) :=
  let* source_url := lift (py_getitem (JObj params) "source_image") in
  let* target_url := lift (py_getitem (JObj params) "target_image") in
  let face_index := dict_get_or params "face_index" (JInt 0) in
  let restore_face := dict_get_or params "restore_face" (JBool true) in
  let input_dir := default "/opt/comfyui" (environ !! "COMFYUI_PATH")
                   +:+ "/input" in
  fs_call (Makedirs input_dir) input_dir ;;
  let* source_path := _download_image source_url input_dir "source_face" in
  let* target_path := _download_image target_url input_dir "target_image" in
  let* workflow := lift (set_inputs "1"
                     [("image", JStr (basename source_path))] workflow) in
  let* workflow := lift (set_inputs "2"
                     [("image", JStr (basename target_path))] workflow) in
  let* workflow := lift (set_inputs "10"
                     ([("input_faces_index", JStr (py_str face_index));
                       ("console_log_level", JInt 1)]
                      ++ (if truthy restore_face then []
                          else [("face_restore_model", JStr "none")]))
                     workflow) in
  ret workflow.

(** [WORKFLOW_MAP.get(workflow_type)] *)
Definition workflow_filename (workflow_type : json) : result (option string) :=
  match workflow_type with
  | JStr k => Ok (WORKFLOW_MAP !! k)
  | JArr _ | JObj _ => Raise (type_error (Unhashable workflow_type))
  | _ => Ok None
  end.

Definition load (workflow_dir : string) (workflow_type : json)
    (params : gmap string json) : M (gmap string json) :=
  let* filename := lift (workflow_filename workflow_type) in
  match filename with
  | Some filename =>
      if bool_decide (filename = EmptyString)
      then raise (Exn ValueError
                   ("Unknown workflow type: " +:+ py_str workflow_type))
      else
        let template_path := Path_join workflow_dir filename in
        match template_files !! template_path with
        | None =>
            raise (Exn FileNotFoundError
                    ("Workflow template not found: " +:+ template_path))
        | Some content =>
            fs_call (ReadTemplate template_path) template_path ;;
            match content with
            | None => raise (Exn (Foreign "json.JSONDecodeError")
                                 (fault_text InvalidJson))
            | Some workflow =>
                if py_eq workflow_type (JStr "image_gen")
                then _inject_image_gen workflow params
                else if py_eq workflow_type (JStr "face_swap")
                then _inject_face_swap workflow params
                else ret workflow
            end
        end
  | None =>
      raise (Exn ValueError
              ("Unknown workflow type: " +:+ py_str workflow_type))
  end.

(** *** comfyui_client.py *)

Definition ComfyUIClient_init (host port : string) : M ComfyUIClient :=
  fun s => (Ok (mkClient ("http://" +:+ host +:+ ":" +:+ port)
                         ("ws://" +:+ host +:+ ":" +:+ port +:+ "/ws")
                         (uuid_source (uuids_drawn s))),
            draw_uuid s).

(** [except requests.ConnectionError]: the class and its subclasses *)
Definition is_requests_ConnectionError (e : exn) : bool :=
  match exn_cls e with
  | Foreign name =>
      bool_decide (name ∈ ["requests.exceptions.ConnectionError";
                           "requests.exceptions.ConnectTimeout";
                           "requests.exceptions.ProxyError";
                           "requests.exceptions.SSLError"])
  | _ => false
  end.

(** The loop of [wait_for_ready]; [None] when [fuel] iterations did not
    reach an exit. *)
Fixpoint wait_for_ready_loop (fuel : nat) (start timeout : Z) (s : State)
    : option (result bool * State) :=
  match fuel with
  | O => None
  | S fuel' =>
      if bool_decide (clock s - start < timeout * 1000) then
        let (duration, outcome) := system_stats (probes_done s) in
        let s1 := emit GetSystemStats
                    (tick (Z.of_N duration) (next_probe s)) in
        match outcome with
        | Reply status _ =>
            if bool_decide (status = 200) then Some (Ok true, s1)
            else wait_for_ready_loop fuel' start timeout (sleep 2 s1).2
        | NoReply e =>
            if is_requests_ConnectionError e
            then wait_for_ready_loop fuel' start timeout (sleep 2 s1).2
            else Some (Raise e, s1)
        end
      else Some (Ok false, s)
  end.

Definition wait_for_ready (self : ComfyUIClient) (timeout : Z) (fuel : nat)
    (s : State) : option (result bool * State) :=
  wait_for_ready_loop fuel (clock s) timeout s.

Definition _queue_prompt (self : ComfyUIClient) (workflow : gmap string json)
    : M json :=
  perform (PostPrompt workflow (client_id self)) ;;
  let* body := lift (raise_for_status
                       (prompt_endpoint workflow (client_id self))) in
  let* data := lift (body_json body) in
  lift (py_getitem data "prompt_id").

Definition view_image (image_info : json) : M bytes :=
  let* filename := lift (py_getitem image_info "filename") in
  let* info := lift (as_dict image_info) in
  let subfolder := dict_get_or info "subfolder" (JStr EmptyString) in
  let img_type := dict_get_or info "type" (JStr "output") in
  perform (GetView filename subfolder img_type) ;;
  lift (raise_for_status (view_endpoint filename subfolder img_type)).

(** [for image_info in ...: images.append(...)] *)
Fixpoint view_images (infos : list json) (images : list bytes)
    : M (list bytes) :=
  match infos with
  | [] => ret images
  | image_info :: rest =>
      let* content := view_image image_info in
      view_images rest (images ++ [content])
  end.

(** [for node_id, node_output in outputs.items(): ...] *)
Fixpoint view_nodes (nodes : list (string * json)) (images : list bytes)
    : M (list bytes) :=
  match nodes with
  | [] => ret images
  | (node_id, node_output) :: rest =>
      let* out := lift (as_dict node_output) in
      let* infos := lift (py_iter (dict_get_or out "images" (JArr []))) in
      let* images := view_images infos images in
      view_nodes rest images
  end.

Definition _fetch_outputs (self : ComfyUIClient) (prompt_id : json)
    : M (list bytes) :=
  perform (GetHistory (py_str prompt_id)) ;;
  let* body := lift (raise_for_status (history_endpoint (py_str prompt_id))) in
  let* history := lift (body_json body) in
  let* history := lift (as_dict history) in
  let* prompt_history := lift (dict_get_any history prompt_id (JObj ∅)) in
  let* prompt_history := lift (as_dict prompt_history) in
  let outputs := dict_get_or prompt_history "outputs" (JObj ∅) in
  match outputs with
  | JObj d =>
      view_nodes (items_in_order (outputs_order (py_str prompt_id)) d) []
  | _ => raise (attribute_error (NoAttribute outputs "items"))
  end.

(** Lines 97 to 120 of the loop body: what a decoded text message does. *)
Definition on_message (prompt_id : json) (msg : json) : verdict :=
  match msg with
  | JObj m =>
      let msg_type := dict_get m "type" in
      let msg_data := dict_get_or m "data" (JObj ∅) in
      if py_eq msg_type (JStr "executing") then
        match msg_data with
        | JObj d =>
            if py_eq (dict_get d "prompt_id") prompt_id
               && is_none (dict_get d "node")
            then Completed
            else Continue
        | _ => Failed (attribute_error (NoAttribute msg_data "get"))
        end
      else if py_eq msg_type (JStr "execution_error") then
        match msg_data with
        | JObj d =>
            if py_eq (dict_get d "prompt_id") prompt_id then
              let node_id := dict_get_or d "node_id" (JStr "unknown") in
              let error_msg := dict_get_or d "exception_message"
                                 (JStr "Unknown error") in
              Failed (Exn RuntimeError
                        ("ComfyUI execution error in node "
                         +:+ py_str node_id +:+ ": " +:+ py_str error_msg))
            else Continue
        | _ => Failed (attribute_error (NoAttribute msg_data "get"))
        end
      else if py_eq msg_type (JStr "progress") then
        match msg_data with
        | JObj d =>
            if py_eq (dict_get d "prompt_id") prompt_id then
              let max_val := dict_get_or d "max" (JInt 0) in
              match py_gt_zero max_val with
              | Ok _ => Continue
              | Raise e => Failed e
              end
            else Continue
        | _ => Failed (attribute_error (NoAttribute msg_data "get"))
        end
      else Continue
  | _ => Failed (attribute_error (NoAttribute msg "get"))
  end.

(** The loop of [_wait_for_completion] over what the stream delivers. *)
Fixpoint wait_loop (self : ComfyUIClient) (prompt_id : json) (start : Z)
    (ws : stream) : M (list bytes) :=
  fun s =>
    if bool_decide (clock s - start < EXECUTION_TIMEOUT * 1000) then
      match ws with
      | [] =>
          (Raise (Exn (Foreign "websocket.WebSocketConnectionClosedException")
                      "Connection to remote host was lost."),
           emit WsRecv s)
      | (blocked, outcome) :: rest =>
          let s1 := emit WsRecv (tick (Z.of_N blocked) s) in
          match outcome with
          | RecvRaises e => (Raise e, s1)
          | Recv (BinaryFrame _) => wait_loop self prompt_id start rest s1
          | Recv (TextFrame None) =>
              (Raise (Exn (Foreign "json.JSONDecodeError")
                          (fault_text InvalidJson)), s1)
          | Recv (TextFrame (Some msg)) =>
              match on_message prompt_id msg with
              | Continue => wait_loop self prompt_id start rest s1
              | Completed => _fetch_outputs self prompt_id s1
              | Failed e => (Raise e, s1)
              end
          end
      end
    else
      (Raise (Exn TimeoutError
                ("Workflow execution exceeded " +:+ pretty EXECUTION_TIMEOUT
                 +:+ "s timeout")), s).

Definition _wait_for_completion (self : ComfyUIClient) (ws : stream)
    (prompt_id : json) : M (list bytes) :=
  fun s => wait_loop self prompt_id (clock s) ws s.

Definition execute_workflow (self : ComfyUIClient)
    (workflow : gmap string json) (job_id : json) : M (list bytes) :=
  let* prompt_id := _queue_prompt self workflow in
  perform (WsConnect (client_id self)) ;;
  let* ws := lift (ws_endpoint (client_id self)) in
  try_finally (_wait_for_completion self ws prompt_id) (perform WsClose).

(** *** storage.py *)

Definition StorageClient_init : M StorageClient :=
  let* bucket := lift (environ_item "S3_BUCKET") in
  let endpoint := environ !! "S3_ENDPOINT" in
  let region := default "auto" (environ !! "S3_REGION") in
  let* access_key := lift (environ_item "S3_ACCESS_KEY") in
  let* secret_key := lift (environ_item "S3_SECRET_KEY") in
  perform NewS3Client ;;
  match s3_client_failure with
  | Some e => raise e
  | None => ret (mkStorage bucket endpoint region)
  end.

Definition upload (self : StorageClient) (data : bytes) (key : string)
    (content_type : string) : M string :=
  perform (PutObject (bucket self) key data content_type) ;;
  match s3_put_failure (bucket self) key data content_type with
  | Some e => raise e
  | None =>
      perform (PresignGet (bucket self) key PRESIGNED_URL_EXPIRY) ;;
      let* url := lift (s3_presign (bucket self) key PRESIGNED_URL_EXPIRY) in
      ret url
  end.

(** *** handler.py *)

Definition COMFYUI_PORT : string := default "8188" (environ !! "COMFYUI_PORT").
Definition WORKFLOW_DIR : string :=
  default "/opt/handler/workflows" (environ !! "WORKFLOW_DIR").

Definition validate_input (job_input : gmap string json)
    : result (bool * string) :=
  let workflow_type := dict_get job_input "workflow_type" in
  if negb (truthy workflow_type)
  then Ok (false, "Missing required field: workflow_type")
  else
    bind_result (in_str_set workflow_type valid_types) (fun known =>
    if negb known
    then Ok (false, "Invalid workflow_type '" +:+ py_str workflow_type
                    +:+ "'. Must be one of: " +:+ py_repr_set valid_types)
    else if py_eq workflow_type (JStr "image_gen")
            && negb (truthy (dict_get job_input "prompt"))
    then Ok (false, "image_gen requires 'prompt' field")
    else if py_eq workflow_type (JStr "face_swap")
            && negb (truthy (dict_get job_input "source_image"))
    then Ok (false, "face_swap requires 'source_image' field")
    else if py_eq workflow_type (JStr "face_swap")
            && negb (truthy (dict_get job_input "target_image"))
    then Ok (false, "face_swap requires 'target_image' field")
    else Ok (true, EmptyString)).

Definition error_envelope (message : string) : gmap string json :=
  {[ "error" := JStr message ]}.

(** [for i, image_data in enumerate(output_images): ...] *)
Fixpoint upload_all (storage : StorageClient) (job_id workflow_type : json)
    (i : Z) (output_images : list bytes) (urls : list string)
    : M (list string) :=
  match output_images with
  | [] => ret urls
  | image_data :: rest =>
      let key := "outputs/" +:+ py_str job_id +:+ "/"
                 +:+ py_str workflow_type +:+ "_" +:+ pretty i +:+ ".png" in
      let* url := upload storage image_data key "image/png" in
      upload_all storage job_id workflow_type (i + 1) rest (urls ++ [url])
  end.

(** The body of the [try] statement of [handler]. *)
Definition handler_try (job_input : gmap string json)
    (job_id workflow_type : json) : M (gmap string json) :=
  let* workflow := load WORKFLOW_DIR workflow_type job_input in
  let* client := ComfyUIClient_init "127.0.0.1" COMFYUI_PORT in
  let* output_images := execute_workflow client workflow job_id in
  if bool_decide (output_images = [])
  then ret (error_envelope "Workflow produced no output images")
  else
    let* storage := StorageClient_init in
    let* urls := upload_all storage job_id workflow_type 0 output_images [] in
    ret (<["status" := JStr "success"]>
         (<["output_urls" := JArr (JStr <$> urls)]>
          (<["workflow_type" := workflow_type]>
           (<["job_id" := job_id]> ∅)))).

(** Its [except] clauses: [TimeoutError] first, then [Exception]. *)
Definition handler_except (e : exn) : M (gmap string json) :=
  match exn_cls e with
  | TimeoutError => ret (error_envelope "Workflow execution timed out")
  | _ => ret (error_envelope (exn_msg e))
  end.

Definition handler (job : gmap string json) : M (gmap string json) :=
  let* job_input := lift (as_dict (dict_get_or job "input" (JObj ∅))) in
  let job_id := dict_get_or job "id" (JStr "unknown") in
  let* (valid, error) := lift (validate_input job_input) in
  if negb valid then ret (error_envelope error)
  else
    let* workflow_type := lift (py_getitem (JObj job_input) "workflow_type") in
    try_except (handler_try job_input job_id workflow_type) handler_except.

End Pipeline.

(** ** Observers used in the statements *)

(** The client ids shown to the render engine, in order: one for each
    submission and one for each stream connection. *)
Definition presented_ids (t : list effect) : list string :=
  omap (fun e => match e with
                 | PostPrompt _ c => Some c
                 | WsConnect c => Some c
                 | _ => None
                 end) t.

(** [c] draws no client id and shows the engine only ids satisfying [P]. *)
Definition only_shows (P : string -> Prop) {A} (c : M A) : Prop :=
  forall s,
    uuids_drawn (c s).2 = uuids_drawn s
    /\ exists ids, presented_ids (trace (c s).2) = presented_ids (trace s) ++ ids
                   /\ Forall P ids.

(** Between [s] and [s'] the engine was shown nothing but the id that the
    uuid source yields next in [s], and at most that one id was drawn. *)
Definition fresh_id_shown `{svc : Services} (s s' : State) : Prop :=
  exists ids,
    presented_ids (trace s') = presented_ids (trace s) ++ ids
    /\ Forall (eq (uuid_source (uuids_drawn s))) ids
    /\ (uuids_drawn s' = uuids_drawn s /\ ids = []
        \/ uuids_drawn s' = S (uuids_drawn s)).

(** [workflow[node]["inputs"][field]], when all three exist *)
Definition slot (workflow : gmap string json) (node field : string)
    : option json :=
  match workflow !! node with
  | Some (JObj n) => match n !! "inputs" with
                     | Some (JObj i) => i !! field
                     | _ => None
                     end
  | _ => None
  end.

(** A node of a job graph carries a dict of inputs. *)
Definition node_ok (workflow : gmap string json) (node : string) : Prop :=
  forall n, workflow !! node = Some n ->
    exists fields inputs, n = JObj fields /\ fields !! "inputs" = Some (JObj inputs).

(** Values [hash] accepts. *)
Definition hashable (v : json) : bool :=
  match v with
  | JArr _ | JObj _ => false
  | _ => true
  end.

(** Total time a stream blocks the receiver. *)
Definition total_blocked (ws : stream) : Z :=
  foldr (fun e acc => Z.of_N e.1 + acc) 0 ws.

(** The state after the frames of [ws] have been received. *)
Fixpoint received (ws : stream) (s : State) : State :=
  match ws with
  | [] => s
  | (blocked, _) :: rest => received rest (emit WsRecv (tick (Z.of_N blocked) s))
  end.

(** Frames the wait loop passes over: binary ones, and messages on which
    [on_message] continues. *)
Definition ignored `{py : Platform} (prompt_id : json) (e : N * recv_outcome)
    : Prop :=
  match e.2 with
  | Recv (BinaryFrame _) => True
  | Recv (TextFrame (Some msg)) => on_message prompt_id msg = Continue
  | _ => False
  end.


(** A message with the two keys the loop reads. *)
Definition event (type : string) (data : gmap string json) : gmap string json :=
  <["type" := JStr type]> (<["data" := JObj data]> ∅).

Definition progress_data (prompt_id : json) (value max : Z) : gmap string json :=
  <["prompt_id" := prompt_id]>
    (<["value" := JInt value]> (<["max" := JInt max]> ∅)).

Definition progress_message (prompt_id : json) (value max : Z) : json :=
  JObj (event "progress" (progress_data prompt_id value max)).

Definition progress_stream (events : list (N * (json * Z * Z))) : stream :=
  (fun e => (e.1, Recv (TextFrame (Some (progress_message e.2.1.1 e.2.1.2 e.2.2)))))
    <$> events.

Definition executing_data (prompt_id node : json) : gmap string json :=
  <["prompt_id" := prompt_id]> (<["node" := node]> ∅).

Definition execution_error_data (prompt_id node_id message : json)
    : gmap string json :=
  <["prompt_id" := prompt_id]>
    (<["node_id" := node_id]> (<["exception_message" := message]> ∅)).

(** Probe outcomes [wait_for_ready] lets pass: any response, and the
    exceptions its [except] clause names. *)
Definition probe_tolerated (o : http_reply unit) : Prop :=
  match o with
  | Reply _ _ => True
  | NoReply e => is_requests_ConnectionError e = true
  end.

Definition probe_up (o : http_reply unit) : bool :=
  match o with
  | Reply status _ => bool_decide (status = 200)
  | NoReply _ => false
  end.

(** Polling rounds in a trace: a probe, then a sleep of two seconds. *)
Fixpoint polling (rounds : nat) : list effect :=
  match rounds with
  | O => []
  | S k => GetSystemStats :: Sleep 2000 :: polling k
  end.

(** ** A stub deployment, to run the model on concrete inputs *)

Definition stub_platform : Platform := {|
  py_repr := fun _ => "<repr>";
  py_repr_set := fun l =>
    "{" +:+ String.concat ", " ((fun x => "'" +:+ x +:+ "'") <$> l) +:+ "}";
  py_eq_compound := fun _ _ => false;
  py_hash := fun u => Z.of_nat (String.length u);
  fault_text := fun f =>
    match f with
    | Unhashable _ => "unhashable type"
    | NoAttribute _ attr => "object has no attribute '" +:+ attr +:+ "'"
    | NotSubscriptable _ => "object is not subscriptable"
    | NoItemAssignment _ => "object does not support item assignment"
    | NotIterable _ => "object is not iterable"
    | NotOrdered _ => "'>' not supported"
    | InvalidJson => "Expecting value"
    | HttpStatus code => pretty code +:+ " Error"
    end;
|}.

Definition filled_node (class_type : string) (inputs : gmap string json)
    : json :=
  JObj (<["class_type" := JStr class_type]> (<["inputs" := JObj inputs]> ∅)).

Definition stub_template : gmap string json :=
  <["3" := filled_node "CLIPTextEncode" ∅]>
  (<["4" := filled_node "CLIPTextEncode" ∅]>
   (<["5" := filled_node "EmptyLatentImage" ∅]>
    (<["6" := filled_node "KSampler" ∅]> ∅))).

(** the template with the defaults and the prompt [a kitchen] in it *)
Definition stub_graph : gmap string json :=
  <["3" := filled_node "CLIPTextEncode" {[ "text" := JStr "a kitchen" ]}]>
  (<["4" := filled_node "CLIPTextEncode"
             {[ "text" := JStr "blurry, low quality, watermark, text" ]}]>
   (<["5" := filled_node "EmptyLatentImage"
               (<["width" := JInt 1280]>
                (<["height" := JInt 720]> (<["batch_size" := JInt 1]> ∅)))]>
    (<["6" := filled_node "KSampler"
                (<["seed" := JInt 12345]>
                 (<["steps" := JInt 25]>
                  (<["cfg" := JFloat (15 # 2)]> ∅)))]> ∅))).

Definition stub_history : json :=
  JObj {[ "p-1" :=
    JObj {[ "outputs" :=
      JObj {[ "9" :=
        JObj {[ "images" :=
          JArr [JObj {[ "filename" := JStr "out.png" ]}] ]} ]} ]} ]}.

Definition stub_services (probes : nat -> N * http_reply unit)
    (events : stream) (history : json) (put_failure : option exn)
    : Services := {|
  uuid_source := fun n => "client-" +:+ pretty n;
  entropy := fun n => 2 ^ 40 + 12345 + Z.of_nat n;
  environ := <["S3_BUCKET" := "results"]>
             (<["S3_ACCESS_KEY" := "ak"]> (<["S3_SECRET_KEY" := "sk"]> ∅));
  template_files :=
    {[ "/opt/handler/workflows/flux_image_gen.json" := Some stub_template ]};
  system_stats := probes;
  prompt_endpoint := fun _ _ =>
    Reply 200 (Some (JObj {[ "prompt_id" := JStr "p-1" ]}));
  ws_endpoint := fun _ => Ok events;
  history_endpoint := fun _ => Reply 200 (Some history);
  outputs_order := fun _ => ["9"];
  view_endpoint := fun _ _ _ => Reply 200 [Byte.x89; Byte.x50];
  web := fun _ => Reply 200 (Some "image/jpeg", []);
  url_rejection := fun _ => Exn (Foreign "requests.exceptions.MissingSchema")
                                "Invalid URL";
  fs_failure := fun _ => None;
  s3_client_failure := None;
  s3_put_failure := fun _ _ _ _ => put_failure;
  s3_presign := fun b k _ => Ok ("https://" +:+ b +:+ ".example/" +:+ k);
|}.

Definition never_up : nat -> N * http_reply unit :=
  fun _ => (10%N, NoReply (Exn (Foreign "requests.exceptions.ConnectionError")
                               "Connection refused")).

(** refused twice, then up *)
Definition up_at_third : nat -> N * http_reply unit :=
  fun n => if (n <? 2)%nat then never_up n else (10%N, Reply 200 tt).

(** the port accepts the connection but the response does not come *)
Definition hung : nat -> N * http_reply unit :=
  fun _ => (5000%N, NoReply (Exn (Foreign "requests.exceptions.ReadTimeout")
                                 "Read timed out. (read timeout=5)")).

Definition initial_state : State := mkState 0 0 0 0 [].

Definition stub_client : ComfyUIClient :=
  mkClient "http://127.0.0.1:8188" "ws://127.0.0.1:8188/ws" "client-0".

Definition image_gen_input : gmap string json :=
  <["workflow_type" := JStr "image_gen"]> (<["prompt" := JStr "a kitchen"]> ∅).

Definition image_gen_job : gmap string json :=
  <["id" := JStr "job-1"]> (<["input" := JObj image_gen_input]> ∅).

(** [{"input": {"prompt": "test"}}], the first request of the smoke test *)
Definition untyped_input : gmap string json := <["prompt" := JStr "test"]> ∅.
Definition untyped_job : gmap string json :=
  <["id" := JStr "job-2"]> (<["input" := JObj untyped_input]> ∅).

Definition list_typed_job : gmap string json :=
  <["id" := JStr "job-3"]>
  (<["input" := JObj (<["workflow_type" := JArr [JStr "image_gen"]]> ∅)]> ∅).

Definition blank_prompt_input : gmap string json :=
  <["workflow_type" := JStr "image_gen"]> (<["prompt" := JStr EmptyString]> ∅).
Definition blank_prompt_job : gmap string json :=
  <["id" := JStr "job-4"]> (<["input" := JObj blank_prompt_input]> ∅).

Definition finished_stream : stream :=
  [(5%N, Recv (BinaryFrame []));
   (20%N, Recv (TextFrame (Some (progress_message (JStr "p-1") 25 25))));
   (20%N, Recv (TextFrame (Some (JObj (event "executing"
                                         (executing_data (JStr "p-1") JNull))))))].

(** four progress events, one every hundred seconds *)
Definition slow_progress : list (N * (json * Z * Z)) :=
  [(100000%N, (JStr "p-1", 5, 25)); (100000%N, (JStr "p-1", 15, 25));
   (100000%N, (JStr "p-1", 25, 25)); (100000%N, (JStr "p-1", 25, 25))].

Definition bad_seed : gmap string json :=
  execution_error_data (JStr "p-1") (JStr "7") (JStr "bad seed").

Definition before_failure : stream :=
  [(5%N, Recv (BinaryFrame []));
   (20%N, Recv (TextFrame (Some (progress_message (JStr "p-1") 1 25))))].

Definition after_failure : stream :=
  [(20%N, Recv (TextFrame (Some (JObj (event "executing"
                                         (executing_data (JStr "p-1") JNull))))))].

Definition failing_stream : stream :=
  before_failure
  ++ (20%N, Recv (TextFrame (Some (JObj (event "execution_error" bad_seed)))))
  :: after_failure.

Definition access_denied : exn :=
  Exn (Foreign "botocore.exceptions.ClientError") "AccessDenied".

Definition working : Services :=
  stub_services never_up finished_stream stub_history None.
Definition stalling : Services :=
  stub_services never_up (progress_stream slow_progress) stub_history None.
Definition node_failing : Services :=
  stub_services never_up failing_stream stub_history None.
Definition fruitless : Services :=
  stub_services never_up finished_stream (JObj ∅) None.
Definition read_only : Services :=
  stub_services never_up finished_stream stub_history (Some access_denied).
Definition starting : Services :=
  stub_services up_at_third finished_stream stub_history None.
Definition hanging : Services :=
  stub_services hung finished_stream stub_history None.

Definition after_first_job : State :=
  (handler (py := stub_platform) (svc := working) image_gen_job initial_state).2.
Definition after_second_job : State :=
  (handler (py := stub_platform) (svc := working) image_gen_job after_first_job).2.

(** ** handler.py: launching the engine *)

Section Startup.
Context `{svc : Services}.

(** [start_comfyui].  [launch_failure] is the exception of
    [subprocess.Popen], if it raises one; the thread that drains the log of
    the engine takes no part in what the function returns. *)
Definition start_comfyui (launch_failure : option exn) (fuel : nat) (s : State)
    : option (result unit * State) :=
  match launch_failure with
  | Some e => Some (Raise e, s)
  | None =>
      match ComfyUIClient_init "127.0.0.1" COMFYUI_PORT s with
      | (Ok client, s1) =>
          match wait_for_ready client 120 fuel s1 with
          | Some (Ok true, s2) => Some (Ok tt, s2)
          | Some (Ok false, s2) =>
              Some (Raise (Exn RuntimeError
                             "ComfyUI failed to start within timeout"), s2)
          | Some (Raise e, s2) => Some (Raise e, s2)
          | None => None
          end
      | (Raise e, s1) => Some (Raise e, s1)
      end
  end.

End Startup.

(** ** More observers *)

(** The name under which [_download_image] stages the content of [u]. *)
Definition staged_filename `{py : Platform} (prefix u : string)
    (content_type : option string) : string :=
  prefix +:+ "_" +:+ hex_fixed 8 (Z.land (py_hash u) 4294967295) +:+ "."
  +:+ (if str_contains "jpeg" (default "image/png" content_type)
       then "jpg" else "png").

(** The directory the reference images are staged in. *)
Definition staging_dir `{svc : Services} : string :=
  default "/opt/comfyui" (environ !! "COMFYUI_PATH") +:+ "/input".

(** The key under which [handler] stores the image of index [i]. *)
Definition output_key `{py : Platform} (job_id workflow_type : json) (i : Z)
    : string :=
  "outputs/" +:+ py_str job_id +:+ "/" +:+ py_str workflow_type +:+ "_"
  +:+ pretty i +:+ ".png".

(** The image entries of one node of the history, in order. *)
Definition image_entries `{py : Platform} (node_output : json) : list json :=
  match node_output with
  | JObj out =>
      match py_iter (dict_get_or out "images" (JArr [])) with
      | Ok l => l
      | Raise _ => []
      end
  | _ => []
  end.

(** [content] is what the engine serves for the entry [image_info]. *)
Definition retrieved `{svc : Services} (image_info : json) (content : bytes)
    : Prop :=
  exists info filename status,
    image_info = JObj info
    /\ info !! "filename" = Some filename
    /\ view_endpoint filename (dict_get_or info "subfolder" (JStr EmptyString))
         (dict_get_or info "type" (JStr "output"))
       = Reply status content
    /\ ~ (400 <= status < 600).

(** The calls that store one image and presign its URL. *)
Definition stored `{py : Platform} (self : StorageClient)
    (job_id workflow_type : json) (i : Z) (image : bytes) : list effect :=
  [PutObject (bucket self) (output_key job_id workflow_type i) image "image/png";
   PresignGet (bucket self) (output_key job_id workflow_type i)
     PRESIGNED_URL_EXPIRY].

(** Effects that belong to an open stream. *)
Definition on_stream (e : effect) : bool :=
  match e with
  | WsRecv | GetHistory _ | GetView _ _ _ => true
  | _ => false
  end.

(** ** A second stub deployment, with both templates *)

Definition swap_template : gmap string json :=
  <["1" := filled_node "LoadImage" ∅]>
  (<["2" := filled_node "LoadImage" ∅]>
   (<["10" := filled_node "ReActorFaceSwap"
                {[ "face_restore_model" := JStr "codeformer.pth" ]}]> ∅)).

(** [a.jpg] is served as JPEG, [b.png] without a content type, anything
    else is not found. *)
Definition stub_web (u : string) : http_reply (option string * bytes) :=
  if bool_decide (u = "https://x/a.jpg")
  then Reply 200 (Some "image/jpeg", [Byte.xff; Byte.xd8])
  else if bool_decide (u = "https://x/b.png")
  then Reply 200 (None, [Byte.x89; Byte.x50])
  else Reply 404 (None, []).

Definition stub_deployment (env : gmap string string) (events : stream)
    (history : json) : Services := {|
  uuid_source := fun n => "client-" +:+ pretty n;
  entropy := fun n => 2 ^ 40 + 12345 + Z.of_nat n;
  environ := env;
  template_files :=
    <["/opt/handler/workflows/flux_image_gen.json" := Some stub_template]>
    (<["/opt/handler/workflows/face_swap.json" := Some swap_template]> ∅);
  system_stats := never_up;
  prompt_endpoint := fun _ _ =>
    Reply 200 (Some (JObj {[ "prompt_id" := JStr "p-1" ]}));
  ws_endpoint := fun _ => Ok events;
  history_endpoint := fun _ => Reply 200 (Some history);
  outputs_order := fun _ => ["9"];
  view_endpoint := fun _ _ _ => Reply 200 [Byte.x89; Byte.x50];
  web := stub_web;
  url_rejection := fun _ => Exn (Foreign "requests.exceptions.MissingSchema")
                                "Invalid URL";
  fs_failure := fun _ => None;
  s3_client_failure := None;
  s3_put_failure := fun _ _ _ _ => None;
  s3_presign := fun b k _ => Ok ("https://" +:+ b +:+ ".example/" +:+ k);
|}.

Definition configured : gmap string string :=
  <["S3_BUCKET" := "results"]>
  (<["S3_ACCESS_KEY" := "ak"]> (<["S3_SECRET_KEY" := "sk"]> ∅)).

Definition swapping : Services :=
  stub_deployment configured finished_stream stub_history.

(** no bucket is configured *)
Definition bucketless : Services :=
  stub_deployment (<["S3_ACCESS_KEY" := "ak"]> (<["S3_SECRET_KEY" := "sk"]> ∅))
    finished_stream stub_history.

Definition swap_input : gmap string json :=
  <["workflow_type" := JStr "face_swap"]>
  (<["source_image" := JStr "https://x/a.jpg"]>
   (<["target_image" := JStr "https://x/b.png"]>
    (<["face_index" := JInt 1]> ∅))).

Definition swap_job : gmap string json :=
  <["id" := JStr "job-5"]> (<["input" := JObj swap_input]> ∅).

(** ** Observers of the remaining code *)

(** The calls that store [images], numbered from [i]. *)
Fixpoint stored_all `{py : Platform} (self : StorageClient)
    (job_id workflow_type : json) (i : Z) (images : list bytes) : list effect :=
  match images with
  | [] => []
  | image :: rest =>
      stored self job_id workflow_type i image
      ++ stored_all self job_id workflow_type (i + 1) rest
  end.

(** Every call [c] makes satisfies [P]. *)
Definition only_emits (P : effect -> bool) {A} (c : M A) : Prop :=
  forall s, exists t, trace (c s).2 = trace s ++ t /\ forallb P t = true.

(** The slots [_inject_image_gen] writes and what it writes to them, for
    the prompt of the request and the seed that was drawn. *)
Definition image_gen_slots (params : gmap string json) (prompt : json)
    (drawn : Z) : list (string * string * json) :=
  [("3", "text", prompt);
   ("4", "text", dict_get_or params "negative_prompt"
                   (JStr "blurry, low quality, watermark, text"));
   ("5", "width", dict_get_or params "width" (JInt 1280));
   ("5", "height", dict_get_or params "height" (JInt 720));
   ("5", "batch_size", JInt 1);
   ("6", "seed", dict_get_or params "seed" (JInt drawn));
   ("6", "steps", dict_get_or params "steps" (JInt 25));
   ("6", "cfg", dict_get_or params "cfg_scale" (JFloat (15 # 2)))].

(** The exception in which fetching [url] ends, if it does: the URL is
    refused, the request fails, or the status is an error. *)
Definition fetch_failure `{py : Platform} `{svc : Services} (url : json)
    : option exn :=
  match url with
  | JStr u =>
      match raise_for_status (web u) with
      | Raise e => Some e
      | Ok _ => None
      end
  | _ => Some (url_rejection url)
  end.



(** What [handler] reports for an exception that leaves its [try] block:
    a fixed text for [TimeoutError], [str(e)] for every other one. *)
Definition failure_text (e : exn) : string :=
  match exn_cls e with
  | TimeoutError => "Workflow execution timed out"
  | _ => exn_msg e
  end.

(** ** More stub values *)




(** a history document that lists node 8 before node 9 *)
Definition two_node_outputs : gmap string json :=
  <["8" := JObj {[ "images" := JArr [JObj {[ "filename" := JStr "a.png" ]}] ]}]>
  (<["9" := JObj {[ "images" := JArr [JObj {[ "filename" := JStr "b.png" ]}] ]}]>
     ∅).

Definition two_node_history : gmap string json :=
  {[ "p-1" := JObj {[ "outputs" := JObj two_node_outputs ]} ]}.

(** the engine serves one byte for [a.png] and another for any other
    file *)
Definition archive : Services := {|
  uuid_source := @uuid_source swapping;
  entropy := @entropy swapping;
  environ := configured;
  template_files := @template_files swapping;
  system_stats := never_up;
  prompt_endpoint := @prompt_endpoint swapping;
  ws_endpoint := @ws_endpoint swapping;
  history_endpoint := fun _ => Reply 200 (Some (JObj two_node_history));
  outputs_order := fun _ => ["8"; "9"];
  view_endpoint := fun filename _ _ =>
    match filename with
    | JStr name =>
        if bool_decide (name = "a.png") then Reply 200 [Byte.x01]
        else Reply 200 [Byte.x02]
    | _ => Reply 404 []
    end;
  web := stub_web;
  url_rejection := @url_rejection swapping;
  fs_failure := fun _ => None;
  s3_client_failure := None;
  s3_put_failure := fun _ _ _ _ => None;
  s3_presign := @s3_presign swapping;
|}.

(** the engine refuses every submission *)
Definition refusing : Services := {|
  uuid_source := @uuid_source swapping;
  entropy := @entropy swapping;
  environ := configured;
  template_files := @template_files swapping;
  system_stats := never_up;
  prompt_endpoint := fun _ _ => Reply 500 None;
  ws_endpoint := @ws_endpoint swapping;
  history_endpoint := @history_endpoint swapping;
  outputs_order := @outputs_order swapping;
  view_endpoint := @view_endpoint swapping;
  web := stub_web;
  url_rejection := @url_rejection swapping;
  fs_failure := fun _ => None;
  s3_client_failure := None;
  s3_put_failure := fun _ _ _ _ => None;
  s3_presign := @s3_presign swapping;
|}.

(** the workflow directory is configured with a trailing slash, and holds
    no template *)
Definition relocated : Services :=
  stub_deployment (<["WORKFLOW_DIR" := "/opt/wf/"]> configured)
    finished_stream stub_history.

(** a template whose text node has no inputs *)
Definition bare_template : gmap string json :=
  {[ "3" := JObj {[ "class_type" := JStr "CLIPTextEncode" ]} ]}.

Definition stub_storage : StorageClient := mkStorage "results" None "auto".

Definition two_images : list bytes :=
  [[Byte.x89; Byte.x50]; [Byte.xff; Byte.xd8]].

(** the source image of the request is not on the web server *)
Definition lost_source_input : gmap string json :=
  <["source_image" := JStr "https://x/missing.jpg"]> swap_input.

(** a progress event whose data is a number *)
Definition flat_progress : gmap string json :=
  <["type" := JStr "progress"]> (<["data" := JInt 3]> ∅).

(** a progress event whose maximum is a string *)
Definition quoted_max : gmap string json :=
  <["prompt_id" := JStr "p-1"]>
    (<["value" := JInt 1]> (<["max" := JStr "25"]> ∅)).

(** the reply to the first job of the working deployment *)
Definition first_reply : gmap string json :=
  <["status" := JStr "success"]>
  (<["output_urls" :=
       JArr [JStr "https://results.example/outputs/job-1/image_gen_0.png"]]>
   (<["workflow_type" := JStr "image_gen"]>
    (<["job_id" := JStr "job-1"]> ∅))).

(** what the working deployment streams before the completion *)
Definition before_completion : stream :=
  [(5%N, Recv (BinaryFrame []));
   (20%N, Recv (TextFrame (Some (progress_message (JStr "p-1") 25 25))))].

(** * Properties *)

Ltac in_list := apply list_elem_of_In; cbn; auto 10.
Ltac no_dup := apply (bool_decide_unpack _); vm_compute; exact I.

(** Closes an equation between closed terms by evaluating its left side. *)
Ltac evaluated :=
  lazymatch goal with
  | |- _ = ?r => vm_cast_no_check (eq_refl r)
  end.

(** ** The model on the stub deployment *)

Example template_is_filled :
  load (py := stub_platform) (svc := working) "/opt/handler/workflows"
    (JStr "image_gen") image_gen_input initial_state
  = (Ok stub_graph,
     mkState 0 0 1 0
       [ReadTemplate "/opt/handler/workflows/flux_image_gen.json"]).
Proof. evaluated. Qed.

(** The engine reports completion at once: the run goes on to the history
    and the job succeeds. *)
Example working_job_succeeds :
  (handler (py := stub_platform) (svc := working) image_gen_job initial_state).1
  = Ok (<["status" := JStr "success"]>
        (<["output_urls" :=
             JArr [JStr "https://results.example/outputs/job-1/image_gen_0.png"]]>
         (<["workflow_type" := JStr "image_gen"]>
          (<["job_id" := JStr "job-1"]> ∅)))).
Proof. evaluated. Qed.

Example working_job_trace :
  trace after_first_job
  = [ReadTemplate "/opt/handler/workflows/flux_image_gen.json";
     PostPrompt stub_graph "client-0";
     WsConnect "client-0"; WsRecv; WsRecv; WsRecv;
     GetHistory "p-1";
     GetView (JStr "out.png") (JStr EmptyString) (JStr "output");
     WsClose; NewS3Client;
     PutObject "results" "outputs/job-1/image_gen_0.png"
       [Byte.x89; Byte.x50] "image/png";
     PresignGet "results" "outputs/job-1/image_gen_0.png" 86400].
Proof. evaluated. Qed.

Example stalled_job_times_out :
  (handler (py := stub_platform) (svc := stalling) image_gen_job
     initial_state).1
  = Ok (error_envelope "Workflow execution timed out")
  /\ clock (handler (py := stub_platform) (svc := stalling) image_gen_job
              initial_state).2 = 300000.
Proof. split; evaluated. Qed.

Example failed_node_is_reported :
  (handler (py := stub_platform) (svc := node_failing) image_gen_job
     initial_state).1
  = Ok (error_envelope "ComfyUI execution error in node 7: bad seed").
Proof. evaluated. Qed.

Example fruitless_job_is_reported :
  (handler (py := stub_platform) (svc := fruitless) image_gen_job
     initial_state).1
  = Ok (error_envelope "Workflow produced no output images").
Proof. evaluated. Qed.

(** [pathlib] on directories that are not in normal form. *)
Example path_join_normalises :
  Path_join "/opt/handler/workflows" "face_swap.json"
  = "/opt/handler/workflows/face_swap.json"
  /\ Path_join "/opt/wf/" "f.json" = "/opt/wf/f.json"
  /\ Path_join "/opt//wf" "f.json" = "/opt/wf/f.json"
  /\ Path_join "./a/./b/" "f.json" = "a/b/f.json"
  /\ Path_join "a/../b" "f.json" = "a/../b/f.json"
  /\ Path_join "//x/y" "f.json" = "//x/y/f.json"
  /\ Path_join "///x" "f.json" = "/x/f.json"
  /\ Path_join "/" "f.json" = "/f.json"
  /\ Path_join EmptyString "f.json" = "f.json"
  /\ Path_join "." "f.json" = "f.json".
Proof. repeat split; reflexivity. Qed.

(** The nodes of a history are visited in the order of its document. *)
Example outputs_follow_the_document :
  (items_in_order ["8"; "9"] two_node_outputs).*1 = ["8"; "9"]
  /\ (items_in_order ["9"; "8"] two_node_outputs).*1 = ["9"; "8"]
  /\ (_fetch_outputs (py := stub_platform) (svc := archive) stub_client
        (JStr "p-1") initial_state).1
     = Ok [[Byte.x01]; [Byte.x02]].
Proof. repeat split; vm_compute; reflexivity. Qed.

Example unknown_type_is_rejected :
  handler (py := stub_platform) (svc := working)
    (<["input" := JObj (<["workflow_type" := JStr "nonexistent"]> ∅)]> ∅)
    initial_state
  = (Ok (error_envelope
           ("Invalid workflow_type 'nonexistent'. Must be one of: "
            +:+ "{'image_gen', 'face_swap'}")),
     initial_state).
Proof. evaluated. Qed.

(** ** handler.py: validation and the result envelope *)

Section Orchestrator.
Context `{py : Platform} `{svc : Services}.

Lemma dict_get_some (d : gmap string json) k v :
  d !! k = Some v -> dict_get d k = v.
Proof. unfold dict_get. by intros ->. Qed.

Lemma dict_get_delete (d : gmap string json) k :
  dict_get (delete k d) k = JNull.
Proof. unfold dict_get. by rewrite lookup_delete_eq. Qed.

Lemma dict_get_delete_ne (d : gmap string json) k k' :
  k <> k' -> dict_get (delete k d) k' = dict_get d k'.
Proof. intros. unfold dict_get. by rewrite lookup_delete_ne. Qed.

Lemma input_replaced job job_input :
  dict_get_or (<["input" := JObj job_input]> job) "input" (JObj ∅)
  = JObj job_input.
Proof. unfold dict_get_or. by rewrite lookup_insert_eq. Qed.

(** A request that validation rejects is answered at once: the reply
    carries the validation message and the state is untouched, so no
    template was read and nothing was sent anywhere. *)
Lemma handler_rejects job job_input msg s :
  dict_get_or job "input" (JObj ∅) = JObj job_input ->
  validate_input job_input = Ok (false, msg) ->
  handler job s = (Ok (error_envelope msg), s).
Proof.
  intros Hin Hval. unfold handler, bind, lift.
  rewrite Hin. cbn [as_dict]. rewrite Hval. reflexivity.
Qed.

Lemma validate_missing_type job_input :
  truthy (dict_get job_input "workflow_type") = false ->
  validate_input job_input
  = Ok (false, "Missing required field: workflow_type").
Proof. unfold validate_input. by intros ->. Qed.

Lemma validate_unknown_type job_input name :
  job_input !! "workflow_type" = Some (JStr name) ->
  name <> EmptyString -> name ∉ valid_types ->
  validate_input job_input
  = Ok (false, "Invalid workflow_type '" +:+ name +:+ "'. Must be one of: "
               +:+ py_repr_set valid_types).
Proof.
  intros Hwt Hne Hnot. unfold validate_input.
  rewrite (dict_get_some _ _ _ Hwt). cbn [truthy in_str_set bind_result].
  rewrite !bool_decide_eq_false_2 by done. reflexivity.
Qed.

Lemma validate_image_gen job_input :
  job_input !! "workflow_type" = Some (JStr "image_gen") ->
  validate_input job_input
  = if truthy (dict_get job_input "prompt") then Ok (true, EmptyString)
    else Ok (false, "image_gen requires 'prompt' field").
Proof.
  intros Hwt. unfold validate_input. rewrite (dict_get_some _ _ _ Hwt).
  cbn. by destruct (truthy (dict_get job_input "prompt")).
Qed.

Lemma validate_face_swap job_input :
  job_input !! "workflow_type" = Some (JStr "face_swap") ->
  validate_input job_input
  = if truthy (dict_get job_input "source_image") then
      if truthy (dict_get job_input "target_image") then Ok (true, EmptyString)
      else Ok (false, "face_swap requires 'target_image' field")
    else Ok (false, "face_swap requires 'source_image' field").
Proof.
  intros Hwt. unfold validate_input. rewrite (dict_get_some _ _ _ Hwt).
  cbn. by destruct (truthy (dict_get job_input "source_image")),
            (truthy (dict_get job_input "target_image")).
Qed.

Lemma validate_returns job_input :
  hashable (dict_get job_input "workflow_type") = true ->
  exists valid msg, validate_input job_input = Ok (valid, msg).
Proof.
  intros Hh. unfold validate_input.
  destruct (truthy (dict_get job_input "workflow_type")); cbn [negb]; [|eauto].
  destruct (dict_get job_input "workflow_type"); try discriminate Hh;
    cbn [in_str_set bind_result]; repeat case_match; eauto.
Qed.

Lemma validate_accepts_present job_input msg :
  validate_input job_input = Ok (true, msg) ->
  exists wt, job_input !! "workflow_type" = Some wt.
Proof.
  unfold validate_input, dict_get. intros Hv.
  destruct (job_input !! "workflow_type") as [wt|]; [eauto|].
  cbn in Hv. discriminate.
Qed.

Lemma error_envelope_fields msg :
  error_envelope msg !! "error" = Some (JStr msg)
  /\ error_envelope msg !! "status" = None.
Proof.
  unfold error_envelope. split.
  - apply lookup_singleton_eq.
  - apply lookup_singleton_ne. discriminate.
Qed.

Lemma handler_try_ok job_input job_id wt s envelope s' :
  handler_try job_input job_id wt s = (Ok envelope, s') ->
  envelope = error_envelope "Workflow produced no output images"
  \/ envelope !! "status" = Some (JStr "success").
Proof.
  unfold handler_try, bind, ret. intros Hrun.
  repeat case_match; simplify_eq; auto.
Qed.

Lemma handler_except_ok e s :
  handler_except e s
  = (Ok (error_envelope
           (match exn_cls e with
            | TimeoutError => "Workflow execution timed out"
            | _ => exn_msg e
            end)), s).
Proof. unfold handler_except, ret. by destruct (exn_cls e). Qed.

(** The messages of the failure kinds: what the [try] statement turns
    into a reply. *)
Lemma handler_reports job job_input wt msg s :
  dict_get_or job "input" (JObj ∅) = JObj job_input ->
  validate_input job_input = Ok (true, msg) ->
  job_input !! "workflow_type" = Some wt ->
  handler job s
  = match handler_try job_input (dict_get_or job "id" (JStr "unknown")) wt s with
    | (Ok envelope, s') => (Ok envelope, s')
    | (Raise e, s') =>
        (Ok (error_envelope
               (match exn_cls e with
                | TimeoutError => "Workflow execution timed out"
                | _ => exn_msg e
                end)), s')
    end.
Proof.
  intros Hin Hv Hwt. unfold handler, bind, lift.
  rewrite Hin. cbn [as_dict]. rewrite Hv. cbn [negb py_getitem].
  rewrite Hwt. unfold try_except.
  destruct (handler_try _ _ _ s) as [[envelope|e] s']; [reflexivity|].
  apply handler_except_ok.
Qed.

(** A run that returns no image ends the [try] block with the reply for
    the empty output. *)
Lemma handler_try_empty job_input job_id wt s workflow s1 client s1' s2 :
  load WORKFLOW_DIR wt job_input s = (Ok workflow, s1) ->
  ComfyUIClient_init "127.0.0.1" COMFYUI_PORT s1 = (Ok client, s1') ->
  execute_workflow client workflow job_id s1' = (Ok [], s2) ->
  handler_try job_input job_id wt s
  = (Ok (error_envelope "Workflow produced no output images"), s2).
Proof.
  intros Hload Hinit Hrun. unfold handler_try, bind at 1. rewrite Hload.
  unfold bind at 1. rewrite Hinit. unfold bind at 1. rewrite Hrun.
  reflexivity.
Qed.

(** C4, as the code has it.  Take a request whose [input] is a dict (or
    absent) and whose [workflow_type] is not a list or a dict.
    [handler] always answers it: it returns an envelope and raises
    nothing, and the envelope either reports success, with [status] set
    to [success], or is the one-entry dict [{"error": message}], which
    carries its message under [error] and has no [status] entry.  Every
    failure is answered with such an error envelope.  A request that
    validation rejects gets the validation message, with the state
    untouched.  For a request that validation accepts: an exception that
    leaves the [try] block (loading the template, submitting, waiting,
    retrieving, building the storage client, uploading) gets the text
    [Workflow execution timed out] when it is a [TimeoutError] and its
    own message otherwise; a run that returns no image gets
    [Workflow produced no output images]; and a success envelope is
    returned only when the [try] block itself returned it. *)
Theorem handler_failure_envelope job job_input s :
  dict_get_or job "input" (JObj ∅) = JObj job_input ->
  hashable (dict_get job_input "workflow_type") = true ->
  (exists envelope s',
     handler job s = (Ok envelope, s')
     /\ (envelope !! "status" = Some (JStr "success")
         \/ exists msg, envelope = error_envelope msg
                        /\ envelope !! "error" = Some (JStr msg)
                        /\ envelope !! "status" = None))
  /\ (forall msg,
        validate_input job_input = Ok (false, msg) ->
        handler job s = (Ok (error_envelope msg), s))
  /\ (forall msg wt,
        validate_input job_input = Ok (true, msg) ->
        job_input !! "workflow_type" = Some wt ->
        (forall e s',
            handler_try job_input (dict_get_or job "id" (JStr "unknown")) wt s
            = (Raise e, s') ->
            handler job s = (Ok (error_envelope (failure_text e)), s'))
        /\ (forall workflow s1 client s1' s',
              load WORKFLOW_DIR wt job_input s = (Ok workflow, s1) ->
              ComfyUIClient_init "127.0.0.1" COMFYUI_PORT s1
              = (Ok client, s1') ->
              execute_workflow client workflow
                (dict_get_or job "id" (JStr "unknown")) s1' = (Ok [], s') ->
              handler job s
              = (Ok (error_envelope "Workflow produced no output images"),
                 s'))
        /\ (forall envelope s',
              handler job s = (Ok envelope, s') ->
              envelope !! "status" = Some (JStr "success") ->
              handler_try job_input (dict_get_or job "id" (JStr "unknown"))
                wt s = (Ok envelope, s'))).
Proof.
  intros Hin Hhash. split; [|split].
  - destruct (validate_returns _ Hhash) as (valid & msg & Hv).
    destruct valid.
    + destruct (validate_accepts_present _ _ Hv) as [wt Hwt].
      rewrite (handler_reports _ _ _ _ _ Hin Hv Hwt).
      destruct (handler_try _ _ _ s) as [[envelope|e] s'] eqn:Hrun.
      * eexists _, _. split; [reflexivity|].
        destruct (handler_try_ok _ _ _ _ _ _ Hrun) as [->|Hs];
          [right|left; exact Hs].
        eexists; split; [reflexivity|apply error_envelope_fields].
      * eexists _, _. split; [reflexivity|].
        right. eexists; split; [reflexivity|apply error_envelope_fields].
    + eexists _, _. split; [eapply handler_rejects; eauto|].
      right. eexists; split; [reflexivity|apply error_envelope_fields].
  - intros msg Hv. by apply (handler_rejects job job_input).
  - intros msg wt Hv Hwt.
    rewrite (handler_reports _ _ _ _ _ Hin Hv Hwt). split; [|split].
    + intros e s' ->. reflexivity.
    + intros workflow s1 client s1' s' Hload Hinit Hrun.
      by rewrite (handler_try_empty _ _ _ _ _ _ _ _ _ Hload Hinit Hrun).
    + intros envelope s' Hrun Hstatus.
      destruct (handler_try _ _ _ s) as [[env|e] s1]; [exact Hrun|].
      injection Hrun as <- <-.
      by rewrite (proj2 (error_envelope_fields _)) in Hstatus.
Qed.

(** C5, at the input on which the code departs from it.  A
    [workflow_type] that is a non-empty list passes the truth test and
    then reaches the membership test against the set of known types,
    which hashes it: [validate_input] raises [TypeError], and since the
    call stands before the [try] statement, so does [handler].  No reply
    is returned.  The state is untouched. *)
Theorem handler_raises_on_list_type s :
  handler list_typed_job s
  = (Raise (type_error (Unhashable (JArr [JStr "image_gen"]))), s).
Proof.
  unfold handler, bind, lift.
  replace (dict_get_or list_typed_job "input" (JObj ∅))
    with (JObj (<["workflow_type" := JArr [JStr "image_gen"]]> ∅))
    by reflexivity.
  cbn [as_dict]. unfold validate_input.
  rewrite (dict_get_some _ "workflow_type" (JArr [JStr "image_gen"]))
    by apply lookup_insert_eq.
  reflexivity.
Qed.

(** C10.  A required field that holds the empty string is rejected like
    an absent one: the reply is the missing-field envelope of that field
    (for [target_image], of [source_image] when that one is missing too,
    since it is tested first), the state is untouched, and the request
    with the field removed gets the same reply. *)
Theorem empty_string_is_missing job job_input s :
  dict_get_or job "input" (JObj ∅) = JObj job_input ->
  (job_input !! "workflow_type" = Some (JStr EmptyString) ->
     handler job s
     = (Ok (error_envelope "Missing required field: workflow_type"), s)
     /\ handler (<["input" := JObj (delete "workflow_type" job_input)]> job) s
        = handler job s)
  /\ (job_input !! "workflow_type" = Some (JStr "image_gen") ->
      job_input !! "prompt" = Some (JStr EmptyString) ->
      handler job s
      = (Ok (error_envelope "image_gen requires 'prompt' field"), s)
      /\ handler (<["input" := JObj (delete "prompt" job_input)]> job) s
         = handler job s)
  /\ (job_input !! "workflow_type" = Some (JStr "face_swap") ->
      job_input !! "source_image" = Some (JStr EmptyString) ->
      handler job s
      = (Ok (error_envelope "face_swap requires 'source_image' field"), s)
      /\ handler (<["input" := JObj (delete "source_image" job_input)]> job) s
         = handler job s)
  /\ (job_input !! "workflow_type" = Some (JStr "face_swap") ->
      job_input !! "target_image" = Some (JStr EmptyString) ->
      handler job s
      = (Ok (error_envelope
               (if truthy (dict_get job_input "source_image")
                then "face_swap requires 'target_image' field"
                else "face_swap requires 'source_image' field")), s)
      /\ handler (<["input" := JObj (delete "target_image" job_input)]> job) s
         = handler job s).
Proof.
  intros Hin. split; [|split; [|split]].
  - intros Hwt.
    assert (handler job s
            = (Ok (error_envelope "Missing required field: workflow_type"), s))
      as Hhere.
    { apply (handler_rejects _ _ _ _ Hin), validate_missing_type.
      by rewrite (dict_get_some _ _ _ Hwt). }
    split; [exact Hhere|]. rewrite Hhere.
    apply (handler_rejects _ _ _ _ (input_replaced _ _)),
      validate_missing_type. by rewrite dict_get_delete.
  - intros Hwt Hfield.
    assert (handler job s
            = (Ok (error_envelope "image_gen requires 'prompt' field"), s))
      as Hhere.
    { apply (handler_rejects _ _ _ _ Hin). rewrite validate_image_gen by done.
      by rewrite (dict_get_some _ _ _ Hfield). }
    split; [exact Hhere|]. rewrite Hhere.
    apply (handler_rejects _ _ _ _ (input_replaced _ _)).
    rewrite validate_image_gen by (by rewrite lookup_delete_ne).
    by rewrite dict_get_delete.
  - intros Hwt Hfield.
    assert (handler job s
            = (Ok (error_envelope "face_swap requires 'source_image' field"), s))
      as Hhere.
    { apply (handler_rejects _ _ _ _ Hin). rewrite validate_face_swap by done.
      by rewrite (dict_get_some _ _ _ Hfield). }
    split; [exact Hhere|]. rewrite Hhere.
    apply (handler_rejects _ _ _ _ (input_replaced _ _)).
    rewrite validate_face_swap by (by rewrite lookup_delete_ne).
    by rewrite dict_get_delete.
  - intros Hwt Hfield.
    assert (handler job s
            = (Ok (error_envelope
                     (if truthy (dict_get job_input "source_image")
                      then "face_swap requires 'target_image' field"
                      else "face_swap requires 'source_image' field")), s))
      as Hhere.
    { apply (handler_rejects _ _ _ _ Hin). rewrite validate_face_swap by done.
      rewrite (dict_get_some _ "target_image" _ Hfield).
      by destruct (truthy (dict_get job_input "source_image")). }
    split; [exact Hhere|]. rewrite Hhere.
    apply (handler_rejects _ _ _ _ (input_replaced _ _)).
    rewrite validate_face_swap by (by rewrite lookup_delete_ne).
    rewrite dict_get_delete_ne by done. rewrite dict_get_delete.
    by destruct (truthy (dict_get job_input "source_image")).
Qed.

End Orchestrator.

(** ** comfyui_client.py: the wait loop *)

Section Client.
Context `{py : Platform} `{svc : Services}.

Lemma total_blocked_cons b o ws :
  total_blocked ((b, o) :: ws) = Z.of_N b + total_blocked ws.
Proof. reflexivity. Qed.

Lemma total_blocked_nonneg ws : 0 <= total_blocked ws.
Proof.
  induction ws as [|[b o] ws IH]; [done|].
  rewrite total_blocked_cons. lia.
Qed.


Lemma received_app ws1 ws2 s :
  received (ws1 ++ ws2) s = received ws2 (received ws1 s).
Proof.
  revert s. induction ws1 as [|[b o] ws1 IH]; intros s; [reflexivity|].
  cbn [app received]. apply IH.
Qed.

Lemma received_clock ws s : clock (received ws s) = clock s + total_blocked ws.
Proof.
  revert s. induction ws as [|[b o] ws IH]; intros s; cbn [received].
  - cbn. lia.
  - rewrite IH, total_blocked_cons. cbn. lia.
Qed.

(** *** One message *)

Lemma on_message_foreign prompt_id m d :
  dict_get_or m "data" (JObj ∅) = JObj d ->
  py_eq (dict_get d "prompt_id") prompt_id = false ->
  on_message prompt_id (JObj m) = Continue.
Proof.
  intros Hd Hpid. unfold on_message. rewrite Hd, Hpid. cbn [andb].
  repeat case_match; reflexivity.
Qed.

Lemma on_message_error prompt_id m d :
  m !! "type" = Some (JStr "execution_error") ->
  dict_get_or m "data" (JObj ∅) = JObj d ->
  py_eq (dict_get d "prompt_id") prompt_id = true ->
  on_message prompt_id (JObj m)
  = Failed (Exn RuntimeError
             ("ComfyUI execution error in node "
              +:+ py_str (dict_get_or d "node_id" (JStr "unknown")) +:+ ": "
              +:+ py_str (dict_get_or d "exception_message"
                            (JStr "Unknown error")))).
Proof.
  intros Ht Hd Hpid. unfold on_message, dict_get. rewrite Ht, Hd.
  cbn [default]. unfold dict_get in Hpid. rewrite Hpid. reflexivity.
Qed.


(** Whatever a message of type [progress] holds, it is not taken for
    completion. *)
Lemma on_message_progress_type prompt_id m :
  m !! "type" = Some (JStr "progress") ->
  on_message prompt_id (JObj m) <> Completed.
Proof.
  intros Ht. unfold on_message, dict_get. rewrite Ht. cbn.
  repeat case_match; discriminate.
Qed.

(** *** The loop *)



Lemma wait_loop_message self prompt_id start blocked msg rest s :
  clock s - start < EXECUTION_TIMEOUT * 1000 ->
  wait_loop self prompt_id start
    ((blocked, Recv (TextFrame (Some msg))) :: rest) s
  = match on_message prompt_id msg with
    | Continue => wait_loop self prompt_id start rest
                    (emit WsRecv (tick (Z.of_N blocked) s))
    | Completed => _fetch_outputs self prompt_id
                     (emit WsRecv (tick (Z.of_N blocked) s))
    | Failed e => (Raise e, emit WsRecv (tick (Z.of_N blocked) s))
    end.
Proof. intros Ht. cbn [wait_loop]. by rewrite bool_decide_eq_true_2. Qed.

Lemma wait_loop_skip self prompt_id start prefix rest s :
  Forall (ignored prompt_id) prefix ->
  clock s - start + total_blocked prefix < EXECUTION_TIMEOUT * 1000 ->
  wait_loop self prompt_id start (prefix ++ rest) s
  = wait_loop self prompt_id start rest (received prefix s).
Proof.
  intros Hign. revert s.
  induction Hign as [|[b o] prefix Ho _ IH]; intros s Ht; [reflexivity|].
  rewrite total_blocked_cons in Ht.
  pose proof (total_blocked_nonneg prefix).
  cbn [app wait_loop received].
  rewrite bool_decide_eq_true_2 by lia.
  unfold ignored in Ho. cbn in Ho.
  destruct o as [[bin|[msg|]]|e]; try done.
  - apply IH. cbn. lia.
  - rewrite Ho. apply IH. cbn. lia.
Qed.


(** [execute_workflow] once the submission returned a prompt id and the
    stream is open: the loop starts at the time of the connection, and
    the stream is closed whatever the loop does. *)
Lemma execute_workflow_connected self workflow job_id s prompt_id s1 ws :
  _queue_prompt self workflow s = (Ok prompt_id, s1) ->
  ws_endpoint (client_id self) = Ok ws ->
  execute_workflow self workflow job_id s
  = ((wait_loop self prompt_id (clock s1) ws
        (emit (WsConnect (client_id self)) s1)).1,
     emit WsClose
       (wait_loop self prompt_id (clock s1) ws
          (emit (WsConnect (client_id self)) s1)).2).
Proof.
  intros Hq Hws. unfold execute_workflow, bind at 1. rewrite Hq.
  unfold bind, perform, lift, try_finally, _wait_for_completion.
  rewrite Hws. cbn [emit clock].
  by destruct (wait_loop _ _ _ _ _).
Qed.


(** C2.  After a successful submission, let the stream deliver frames
    the loop passes over, within the deadline, and then an
    [execution_error] message whose prompt id equals the job's.  The run
    fails with a [RuntimeError] whose text names the node id and the
    message of the event; it received up to that frame, closed the
    stream, and did nothing else. *)
Theorem execution_error_fails self workflow job_id s prompt_id s1
    prefix blocked m d rest :
  _queue_prompt self workflow s = (Ok prompt_id, s1) ->
  ws_endpoint (client_id self)
  = Ok (prefix ++ (blocked, Recv (TextFrame (Some (JObj m)))) :: rest) ->
  Forall (ignored prompt_id) prefix ->
  total_blocked prefix < EXECUTION_TIMEOUT * 1000 ->
  m !! "type" = Some (JStr "execution_error") ->
  dict_get_or m "data" (JObj ∅) = JObj d ->
  py_eq (dict_get d "prompt_id") prompt_id = true ->
  execute_workflow self workflow job_id s
  = (Raise (Exn RuntimeError
             ("ComfyUI execution error in node "
              +:+ py_str (dict_get_or d "node_id" (JStr "unknown")) +:+ ": "
              +:+ py_str (dict_get_or d "exception_message"
                            (JStr "Unknown error")))),
     emit WsClose
       (received (prefix ++ [(blocked, Recv (TextFrame (Some (JObj m))))])
          (emit (WsConnect (client_id self)) s1))).
Proof.
  intros Hq Hws Hign Ht Htype Hd Hpid.
  rewrite (execute_workflow_connected _ _ _ _ _ _ _ Hq Hws).
  rewrite wait_loop_skip by (done || (cbn [emit clock]; lia)).
  rewrite wait_loop_message
    by (rewrite received_clock; cbn [emit clock]; lia).
  rewrite (on_message_error _ _ _ Htype Hd Hpid).
  by rewrite received_app.
Qed.

(** C3.  A message whose data carry a prompt id other than the job's
    leaves the loop where it was, whatever its type: [on_message] says
    to continue, so it neither completes nor fails the run, and the loop
    goes on exactly as it does after a binary frame, which it skips. *)
Theorem foreign_event_ignored self prompt_id m d :
  dict_get_or m "data" (JObj ∅) = JObj d ->
  py_eq (dict_get d "prompt_id") prompt_id = false ->
  on_message prompt_id (JObj m) = Continue
  /\ forall start blocked rest s,
       wait_loop self prompt_id start
         ((blocked, Recv (TextFrame (Some (JObj m)))) :: rest) s
       = wait_loop self prompt_id start
           ((blocked, Recv (BinaryFrame [])) :: rest) s.
Proof.
  intros Hd Hpid.
  pose proof (on_message_foreign _ _ _ Hd Hpid) as Hc. split; [exact Hc|].
  intros start blocked rest s. cbn [wait_loop]. by rewrite Hc.
Qed.

End Client.

(** ** comfyui_client.py: the readiness probe *)

Section Readiness.
Context `{svc : Services}.

(** More fuel does not change a result. *)
Lemma wait_for_ready_loop_more fuel fuel' start timeout s r :
  (fuel <= fuel')%nat ->
  wait_for_ready_loop fuel start timeout s = Some r ->
  wait_for_ready_loop fuel' start timeout s = Some r.
Proof.
  revert fuel' s. induction fuel as [|fuel IH]; intros fuel' s Hle Hrun;
    [discriminate|].
  destruct fuel' as [|fuel']; [lia|].
  cbn [wait_for_ready_loop] in *.
  case_bool_decide; [|exact Hrun].
  destruct (system_stats (probes_done s)) as [d [status body|e]].
  - case_bool_decide; [exact Hrun|]. apply IH; [lia|exact Hrun].
  - destruct (is_requests_ConnectionError e); [|exact Hrun].
    apply IH; [lia|exact Hrun].
Qed.

Lemma wait_for_ready_loop_spec fuel start timeout s :
  (forall n, probe_tolerated (system_stats n).2) ->
  (1 <= fuel)%nat ->
  start + timeout * 1000 - clock s <= 2000 * (Z.of_nat fuel - 1) ->
  exists ready rounds s',
    wait_for_ready_loop fuel start timeout s = Some (Ok ready, s')
    /\ trace s' = trace s ++ polling rounds
                    ++ (if ready then [GetSystemStats] else [])
    /\ (forall i, (i < rounds)%nat ->
          probe_up (system_stats (probes_done s + i)).2 = false)
    /\ (if ready
        then probe_up (system_stats (probes_done s + rounds)).2 = true
        else timeout * 1000 <= clock s' - start).
Proof.
  intros Htol. revert s.
  induction fuel as [|fuel IH]; intros s Hfuel Hrem; [lia|].
  cbn [wait_for_ready_loop].
  case_bool_decide as Hnow.
  - pose proof (Htol (probes_done s)) as Hthis.
    destruct (system_stats (probes_done s)) as [d outcome] eqn:Hprobe.
    cbn [snd] in Hthis.
    set (s1 := emit GetSystemStats (tick (Z.of_N d) (next_probe s))).
    assert (Hnext : forall (up : probe_up outcome = false),
      exists ready rounds s',
        wait_for_ready_loop fuel start timeout (sleep 2 s1).2
        = Some (Ok ready, s')
        /\ trace s' = trace s ++ polling rounds
                        ++ (if ready then [GetSystemStats] else [])
        /\ (forall i, (i < rounds)%nat ->
              probe_up (system_stats (probes_done s + i)).2 = false)
        /\ (if ready
            then probe_up (system_stats (probes_done s + rounds)).2 = true
            else timeout * 1000 <= clock s' - start)).
    { intros Hdown.
      destruct (IH (sleep 2 s1).2) as (ready & rounds & s' & Hrun & Htr & Hpr & Hend).
      - cbn in *. lia.
      - cbn. lia.
      - exists ready, (S rounds), s'. split; [exact Hrun|]. split; [|split].
        + rewrite Htr. cbn. rewrite <- !app_assoc. reflexivity.
        + intros [|i] Hi.
          * rewrite Nat.add_0_r, Hprobe. exact Hdown.
          * specialize (Hpr i ltac:(lia)). cbn in Hpr.
            by rewrite Nat.add_succ_r.
        + cbn in Hend. by rewrite Nat.add_succ_r. }
    destruct outcome as [status body|e].
    + case_bool_decide as Hstatus.
      * exists true, 0%nat, s1. split; [reflexivity|]. split; [|split].
        -- reflexivity.
        -- intros i Hi. lia.
        -- rewrite Nat.add_0_r, Hprobe. cbn. by rewrite bool_decide_eq_true_2.
      * apply Hnext. cbn. by rewrite bool_decide_eq_false_2.
    + cbn in Hthis. rewrite Hthis. by apply Hnext.
  - exists false, 0%nat, s. split; [reflexivity|]. split; [|split].
    + cbn. by rewrite app_nil_r.
    + intros i Hi. lia.
    + lia.
Qed.

(** The polling when every probe either gets a response or fails with a
    connection error.  Then, for every timeout,
    [wait_for_ready] returns a boolean and raises nothing; the fuel that
    suffices is known in advance.  Its calls are rounds of one probe
    followed by a sleep of two seconds, ended either by a probe answered
    with status 200, on which it returns [true] without sleeping, or by
    the timeout having elapsed, on which it returns [false]; no probe of
    an earlier round was answered with 200. *)
Lemma wait_for_ready_polls self timeout s :
  (forall n, probe_tolerated (system_stats n).2) ->
  exists ready rounds s',
    (forall fuel, (Z.to_nat (timeout / 2) + 2 <= fuel)%nat ->
       wait_for_ready self timeout fuel s = Some (Ok ready, s'))
    /\ trace s' = trace s ++ polling rounds
                    ++ (if ready then [GetSystemStats] else [])
    /\ (forall i, (i < rounds)%nat ->
          probe_up (system_stats (probes_done s + i)).2 = false)
    /\ (if ready
        then probe_up (system_stats (probes_done s + rounds)).2 = true
        else timeout * 1000 <= clock s' - clock s).
Proof.
  intros Htol.
  destruct (wait_for_ready_loop_spec (Z.to_nat (timeout / 2) + 2)
              (clock s) timeout s Htol)
    as (ready & rounds & s' & Hrun & Hrest); [lia| |].
  - destruct (decide (0 <= timeout)) as [Hpos|Hneg].
    + pose proof (Z.mul_div_le timeout 2 ltac:(lia)).
      pose proof (Z.mod_pos_bound timeout 2 ltac:(lia)).
      pose proof (Z.div_mod timeout 2 ltac:(lia)).
      assert (0 <= timeout / 2) by (apply Z.div_pos; lia).
      lia.
    + lia.
  - exists ready, rounds, s'. split; [|exact Hrest].
    intros fuel Hfuel. unfold wait_for_ready.
    eapply wait_for_ready_loop_more; [exact Hfuel|exact Hrun].
Qed.

(** C9, where the code departs from it.  The [except] clause of
    [wait_for_ready] names [requests.ConnectionError] only.  A probe that
    fails with any other exception, such as the read timeout of an engine
    that accepts the connection and does not answer within the five
    seconds, ends the polling at once: [wait_for_ready] raises that
    exception instead of sleeping, probing again and returning a boolean.
    One probe was made, and no sleep. *)
Theorem wait_for_ready_raises_unlisted_failure self timeout fuel s d e :
  0 < timeout ->
  system_stats (probes_done s) = (d, NoReply e) ->
  is_requests_ConnectionError e = false ->
  wait_for_ready self timeout (S fuel) s
  = Some (Raise e, emit GetSystemStats (tick (Z.of_N d) (next_probe s))).
Proof.
  intros Hpos Hprobe Hother. unfold wait_for_ready.
  cbn [wait_for_ready_loop].
  rewrite bool_decide_eq_true_2 by lia.
  by rewrite Hprobe, Hother.
Qed.
End Readiness.

(** ** workflow_loader.py and storage.py *)

Section Loader.
Context `{py : Platform} `{svc : Services}.

Lemma set_input_ok (workflow : gmap string json) node n i field v :
  workflow !! node = Some (JObj n) ->
  n !! "inputs" = Some (JObj i) ->
  set_input workflow node field v
  = Ok (<[node := JObj (<["inputs" := JObj (<[field := v]> i)]> n)]> workflow).
Proof.
  intros Hn Hi. unfold set_input. cbn [py_getitem bind_result].
  rewrite Hn. cbn [py_getitem bind_result]. rewrite Hi. reflexivity.
Qed.

Lemma slot_set_input (workflow : gmap string json) node n i field v node' field' :
  workflow !! node = Some (JObj n) ->
  n !! "inputs" = Some (JObj i) ->
  slot (<[node := JObj (<["inputs" := JObj (<[field := v]> i)]> n)]> workflow)
       node' field'
  = if bool_decide (node' = node /\ field' = field) then Some v
    else slot workflow node' field'.
Proof.
  intros Hn Hi. unfold slot.
  destruct (decide (node' = node)) as [->|Hne].
  - rewrite lookup_insert_eq, lookup_insert_eq, Hn, Hi.
    destruct (decide (field' = field)) as [->|Hf].
    + rewrite lookup_insert_eq. by rewrite bool_decide_eq_true_2.
    + rewrite lookup_insert_ne by done.
      rewrite bool_decide_eq_false_2; [done|]. by intros [_ ?].
  - rewrite lookup_insert_ne by done.
    rewrite bool_decide_eq_false_2; [done|]. by intros [? _].
Qed.

Lemma node_ok_set_input (workflow : gmap string json) node n i field v node' :
  workflow !! node = Some (JObj n) ->
  n !! "inputs" = Some (JObj i) ->
  node_ok workflow node' ->
  node_ok (<[node := JObj (<["inputs" := JObj (<[field := v]> i)]> n)]> workflow)
          node'.
Proof.
  intros Hn Hi Hok x. destruct (decide (node' = node)) as [->|Hne].
  - rewrite lookup_insert_eq. intros [= <-].
    eexists _, _. split; [reflexivity|]. apply lookup_insert_eq.
  - rewrite lookup_insert_ne by done. apply Hok.
Qed.

(** What the assignments to one present, well-formed node leave behind. *)
Lemma assignments_spec node fields (workflow : gmap string json) :
  is_Some (workflow !! node) ->
  node_ok workflow node ->
  exists graph,
    foldl (fun r fv => bind_result r (fun w => set_input w node fv.1 fv.2))
          (Ok workflow) fields = Ok graph
    /\ (forall node', node_ok workflow node' -> node_ok graph node')
    /\ (forall node', is_Some (graph !! node') <-> is_Some (workflow !! node'))
    /\ (forall node' field',
          node' <> node \/ field' ∉ fields.*1 ->
          slot graph node' field' = slot workflow node' field')
    /\ (NoDup fields.*1 ->
        forall field v, (field, v) ∈ fields -> slot graph node field = Some v).
Proof.
  revert workflow.
  induction fields as [|[f x] fields IH]; intros workflow [n Hn] Hok.
  - exists workflow. cbn. repeat split; auto; try tauto.
    intros _ field v Hin. by apply elem_of_nil in Hin.
  - cbn [foldl bind_result fst snd].
    destruct (Hok n Hn) as (nf & i & -> & Hi).
    rewrite (set_input_ok _ _ _ _ f x Hn Hi).
    set (w1 := <[node := _]> workflow).
    destruct (IH w1) as (graph & Hrun & Hwf & Hkeys & Hframe & Hset).
    { subst w1. rewrite lookup_insert_eq. eauto. }
    { by apply node_ok_set_input. }
    exists graph. split; [exact Hrun|]. split; [|split; [|split]].
    + intros node' Hn'. apply Hwf. by apply node_ok_set_input.
    + intros node'. rewrite Hkeys. subst w1.
      destruct (decide (node' = node)) as [->|Hne].
      * rewrite lookup_insert_eq, Hn. split; eauto.
      * by rewrite lookup_insert_ne.
    + intros node' field' Hother. rewrite Hframe.
      * subst w1. rewrite (slot_set_input _ _ _ _ _ _ _ _ Hn Hi).
        rewrite bool_decide_eq_false_2; [done|].
        intros [-> ->]. destruct Hother as [?|Hnotin]; [done|].
        apply Hnotin. cbn. left.
      * destruct Hother as [?|Hnotin]; [by left|right].
        intros Hin. apply Hnotin. cbn. by right.
    + intros Hnd field v Hin. cbn in Hnd.
      apply NoDup_cons in Hnd as [Hnotin Hnd].
      apply elem_of_cons in Hin as [[= -> ->]|Hin].
      * rewrite Hframe by (by right). subst w1.
        rewrite (slot_set_input _ _ _ _ _ _ _ _ Hn Hi).
        by rewrite bool_decide_eq_true_2.
      * by apply Hset.
Qed.

Lemma set_inputs_spec node fields (workflow : gmap string json) :
  node_ok workflow node ->
  exists graph,
    set_inputs node fields workflow = Ok graph
    /\ (forall node', node_ok workflow node' -> node_ok graph node')
    /\ (forall node', is_Some (graph !! node') <-> is_Some (workflow !! node'))
    /\ (forall node' field',
          node' <> node \/ field' ∉ fields.*1 ->
          slot graph node' field' = slot workflow node' field')
    /\ (is_Some (workflow !! node) -> NoDup fields.*1 ->
        forall field v, (field, v) ∈ fields -> slot graph node field = Some v).
Proof.
  intros Hok. unfold set_inputs, has_key.
  case_bool_decide as Hhas.
  - destruct (assignments_spec node fields workflow Hhas Hok)
      as (graph & Hrun & Hwf & Hkeys & Hframe & Hset).
    exists graph. repeat split; auto; apply Hkeys.
  - exists workflow. repeat split; auto; try tauto.
Qed.

Lemma randint_range a b s :
  a <= b -> exists n, randint a b s = (Ok n, draw_entropy s) /\ a <= n <= b.
Proof.
  intros Hab. unfold randint. eexists. split; [reflexivity|].
  pose proof (Z.mod_pos_bound (entropy (entropy_drawn s)) (b - a + 1)
                ltac:(lia)). lia.
Qed.

Lemma inject_image_gen_defaults workflow params prompt s :
  (forall node, node ∈ ["3"; "4"; "5"; "6"] -> node_ok workflow node) ->
  params !! "prompt" = Some prompt ->
  (forall k, k ∈ ["width"; "height"; "seed"; "steps"; "cfg_scale"] ->
             params !! k = None) ->
  exists graph seed,
    _inject_image_gen workflow params s = (Ok graph, draw_entropy s)
    /\ 0 <= seed < 2 ^ 32
    /\ (is_Some (workflow !! "5") ->
        slot graph "5" "width" = Some (JInt 1280)
        /\ slot graph "5" "height" = Some (JInt 720))
    /\ (is_Some (workflow !! "6") ->
        slot graph "6" "seed" = Some (JInt seed)
        /\ slot graph "6" "steps" = Some (JInt 25)
        /\ slot graph "6" "cfg" = Some (JFloat (15 # 2))).
Proof.
  intros Hok Hprompt Habsent.
  destruct (randint_range 0 (2 ^ 32 - 1) s ltac:(lia)) as (seed & Hdraw & Hseed).
  destruct (set_inputs_spec "3" [("text", prompt)] workflow)
    as (w3 & H3 & Hok3 & Hkeys3 & _ & _).
  { apply Hok. in_list. }
  destruct (set_inputs_spec "4"
              [("text", dict_get_or params "negative_prompt"
                          (JStr "blurry, low quality, watermark, text"))] w3)
    as (w4 & H4 & Hok4 & Hkeys4 & _ & _).
  { apply Hok3, Hok. in_list. }
  destruct (set_inputs_spec "5"
              [("width", JInt 1280); ("height", JInt 720);
               ("batch_size", JInt 1)] w4)
    as (w5 & H5 & Hok5 & Hkeys5 & _ & Hset5).
  { apply Hok4, Hok3, Hok. in_list. }
  destruct (set_inputs_spec "6"
              [("seed", JInt seed); ("steps", JInt 25);
               ("cfg", JFloat (15 # 2))] w5)
    as (w6 & H6 & _ & _ & Hframe6 & Hset6).
  { apply Hok5, Hok4, Hok3, Hok. in_list. }
  exists w6, seed. split; [|split; [lia|split]].
  - unfold _inject_image_gen, bind, lift, ret. cbn [py_getitem].
    rewrite Hprompt, Hdraw. unfold dict_get_or in H4 |- *.
    rewrite (Habsent "width"), (Habsent "height"), (Habsent "seed"),
      (Habsent "steps"), (Habsent "cfg_scale") by in_list.
    cbn [default].
    rewrite H3, H4, H5, H6. reflexivity.
  - intros Hhas.
    assert (is_Some (w4 !! "5")) as Hhas4 by (by apply Hkeys4, Hkeys3).
    assert (NoDup ["width"; "height"; "batch_size"]) as Hnd
      by no_dup.
    rewrite !Hframe6 by (by left).
    split; apply (Hset5 Hhas4 Hnd); in_list.
  - intros Hhas.
    assert (is_Some (w5 !! "6")) as Hhas5 by (by apply Hkeys5, Hkeys4, Hkeys3).
    assert (NoDup ["seed"; "steps"; "cfg"]) as Hnd
      by no_dup.
    repeat split; apply (Hset6 Hhas5 Hnd); in_list.
Qed.

Lemma load_image_gen workflow_dir params workflow s :
  template_files !! (Path_join workflow_dir "flux_image_gen.json")
  = Some (Some workflow) ->
  fs_failure (Path_join workflow_dir "flux_image_gen.json") = None ->
  load workflow_dir (JStr "image_gen") params s
  = _inject_image_gen workflow params
      (emit (ReadTemplate (Path_join workflow_dir "flux_image_gen.json")) s).
Proof.
  intros Hfile Hfs. unfold load, bind at 1, lift.
  replace (workflow_filename (JStr "image_gen"))
    with (Ok (Some "flux_image_gen.json") : result (option string))
    by reflexivity.
  rewrite bool_decide_eq_false_2 by discriminate.
  rewrite Hfile. unfold fs_call, bind, perform. rewrite Hfs.
  unfold ret. reflexivity.
Qed.

(** C6.  Let the template of [image_gen] be on disk and readable, with
    nodes 3 to 6, where present, carrying a dict of inputs.  For a
    request that has a prompt and none of width, height, seed, steps and
    cfg_scale, [load] returns a graph and raises nothing.  In the graph
    the latent-size node, if the template has it, holds width 1280 and
    height 720, and the sampler node, if the template has it, holds 25
    steps, cfg 7.5 and a seed between 0 and 2^32 - 1. *)
Theorem image_gen_defaults workflow_dir params workflow prompt s :
  template_files !! (Path_join workflow_dir "flux_image_gen.json")
  = Some (Some workflow) ->
  fs_failure (Path_join workflow_dir "flux_image_gen.json") = None ->
  (forall node, node ∈ ["3"; "4"; "5"; "6"] -> node_ok workflow node) ->
  params !! "prompt" = Some prompt ->
  (forall k, k ∈ ["width"; "height"; "seed"; "steps"; "cfg_scale"] ->
             params !! k = None) ->
  exists graph seed,
    load workflow_dir (JStr "image_gen") params s
    = (Ok graph,
       draw_entropy
         (emit (ReadTemplate (Path_join workflow_dir "flux_image_gen.json"))
            s))
    /\ 0 <= seed < 2 ^ 32
    /\ (is_Some (workflow !! "5") ->
        slot graph "5" "width" = Some (JInt 1280)
        /\ slot graph "5" "height" = Some (JInt 720))
    /\ (is_Some (workflow !! "6") ->
        slot graph "6" "seed" = Some (JInt seed)
        /\ slot graph "6" "steps" = Some (JInt 25)
        /\ slot graph "6" "cfg" = Some (JFloat (15 # 2))).
Proof.
  intros Hfile Hfs Hok Hprompt Habsent.
  rewrite (load_image_gen _ _ _ _ Hfile Hfs).
  destruct (inject_image_gen_defaults workflow params prompt
              (emit (ReadTemplate
                       (Path_join workflow_dir "flux_image_gen.json")) s)
              Hok Hprompt Habsent)
    as (graph & seed & Hrun & Hrest).
  exists graph, seed. split; [exact Hrun|exact Hrest].
Qed.

(** C7.  When the write of an object fails, [upload] raises the failure
    of the write and has made no other call: no URL was asked for.  And
    a URL that [upload] returns is the one presigned for that bucket and
    key after a write that did not fail. *)
Theorem upload_needs_written_object self data key content_type s :
  (forall e, s3_put_failure (bucket self) key data content_type = Some e ->
     upload self data key content_type s
     = (Raise e, emit (PutObject (bucket self) key data content_type) s))
  /\ (forall url s', upload self data key content_type s = (Ok url, s') ->
        s3_put_failure (bucket self) key data content_type = None
        /\ s3_presign (bucket self) key PRESIGNED_URL_EXPIRY = Ok url
        /\ trace s' = trace s ++ [PutObject (bucket self) key data content_type;
                                  PresignGet (bucket self) key
                                    PRESIGNED_URL_EXPIRY]).
Proof.
  unfold upload, bind, perform, raise, lift, ret. split.
  - intros e ->. reflexivity.
  - intros url s'.
    destruct (s3_put_failure (bucket self) key data content_type);
      [discriminate|].
    destruct (s3_presign (bucket self) key PRESIGNED_URL_EXPIRY);
      intros [= <- <-].
    repeat split. cbn. by rewrite <- app_assoc.
Qed.

End Loader.

(** ** The client id across a job *)

Section Identity.
Context `{py : Platform} `{svc : Services}.

Lemma presented_ids_app t1 t2 :
  presented_ids (t1 ++ t2) = presented_ids t1 ++ presented_ids t2.
Proof. unfold presented_ids. apply omap_app. Qed.

Lemma only_shows_ret P {A} (a : A) : only_shows P (ret a).
Proof. intros s. split; [done|]. exists []. by rewrite app_nil_r. Qed.

Lemma only_shows_raise P {A} e : only_shows P (@raise A e).
Proof. intros s. split; [done|]. exists []. by rewrite app_nil_r. Qed.

Lemma only_shows_lift P {A} (r : result A) : only_shows P (lift r).
Proof. intros s. split; [done|]. exists []. by rewrite app_nil_r. Qed.

Lemma only_shows_perform P e :
  Forall P (presented_ids [e]) -> only_shows P (perform e).
Proof.
  intros He s. split; [done|]. exists (presented_ids [e]).
  split; [|done]. cbn [perform snd emit trace]. apply presented_ids_app.
Qed.

Lemma only_shows_bind P {A B} (c : M A) (k : A -> M B) :
  only_shows P c -> (forall a, only_shows P (k a)) -> only_shows P (bind c k).
Proof.
  intros Hc Hk s. unfold bind.
  destruct (Hc s) as (Hu & ids & Ht & Hids).
  destruct (c s) as [[a|e] s1]; cbn [snd] in *.
  - destruct (Hk a s1) as (Hu' & ids' & Ht' & Hids').
    split; [congruence|]. exists (ids ++ ids').
    split; [by rewrite Ht', Ht, app_assoc|by apply Forall_app].
  - split; [done|]. by exists ids.
Qed.

Lemma only_shows_try_finally P {A} (c : M A) (f : M unit) :
  only_shows P c -> only_shows P f -> only_shows P (try_finally c f).
Proof.
  intros Hc Hf s. unfold try_finally.
  destruct (Hc s) as (Hu & ids & Ht & Hids).
  destruct (c s) as [r s1]; cbn [snd] in *.
  destruct (Hf s1) as (Hu' & ids' & Ht' & Hids').
  destruct (f s1) as [[[]|e] s2]; cbn [snd] in *.
  all: split; [congruence|]; exists (ids ++ ids').
  all: split; [by rewrite Ht', Ht, app_assoc|by apply Forall_app].
Qed.

Lemma only_shows_try_except P {A} (c : M A) (h : exn -> M A) :
  only_shows P c -> (forall e, only_shows P (h e)) ->
  only_shows P (try_except c h).
Proof.
  intros Hc Hh s. unfold try_except.
  destruct (Hc s) as (Hu & ids & Ht & Hids).
  destruct (c s) as [[a|e] s1]; cbn [snd] in *.
  - split; [done|]. by exists ids.
  - destruct (Hh e s1) as (Hu' & ids' & Ht' & Hids').
    split; [congruence|]. exists (ids ++ ids').
    split; [by rewrite Ht', Ht, app_assoc|by apply Forall_app].
Qed.

Lemma only_shows_randint P a b : only_shows P (randint a b).
Proof. intros s. split; [done|]. exists []. by rewrite app_nil_r. Qed.

Ltac shows :=
  repeat first
    [ apply only_shows_ret
    | apply only_shows_raise
    | apply only_shows_lift
    | apply only_shows_randint
    | apply only_shows_perform; cbn; by repeat constructor
    | apply only_shows_bind; [|intros ?]
    | apply only_shows_try_finally
    | match goal with
      | |- only_shows _ (match ?x with _ => _ end) => destruct x
      end ].

Lemma only_shows_fs_call P e path :
  presented_ids [e] = [] -> only_shows P (fs_call e path).
Proof.
  intros He. unfold fs_call. apply only_shows_bind.
  - apply only_shows_perform. by rewrite He.
  - intros _. shows.
Qed.

Lemma only_shows_download P url dest_dir prefix :
  only_shows P (_download_image url dest_dir prefix).
Proof.
  unfold _download_image. shows. all: try (by apply only_shows_fs_call).
Qed.

Lemma only_shows_load P workflow_dir workflow_type params :
  only_shows P (load workflow_dir workflow_type params).
Proof.
  unfold load, _inject_image_gen, _inject_face_swap. shows.
  all: try (by apply only_shows_fs_call).
  all: try apply only_shows_download.
Qed.

Lemma only_shows_view_images P infos images :
  only_shows P (view_images infos images).
Proof.
  revert images. induction infos as [|info infos IH]; intros images;
    cbn [view_images]; [shows|].
  apply only_shows_bind; [unfold view_image; shows|intros ?; apply IH].
Qed.

Lemma only_shows_view_nodes P nodes images :
  only_shows P (view_nodes nodes images).
Proof.
  revert images. induction nodes as [|[node_id out] nodes IH]; intros images;
    cbn [view_nodes]; [shows|].
  shows. { apply only_shows_view_images. } apply IH.
Qed.

Lemma only_shows_fetch_outputs P self prompt_id :
  only_shows P (_fetch_outputs self prompt_id).
Proof. unfold _fetch_outputs. shows. all: apply only_shows_view_nodes. Qed.

Lemma presented_ids_recv s :
  presented_ids (trace (emit WsRecv s)) = presented_ids (trace s).
Proof.
  cbn [emit trace]. rewrite presented_ids_app. cbn. by rewrite app_nil_r.
Qed.

Lemma only_shows_wait_loop P self prompt_id start ws :
  only_shows P (wait_loop self prompt_id start ws).
Proof.
  assert (Hstop : forall (r : result (list bytes)) s0 s,
    uuids_drawn s = uuids_drawn s0 ->
    presented_ids (trace s) = presented_ids (trace s0) ->
    uuids_drawn (r, s).2 = uuids_drawn s0
    /\ exists ids, presented_ids (trace (r, s).2) = presented_ids (trace s0) ++ ids
                   /\ Forall P ids).
  { intros r s0 s Hu Ht. split; [done|]. exists []. cbn [snd].
    by rewrite app_nil_r. }
  induction ws as [|[blocked outcome] ws IH]; intros s; cbn [wait_loop].
  - case_bool_decide; apply Hstop; try done. apply presented_ids_recv.
  - case_bool_decide; [|by apply Hstop].
    set (s1 := emit WsRecv (tick (Z.of_N blocked) s)).
    assert (Hu1 : uuids_drawn s1 = uuids_drawn s) by done.
    assert (Ht1 : presented_ids (trace s1) = presented_ids (trace s))
      by apply (presented_ids_recv (tick (Z.of_N blocked) s)).
    assert (Hgo : forall (c : M (list bytes)), only_shows P c ->
      uuids_drawn (c s1).2 = uuids_drawn s
      /\ exists ids, presented_ids (trace (c s1).2) = presented_ids (trace s) ++ ids
                     /\ Forall P ids).
    { intros c Hc. destruct (Hc s1) as (Hu & ids & Ht & Hids).
      split; [congruence|]. exists ids. by rewrite Ht, Ht1. }
    destruct outcome as [[bin|[msg|]]|e]; try by apply Hstop.
    + by apply Hgo.
    + destruct (on_message prompt_id msg); try by apply Hstop.
      * by apply Hgo.
      * apply Hgo, only_shows_fetch_outputs.
Qed.

Lemma only_shows_execute_workflow self workflow job_id :
  only_shows (eq (client_id self)) (execute_workflow self workflow job_id).
Proof.
  unfold execute_workflow, _queue_prompt, _wait_for_completion. shows.
  intros s. apply only_shows_wait_loop.
Qed.

Lemma only_shows_upload_all P storage job_id workflow_type i images urls :
  only_shows P (upload_all storage job_id workflow_type i images urls).
Proof.
  revert i urls. induction images as [|image images IH]; intros i urls;
    cbn [upload_all]; [shows|].
  apply only_shows_bind; [unfold upload; shows|intros ?; apply IH].
Qed.

Lemma only_shows_storage_init P : only_shows P StorageClient_init.
Proof. unfold StorageClient_init. shows. Qed.


Lemma quiet_state {A} (c : M A) s :
  only_shows (fun _ => False) c ->
  uuids_drawn (c s).2 = uuids_drawn s
  /\ presented_ids (trace (c s).2) = presented_ids (trace s).
Proof.
  intros Hc. destruct (Hc s) as (Hu & ids & Ht & Hids). split; [done|].
  destruct ids as [|id ids]; [by rewrite Ht, app_nil_r|].
  by apply Forall_cons in Hids as [[] _].
Qed.

Lemma fresh_id_shown_refl s : fresh_id_shown s s.
Proof.
  exists []. rewrite app_nil_r. split; [done|]. split; [constructor|]. by left.
Qed.

Lemma handler_try_ids job_input job_id workflow_type s :
  fresh_id_shown s (handler_try job_input job_id workflow_type s).2.
Proof.
  unfold handler_try, bind at 1.
  destruct (quiet_state (load WORKFLOW_DIR workflow_type job_input) s
              (only_shows_load _ _ _ _)) as [Hu1 Ht1].
  destruct (load WORKFLOW_DIR workflow_type job_input s) as [[workflow|e] s1];
    cbn [snd] in *.
  2:{ exists []. rewrite app_nil_r. split; [done|]. split; [constructor|]. by left. }
  unfold bind at 1. cbn [ComfyUIClient_init].
  set (client := mkClient _ _ _).
  match goal with
  | |- context [bind ?c ?k (draw_uuid s1)] =>
      assert (Hrest : only_shows (eq (client_id client)) (bind c k))
  end.
  { apply only_shows_bind; [apply only_shows_execute_workflow|].
    intros images. case_bool_decide; [apply only_shows_ret|].
    apply only_shows_bind; [apply only_shows_storage_init|].
    intros storage.
    apply only_shows_bind; [apply only_shows_upload_all|].
    intros urls. apply only_shows_ret. }
  destruct (Hrest (draw_uuid s1)) as (Hu & ids & Ht & Hids).
  exists ids. split; [|split].
  - rewrite Ht. cbn [draw_uuid trace]. by rewrite Ht1.
  - subst client. cbn [client_id] in Hids. by rewrite Hu1 in Hids.
  - right. rewrite Hu. cbn [draw_uuid uuids_drawn]. by rewrite Hu1.
Qed.

Lemma handler_ids job s : fresh_id_shown s (handler job s).2.
Proof.
  unfold handler, bind, lift.
  destruct (as_dict _) as [job_input|e]; [|apply fresh_id_shown_refl].
  destruct (validate_input job_input) as [[[] msg]|e];
    try apply fresh_id_shown_refl.
  cbn [negb].
  destruct (py_getitem _ _) as [workflow_type|e];
    [|apply fresh_id_shown_refl].
  unfold try_except.
  pose proof (handler_try_ids job_input
                (dict_get_or job "id" (JStr "unknown")) workflow_type s)
    as Hids.
  destruct (handler_try _ _ _ s) as [[envelope|e] s1]; cbn [snd] in *.
  - exact Hids.
  - unfold handler_except, ret. by destruct (exn_cls e).
Qed.

(** C8, as the code has it.  A client id is drawn once for each
    [ComfyUIClient]: the constructor takes the next value of the uuid
    source, and every submission and stream connection of
    [execute_workflow] shows the engine the id of its instance.
    [handler] builds its own instance for each job, so a job shows the
    engine only the id drawn for it, the next one of the source, and the
    job after it is shown with the one after that.  Hence, the values of
    [uuid4] being distinct, no id that one job presents is presented by
    the job that follows it. *)
Theorem client_id_per_instance :
  (forall host port s,
      exists client, ComfyUIClient_init host port s = (Ok client, draw_uuid s)
                     /\ client_id client = uuid_source (uuids_drawn s))
  /\ (forall self workflow job_id,
        only_shows (eq (client_id self)) (execute_workflow self workflow job_id))
  /\ (forall job s, fresh_id_shown s (handler job s).2)
  /\ (forall job1 job2 s ids1 ids2,
        (forall m n, uuid_source m = uuid_source n -> m = n) ->
        presented_ids (trace (handler job1 s).2)
        = presented_ids (trace s) ++ ids1 ->
        presented_ids (trace (handler job2 (handler job1 s).2).2)
        = presented_ids (trace (handler job1 s).2) ++ ids2 ->
        forall id1 id2, id1 ∈ ids1 -> id2 ∈ ids2 -> id1 <> id2).
Proof.
  split; [|split; [|split]].
  - intros host port s. eexists. split; reflexivity.
  - apply only_shows_execute_workflow.
  - apply handler_ids.
  - intros job1 job2 s ids1 ids2 Hinj Hfirst Hsecond id1 id2 Hin1 Hin2.
    destruct (handler_ids job1 s) as (l1 & Hl1 & Hall1 & Hdrawn).
    destruct (handler_ids job2 (handler job1 s).2) as (l2 & Hl2 & Hall2 & _).
    rewrite Hfirst in Hl1. apply app_inv_head in Hl1 as <-.
    rewrite Hsecond in Hl2. apply app_inv_head in Hl2 as <-.
    rewrite Forall_forall in Hall1, Hall2.
    rewrite <- (Hall1 _ Hin1), <- (Hall2 _ Hin2).
    destruct Hdrawn as [[_ ->]|Hnext]; [by apply elem_of_nil in Hin1|].
    rewrite Hnext. intros Heq. apply Hinj in Heq. lia.
Qed.

End Identity.

(** ** The statements on the stub deployment *)

Lemma stub_submission (svc : Services) :
  prompt_endpoint stub_template "client-0"
  = Reply 200 (Some (JObj {[ "prompt_id" := JStr "p-1" ]})) ->
  _queue_prompt (py := stub_platform) (svc := svc) stub_client stub_template
    initial_state
  = (Ok (JStr "p-1"), emit (PostPrompt stub_template "client-0") initial_state).
Proof.
  intros Hreply. unfold _queue_prompt, bind, perform, lift.
  cbn [client_id stub_client]. rewrite Hreply. reflexivity.
Qed.

Lemma stub_template_ok node :
  node ∈ ["3"; "4"; "5"; "6"] -> node_ok stub_template node.
Proof.
  intros Hin n Hn.
  repeat (apply elem_of_cons in Hin as [->|Hin]);
    [..|by apply elem_of_nil in Hin].
  all: vm_compute in Hn; injection Hn as <-.
  all: eexists _, _; split; [reflexivity|vm_compute; reflexivity].
Qed.

Lemma image_gen_input_minimal k :
  k ∈ ["width"; "height"; "seed"; "steps"; "cfg_scale"] ->
  image_gen_input !! k = None.
Proof.
  intros Hin.
  repeat (apply elem_of_cons in Hin as [->|Hin]);
    [..|by apply elem_of_nil in Hin].
  all: reflexivity.
Qed.


(** A preview, a progress event, then the failure of node 7. *)
Lemma execution_error_fails_witness :
  _queue_prompt (py := stub_platform) (svc := node_failing) stub_client
    stub_template initial_state
  = (Ok (JStr "p-1"), emit (PostPrompt stub_template "client-0") initial_state)
  /\ Forall (ignored (py := stub_platform) (JStr "p-1")) before_failure
  /\ total_blocked before_failure < EXECUTION_TIMEOUT * 1000
  /\ (execute_workflow (py := stub_platform) (svc := node_failing) stub_client
        stub_template (JStr "job-1") initial_state).1
     = Raise (Exn RuntimeError "ComfyUI execution error in node 7: bad seed").
Proof.
  assert (Hq := stub_submission node_failing eq_refl).
  assert (Hign : Forall (ignored (py := stub_platform) (JStr "p-1"))
                   before_failure).
  { constructor; [exact I|].
    constructor; [vm_compute; reflexivity|]. constructor. }
  assert (Hshort : total_blocked before_failure < EXECUTION_TIMEOUT * 1000)
    by (vm_compute; reflexivity).
  split; [exact Hq|]. split; [exact Hign|]. split; [exact Hshort|].
  rewrite (execution_error_fails (py := stub_platform) (svc := node_failing)
             stub_client stub_template (JStr "job-1") initial_state
             (JStr "p-1") _ before_failure 20%N
             (event "execution_error" bad_seed) bad_seed after_failure
             Hq eq_refl Hign Hshort eq_refl eq_refl eq_refl).
  reflexivity.
Defined.

(** The completion signal of another prompt does not end the wait. *)
Lemma foreign_event_ignored_witness :
  dict_get_or (event "executing" (executing_data (JStr "p-2") JNull)) "data"
    (JObj ∅)
  = JObj (executing_data (JStr "p-2") JNull)
  /\ py_eq (py := stub_platform)
       (dict_get (executing_data (JStr "p-2") JNull) "prompt_id") (JStr "p-1")
     = false
  /\ on_message (py := stub_platform) (JStr "p-1")
       (JObj (event "executing" (executing_data (JStr "p-2") JNull)))
     = Continue.
Proof.
  split; [reflexivity|]. split; [reflexivity|].
  apply (foreign_event_ignored (py := stub_platform) (svc := working)
           stub_client (JStr "p-1")
           (event "executing" (executing_data (JStr "p-2") JNull))
           (executing_data (JStr "p-2") JNull)); reflexivity.
Defined.

(** A job whose upload is refused by the object store. *)
Lemma handler_failure_envelope_witness :
  dict_get_or image_gen_job "input" (JObj ∅) = JObj image_gen_input
  /\ hashable (dict_get image_gen_input "workflow_type") = true
  /\ handler_try (py := stub_platform) (svc := read_only) image_gen_input
       (JStr "job-1") (JStr "image_gen") initial_state
     = (Raise access_denied,
        (handler_try (py := stub_platform) (svc := read_only) image_gen_input
           (JStr "job-1") (JStr "image_gen") initial_state).2)
  /\ handler (py := stub_platform) (svc := read_only) image_gen_job
       initial_state
     = (Ok (error_envelope "AccessDenied"),
        (handler_try (py := stub_platform) (svc := read_only) image_gen_input
           (JStr "job-1") (JStr "image_gen") initial_state).2).
Proof.
  assert (Hraised :
    handler_try (py := stub_platform) (svc := read_only) image_gen_input
      (JStr "job-1") (JStr "image_gen") initial_state
    = (Raise access_denied,
       (handler_try (py := stub_platform) (svc := read_only) image_gen_input
          (JStr "job-1") (JStr "image_gen") initial_state).2))
    by (vm_compute; reflexivity).
  split; [reflexivity|]. split; [reflexivity|]. split; [exact Hraised|].
  destruct (handler_failure_envelope (py := stub_platform) (svc := read_only)
              image_gen_job image_gen_input initial_state eq_refl eq_refl)
    as (_ & _ & Haccepted).
  destruct (Haccepted EmptyString (JStr "image_gen") eq_refl eq_refl)
    as (Hfailed & _).
  exact (Hfailed _ _ Hraised).
Defined.

(** An [image_gen] request whose prompt is the empty string. *)
Lemma empty_string_is_missing_witness :
  dict_get_or blank_prompt_job "input" (JObj ∅) = JObj blank_prompt_input
  /\ handler (py := stub_platform) (svc := working) blank_prompt_job
       initial_state
     = (Ok (error_envelope "image_gen requires 'prompt' field"), initial_state)
  /\ handler (py := stub_platform) (svc := working)
       (<["input" := JObj (delete "prompt" blank_prompt_input)]> blank_prompt_job)
       initial_state
     = handler (py := stub_platform) (svc := working) blank_prompt_job
         initial_state.
Proof.
  split; [reflexivity|].
  apply (empty_string_is_missing (py := stub_platform) (svc := working)
           blank_prompt_job blank_prompt_input initial_state eq_refl);
    reflexivity.
Defined.

(** The stub template and a request that holds a prompt only. *)
Lemma image_gen_defaults_witness :
  @template_files working
    !! (Path_join "/opt/handler/workflows" "flux_image_gen.json")
  = Some (Some stub_template)
  /\ @fs_failure working (Path_join "/opt/handler/workflows" "flux_image_gen.json")
     = None
  /\ image_gen_input !! "prompt" = Some (JStr "a kitchen")
  /\ exists graph seed,
       load (py := stub_platform) (svc := working) "/opt/handler/workflows"
         (JStr "image_gen") image_gen_input initial_state
       = (Ok graph,
          draw_entropy
            (emit (ReadTemplate
                     (Path_join "/opt/handler/workflows" "flux_image_gen.json"))
               initial_state))
       /\ 0 <= seed < 2 ^ 32
       /\ (is_Some (stub_template !! "5") ->
           slot graph "5" "width" = Some (JInt 1280)
           /\ slot graph "5" "height" = Some (JInt 720))
       /\ (is_Some (stub_template !! "6") ->
           slot graph "6" "seed" = Some (JInt seed)
           /\ slot graph "6" "steps" = Some (JInt 25)
           /\ slot graph "6" "cfg" = Some (JFloat (15 # 2))).
Proof.
  split; [reflexivity|]. split; [reflexivity|]. split; [reflexivity|].
  apply (image_gen_defaults (py := stub_platform) (svc := working)
           "/opt/handler/workflows" image_gen_input stub_template
           (JStr "a kitchen") initial_state eq_refl eq_refl
           stub_template_ok eq_refl image_gen_input_minimal).
Defined.

(** A bucket that refuses the write. *)
Lemma upload_needs_written_object_witness :
  @s3_put_failure read_only "results" "outputs/job-1/image_gen_0.png"
    [Byte.x89; Byte.x50] "image/png"
  = Some access_denied
  /\ upload (svc := read_only) (mkStorage "results" None "auto")
       [Byte.x89; Byte.x50] "outputs/job-1/image_gen_0.png" "image/png"
       initial_state
     = (Raise access_denied,
        emit (PutObject "results" "outputs/job-1/image_gen_0.png"
                [Byte.x89; Byte.x50] "image/png") initial_state).
Proof.
  split; [reflexivity|].
  apply (upload_needs_written_object (svc := read_only)
           (mkStorage "results" None "auto") [Byte.x89; Byte.x50]
           "outputs/job-1/image_gen_0.png" "image/png" initial_state).
  reflexivity.
Defined.

Lemma up_at_third_tolerated n : probe_tolerated (up_at_third n).2.
Proof. unfold up_at_third. destruct (n <? 2)%nat; [reflexivity|exact I]. Qed.

(** An engine that refuses two connections and then answers. *)
Lemma wait_for_ready_polls_witness :
  (forall n, probe_tolerated (@system_stats starting n).2)
  /\ exists ready rounds s',
       (forall fuel, (Z.to_nat (120 / 2) + 2 <= fuel)%nat ->
          wait_for_ready (svc := starting) stub_client 120 fuel initial_state
          = Some (Ok ready, s'))
       /\ trace s' = trace initial_state ++ polling rounds
                       ++ (if ready then [GetSystemStats] else [])
       /\ (forall i, (i < rounds)%nat ->
             probe_up (@system_stats starting (probes_done initial_state + i)).2
             = false)
       /\ (if ready
           then probe_up (@system_stats starting
                            (probes_done initial_state + rounds)).2 = true
           else 120 * 1000 <= clock s' - clock initial_state).
Proof.
  split; [exact up_at_third_tolerated|].
  apply (wait_for_ready_polls (svc := starting) stub_client 120 initial_state
           up_at_third_tolerated).
Defined.

(** On the stub, the probe is answered at the third attempt. *)
Example starting_engine_is_awaited :
  wait_for_ready (svc := starting) stub_client 120 62 initial_state
  = Some (Ok true,
          mkState 4030 0 0 3
            [GetSystemStats; Sleep 2000; GetSystemStats; Sleep 2000;
             GetSystemStats]).
Proof. vm_compute. reflexivity. Qed.

(** *** Where the code departs from the claims *)

(** C4: the reply to the first request of the smoke test, which lacks
    [workflow_type], has an [error] entry and no [status] entry. *)
Lemma failure_reply_has_no_status :
  handler (py := stub_platform) (svc := working) untyped_job initial_state
  = (Ok (error_envelope "Missing required field: workflow_type"), initial_state)
  /\ error_envelope "Missing required field: workflow_type" !! "status" = None
  /\ error_envelope "Missing required field: workflow_type" !! "error"
     = Some (JStr "Missing required field: workflow_type").
Proof. repeat split; reflexivity. Qed.


(** C8: two jobs handled one after the other by the same worker show the
    engine two different client ids. *)
Lemma client_id_differs_between_jobs :
  presented_ids (trace after_first_job) = ["client-0"; "client-0"]
  /\ presented_ids (trace after_second_job)
     = ["client-0"; "client-0"; "client-1"; "client-1"].
Proof. split; vm_compute; reflexivity. Qed.

Lemma stub_uuids_differ (m n : nat) :
  @uuid_source working m = @uuid_source working n -> m = n.
Proof.
  intros Heq. cbn in Heq. injection Heq as Heq. by apply (inj pretty).
Qed.

(** C8: the two jobs of the working deployment. *)
Lemma client_id_per_instance_witness :
  presented_ids (trace after_first_job)
  = presented_ids (trace initial_state) ++ ["client-0"; "client-0"]
  /\ presented_ids (trace after_second_job)
     = presented_ids (trace after_first_job) ++ ["client-1"; "client-1"]
  /\ forall id1 id2,
       id1 ∈ ["client-0"; "client-0"] -> id2 ∈ ["client-1"; "client-1"] ->
       id1 <> id2.
Proof.
  assert (Hfirst : presented_ids (trace after_first_job)
                   = presented_ids (trace initial_state)
                     ++ ["client-0"; "client-0"])
    by (vm_compute; reflexivity).
  assert (Hsecond : presented_ids (trace after_second_job)
                    = presented_ids (trace after_first_job)
                      ++ ["client-1"; "client-1"])
    by (vm_compute; reflexivity).
  split; [exact Hfirst|]. split; [exact Hsecond|].
  destruct (client_id_per_instance (py := stub_platform) (svc := working))
    as (_ & _ & _ & Hdiffer).
  exact (Hdiffer image_gen_job image_gen_job initial_state
           ["client-0"; "client-0"] ["client-1"; "client-1"]
           stub_uuids_differ Hfirst Hsecond).
Defined.

(** C9: an engine that accepts the connection and does not answer.  The
    first probe ends in a read timeout, and [wait_for_ready] raises it
    after five seconds, well before its own timeout of 120 seconds. *)
Lemma wait_for_ready_raises_on_read_timeout :
  is_requests_ConnectionError
    (Exn (Foreign "requests.exceptions.ReadTimeout")
         "Read timed out. (read timeout=5)") = false
  /\ wait_for_ready (svc := hanging) stub_client 120 62 initial_state
     = Some (Raise (Exn (Foreign "requests.exceptions.ReadTimeout")
                        "Read timed out. (read timeout=5)"),
             mkState 5000 0 0 1 [GetSystemStats]).
Proof.
  split; [reflexivity|].
  apply (wait_for_ready_raises_unlisted_failure (svc := hanging) stub_client
           120 61 initial_state 5000%N); [lia|reflexivity|reflexivity].
Defined.

(** * Further properties of the code *)

(** ** handler.py: the replies of [handler] *)

Section Replies.
Context `{py : Platform} `{svc : Services}.

Lemma dict_get_str_lookup (d : gmap string json) k v :
  dict_get d k = JStr v -> d !! k = Some (JStr v).
Proof.
  unfold dict_get. destruct (d !! k) as [x|]; cbn; [by intros ->|discriminate].
Qed.

Lemma valid_types_cases name :
  name ∈ valid_types -> name = "image_gen" \/ name = "face_swap".
Proof.
  unfold valid_types. rewrite !elem_of_cons, elem_of_nil. tauto.
Qed.

Lemma validate_accepted job_input msg :
  validate_input job_input = Ok (true, msg) ->
  msg = EmptyString
  /\ (dict_get job_input "workflow_type" = JStr "image_gen"
      /\ truthy (dict_get job_input "prompt") = true
      \/ dict_get job_input "workflow_type" = JStr "face_swap"
         /\ truthy (dict_get job_input "source_image") = true
         /\ truthy (dict_get job_input "target_image") = true).
Proof.
  intros Hv. unfold validate_input in Hv.
  destruct (truthy (dict_get job_input "workflow_type")) eqn:Htr;
    cbn [negb] in Hv; [|discriminate].
  destruct (dict_get job_input "workflow_type") as [| | | |name| |] eqn:Hwt;
    cbn [in_str_set bind_result negb] in Hv; try discriminate.
  case_bool_decide as Hin; cbn [negb] in Hv; [|discriminate].
  apply dict_get_str_lookup in Hwt.
  destruct (valid_types_cases _ Hin) as [-> | ->].
  - pose proof (validate_image_gen _ Hwt) as Hig.
    unfold validate_input in Hig. rewrite (dict_get_some _ _ _ Hwt) in Hig.
    rewrite Htr in Hig. cbn [negb in_str_set bind_result] in Hig.
    rewrite bool_decide_eq_true_2 in Hig by done. cbn [negb] in Hig.
    rewrite Hig in Hv.
    destruct (truthy (dict_get job_input "prompt")); [|discriminate].
    injection Hv as <-. auto.
  - pose proof (validate_face_swap _ Hwt) as Hfs.
    unfold validate_input in Hfs. rewrite (dict_get_some _ _ _ Hwt) in Hfs.
    rewrite Htr in Hfs. cbn [negb in_str_set bind_result] in Hfs.
    rewrite bool_decide_eq_true_2 in Hfs by done. cbn [negb] in Hfs.
    rewrite Hfs in Hv.
    destruct (truthy (dict_get job_input "source_image")); [|discriminate].
    destruct (truthy (dict_get job_input "target_image")); [|discriminate].
    injection Hv as <-. auto.
Qed.

Lemma accepted_type job_input msg :
  validate_input job_input = Ok (true, msg) ->
  exists name, job_input !! "workflow_type" = Some (JStr name)
               /\ name ∈ valid_types.
Proof.
  intros Hv. apply validate_accepted in Hv as [_ [[Hwt _]|[Hwt _]]];
    apply dict_get_str_lookup in Hwt; eexists; (split; [exact Hwt|]);
    unfold valid_types; rewrite !elem_of_cons; auto.
Qed.

(** X1.  [validate_input] accepts a request exactly when its
    [workflow_type] is the string [image_gen] and its [prompt] is truthy, or
    its [workflow_type] is the string [face_swap] and both [source_image]
    and [target_image] are truthy; the message that comes with acceptance
    is the empty string. *)
Theorem validate_accepts_iff job_input msg :
  validate_input job_input = Ok (true, msg)
  <-> msg = EmptyString
      /\ (dict_get job_input "workflow_type" = JStr "image_gen"
          /\ truthy (dict_get job_input "prompt") = true
          \/ dict_get job_input "workflow_type" = JStr "face_swap"
             /\ truthy (dict_get job_input "source_image") = true
             /\ truthy (dict_get job_input "target_image") = true).
Proof.
  split; [apply validate_accepted|].
  intros [-> [[Hwt Hp]|(Hwt & Hs & Ht)]]; apply dict_get_str_lookup in Hwt.
  - by rewrite validate_image_gen, Hp.
  - by rewrite validate_face_swap, Hs, Ht.
Qed.

(** X2.  A request that passes validation and whose template file is not
    in the workflow directory is answered with the error
    [Workflow template not found: <path>], the path being the directory
    joined with the file name of the type as [pathlib] joins them (doubled
    and trailing slashes and single dots of the directory are dropped);
    the state is untouched, so the engine and the storage were not
    contacted. *)
Theorem missing_template_is_reported job job_input msg name filename s :
  dict_get_or job "input" (JObj ∅) = JObj job_input ->
  validate_input job_input = Ok (true, msg) ->
  job_input !! "workflow_type" = Some (JStr name) ->
  WORKFLOW_MAP !! name = Some filename ->
  template_files !! Path_join WORKFLOW_DIR filename = None ->
  handler job s
  = (Ok (error_envelope ("Workflow template not found: "
                         +:+ Path_join WORKFLOW_DIR filename)), s).
Proof.
  intros Hin Hv Hwt Hmap Hfile.
  assert (filename <> EmptyString) as Hne.
  { unfold WORKFLOW_MAP in Hmap.
    destruct (decide (name = "image_gen")) as [->|H1].
    - rewrite lookup_insert_eq in Hmap. by injection Hmap as <-.
    - rewrite lookup_insert_ne in Hmap by done.
      destruct (decide (name = "face_swap")) as [->|H2].
      + rewrite lookup_insert_eq in Hmap. by injection Hmap as <-.
      + rewrite lookup_insert_ne in Hmap by done. by rewrite lookup_empty in Hmap. }
  rewrite (handler_reports _ _ _ _ _ Hin Hv Hwt).
  unfold handler_try, bind at 1. unfold load, bind at 1, lift.
  cbn [workflow_filename]. rewrite Hmap.
  rewrite bool_decide_eq_false_2 by done. rewrite Hfile. reflexivity.
Qed.

Lemma upload_run self data key content_type s :
  upload self data key content_type s
  = match s3_put_failure (bucket self) key data content_type with
    | Some e => (Raise e, emit (PutObject (bucket self) key data content_type) s)
    | None =>
        (s3_presign (bucket self) key PRESIGNED_URL_EXPIRY,
         emit (PresignGet (bucket self) key PRESIGNED_URL_EXPIRY)
           (emit (PutObject (bucket self) key data content_type) s))
    end.
Proof.
  unfold upload, bind, perform, raise, lift, ret.
  destruct (s3_put_failure _ _ _ _); [reflexivity|].
  by destruct (s3_presign _ _ _).
Qed.

Lemma upload_all_ok storage job_id workflow_type images :
  forall i urls s urls' s',
    upload_all storage job_id workflow_type i images urls s = (Ok urls', s') ->
    exists new,
      urls' = urls ++ new
      /\ length new = length images
      /\ (forall j image, images !! j = Some image ->
            exists url,
              new !! j = Some url
              /\ s3_put_failure (bucket storage)
                   (output_key job_id workflow_type (i + Z.of_nat j))
                   image "image/png" = None
              /\ s3_presign (bucket storage)
                   (output_key job_id workflow_type (i + Z.of_nat j))
                   PRESIGNED_URL_EXPIRY = Ok url)
      /\ trace s' = trace s ++ stored_all storage job_id workflow_type i images.
Proof.
  induction images as [|image images IH]; intros i urls s urls' s' Hrun.
  - injection Hrun as <- <-. exists []. rewrite !app_nil_r.
    repeat split; auto. intros j image Hj. by rewrite lookup_nil in Hj.
  - cbn [upload_all] in Hrun. unfold bind in Hrun.
    fold (output_key job_id workflow_type i) in Hrun.
    rewrite upload_run in Hrun.
    destruct (s3_put_failure _ _ _ _) eqn:Hput; [discriminate|].
    destruct (s3_presign _ _ _) as [url|e] eqn:Hurl; [|discriminate].
    apply IH in Hrun as (new & -> & Hlen & Hnew & Htr).
    exists (url :: new). split; [by rewrite <- app_assoc|].
    split; [cbn; lia|]. split.
    + intros [|j] img Hj.
      * injection Hj as <-. exists url. rewrite Z.add_0_r. auto.
      * cbn in Hj. destruct (Hnew j img Hj) as (u & Hu & Hp & Hs).
        exists u. replace (i + Z.of_nat (S j)) with (i + 1 + Z.of_nat j) by lia.
        auto.
    + rewrite Htr. cbn [emit trace stored_all stored].
      by rewrite <- !app_assoc.
Qed.

Lemma upload_all_raise storage job_id workflow_type images :
  forall i urls s e s',
    upload_all storage job_id workflow_type i images urls s = (Raise e, s') ->
    exists done image rest,
      images = done ++ image :: rest
      /\ trace s'
         = trace s ++ stored_all storage job_id workflow_type i done
           ++ match s3_put_failure (bucket storage)
                      (output_key job_id workflow_type
                         (i + Z.of_nat (length done)))
                      image "image/png" with
              | Some _ =>
                  [PutObject (bucket storage)
                     (output_key job_id workflow_type
                        (i + Z.of_nat (length done))) image "image/png"]
              | None =>
                  stored storage job_id workflow_type
                    (i + Z.of_nat (length done)) image
              end.
Proof.
  induction images as [|image images IH]; intros i urls s e s' Hrun;
    [discriminate|].
  cbn [upload_all] in Hrun. unfold bind in Hrun.
  fold (output_key job_id workflow_type i) in Hrun.
  rewrite upload_run in Hrun.
  destruct (s3_put_failure _ _ _ _) as [x|] eqn:Hput.
  - injection Hrun as <- <-. exists [], image, images.
    split; [reflexivity|]. cbn [length stored_all app]. rewrite Z.add_0_r, Hput.
    reflexivity.
  - destruct (s3_presign _ _ _) as [url|x] eqn:Hurl.
    + apply IH in Hrun as (done & img & rest & -> & Htr).
      exists (image :: done), img, rest. split; [reflexivity|].
      rewrite Htr. cbn [length stored_all].
      replace (i + Z.of_nat (S (length done)))
        with (i + 1 + Z.of_nat (length done)) by lia.
      cbn [emit trace stored]. by rewrite <- !app_assoc.
    + injection Hrun as <- <-. exists [], image, images.
      split; [reflexivity|]. cbn [length stored_all app]. rewrite Z.add_0_r, Hput.
      cbn [emit trace stored]. by rewrite <- app_assoc.
Qed.

(** X3.  The storage client is built only after the workflow has run.
    When the template loads, the engine returns at least one image and the
    environment has no [S3_BUCKET], [handler] answers with the error
    ['S3_BUCKET'] (the text of the [KeyError]), in the state the run of the
    workflow left: the whole run was made and nothing was stored. *)
Theorem missing_bucket_is_found_after_the_run job job_input msg wt s
    workflow s1 client s1' images s2 :
  dict_get_or job "input" (JObj ∅) = JObj job_input ->
  validate_input job_input = Ok (true, msg) ->
  job_input !! "workflow_type" = Some wt ->
  load WORKFLOW_DIR wt job_input s = (Ok workflow, s1) ->
  ComfyUIClient_init "127.0.0.1" COMFYUI_PORT s1 = (Ok client, s1') ->
  execute_workflow client workflow (dict_get_or job "id" (JStr "unknown")) s1'
  = (Ok images, s2) ->
  images <> [] ->
  environ !! "S3_BUCKET" = None ->
  handler job s = (Ok (error_envelope "'S3_BUCKET'"), s2).
Proof.
  intros Hin Hv Hwt Hload Hinit Hexec Himages Hnone.
  rewrite (handler_reports _ _ _ _ _ Hin Hv Hwt).
  unfold handler_try, bind at 1. rewrite Hload.
  unfold bind at 1. rewrite Hinit. unfold bind at 1. rewrite Hexec.
  rewrite bool_decide_eq_false_2 by done.
  unfold bind at 1.
  unfold StorageClient_init, bind, lift, environ_item. rewrite Hnone.
  reflexivity.
Qed.

Lemma storage_init_ok s storage s' :
  StorageClient_init s = (Ok storage, s') ->
  environ !! "S3_BUCKET" = Some (bucket storage).
Proof.
  unfold StorageClient_init, bind, lift, environ_item, perform, raise, ret.
  destruct (environ !! "S3_BUCKET"); [|discriminate].
  destruct (environ !! "S3_ACCESS_KEY"); [|discriminate].
  destruct (environ !! "S3_SECRET_KEY"); [|discriminate].
  destruct s3_client_failure; [discriminate|]. by intros [= <- _].
Qed.

(** X5.  When the upload loop of [handler] ends without an exception it
    returns one URL per image, in the order of the images: the image of
    index [j] was written under [outputs/<job_id>/<workflow_type>_<j>.png]
    with content type [image/png], the write did not fail, and its URL is
    the presigned URL of that key with the expiry of 24 hours.  The calls
    made are, image by image, the write followed by the presigning. *)
Theorem uploads_follow_the_images storage job_id workflow_type images s urls s' :
  upload_all storage job_id workflow_type 0 images [] s = (Ok urls, s') ->
  length urls = length images
  /\ (forall j image, images !! j = Some image ->
        exists url,
          urls !! j = Some url
          /\ s3_put_failure (bucket storage)
               (output_key job_id workflow_type (Z.of_nat j))
               image "image/png" = None
          /\ s3_presign (bucket storage)
               (output_key job_id workflow_type (Z.of_nat j))
               PRESIGNED_URL_EXPIRY = Ok url)
  /\ trace s' = trace s ++ stored_all storage job_id workflow_type 0 images.
Proof.
  intros Hrun.
  apply upload_all_ok in Hrun as (new & -> & Hlen & Hnew & Htr).
  cbn [app]. split; [exact Hlen|]. split; [|exact Htr].
  intros j image Hj. destruct (Hnew j image Hj) as (url & Hu & Hp & Hs).
  exists url. by rewrite Z.add_0_l in Hp, Hs.
Qed.

(** X6.  When the upload loop raises, some image is the one it failed
    on: every image before it was written and presigned, the failing one
    was written (and, if the write succeeded, presigned), and no call was
    made for the images after it.  Nothing is undone: the earlier objects
    stay in the bucket. *)
Theorem failed_upload_keeps_earlier_images storage job_id workflow_type images
    s e s' :
  upload_all storage job_id workflow_type 0 images [] s = (Raise e, s') ->
  exists done image rest,
    images = done ++ image :: rest
    /\ trace s'
       = trace s ++ stored_all storage job_id workflow_type 0 done
         ++ match s3_put_failure (bucket storage)
                    (output_key job_id workflow_type (Z.of_nat (length done)))
                    image "image/png" with
            | Some _ =>
                [PutObject (bucket storage)
                   (output_key job_id workflow_type (Z.of_nat (length done)))
                   image "image/png"]
            | None =>
                stored storage job_id workflow_type (Z.of_nat (length done))
                  image
            end.
Proof.
  intros Hrun.
  apply upload_all_raise in Hrun as (done & image & rest & -> & Htr).
  exists done, image, rest. split; [reflexivity|].
  by rewrite Htr, Z.add_0_l.
Qed.

(** X4.  A reply of [handler] with status [success] has exactly the four
    keys [status], [output_urls], [workflow_type] and [job_id]; its
    [workflow_type] is a string, one of the two known types; the job id is
    the one of the request, or [unknown]; the list of URLs is not empty and
    its entry of index [j] is the presigned URL, in the configured bucket,
    of the key [outputs/<job_id>/<workflow_type>_<j>.png]. *)
Theorem success_reply_lists_every_image job s envelope s' :
  handler job s = (Ok envelope, s') ->
  envelope !! "status" = Some (JStr "success") ->
  exists job_input name bucket urls,
    dict_get_or job "input" (JObj ∅) = JObj job_input
    /\ job_input !! "workflow_type" = Some (JStr name)
    /\ name ∈ valid_types
    /\ environ !! "S3_BUCKET" = Some bucket
    /\ urls <> []
    /\ envelope
       = <["status" := JStr "success"]>
           (<["output_urls" := JArr (JStr <$> urls)]>
            (<["workflow_type" := JStr name]>
             (<["job_id" := dict_get_or job "id" (JStr "unknown")]> ∅)))
    /\ forall j url, urls !! j = Some url ->
         s3_presign bucket
           (output_key (dict_get_or job "id" (JStr "unknown")) (JStr name)
              (Z.of_nat j))
           PRESIGNED_URL_EXPIRY = Ok url.
Proof.
  intros Hrun Hstatus.
  assert (Hno : forall m, error_envelope m !! "status" <> Some (JStr "success")).
  { intros m. by rewrite (proj2 (error_envelope_fields m)). }
  unfold handler, bind at 1, lift in Hrun.
  destruct (as_dict _) as [job_input|x] eqn:Hin; [|discriminate].
  assert (dict_get_or job "input" (JObj ∅) = JObj job_input) as Hinput.
  { destruct (dict_get_or job "input" (JObj ∅)); try discriminate.
    by injection Hin as ->. }
  unfold bind at 1 in Hrun.
  destruct (validate_input job_input) as [[[] msg]|x] eqn:Hv;
    [| |discriminate].
  2:{ injection Hrun as <- <-. by apply Hno in Hstatus. }
  destruct (accepted_type _ _ Hv) as (name & Hwt & Hname).
  cbn [negb] in Hrun. unfold bind at 1 in Hrun. cbn [py_getitem] in Hrun.
  rewrite Hwt in Hrun. unfold try_except in Hrun.
  destruct (handler_try _ _ _ s) as [[env|x] s1] eqn:Htry.
  2:{ rewrite handler_except_ok in Hrun. injection Hrun as <- <-.
      by apply Hno in Hstatus. }
  injection Hrun as -> ->.
  unfold handler_try, bind at 1 in Htry.
  destruct (load _ _ _ s) as [[workflow|x] s2]; [|discriminate].
  unfold bind at 1 in Htry.
  destruct (ComfyUIClient_init _ _ s2) as [[client|x] s3]; [|discriminate].
  unfold bind at 1 in Htry.
  destruct (execute_workflow _ _ _ s3) as [[images|x] s4]; [|discriminate].
  case_bool_decide as Himages.
  { injection Htry as <- <-. by apply Hno in Hstatus. }
  unfold bind at 1 in Htry.
  destruct (StorageClient_init s4) as [[storage|x] s5] eqn:Hinit; [|discriminate].
  unfold bind at 1 in Htry.
  destruct (upload_all _ _ _ _ _ _ s5) as [[urls|x] s6] eqn:Hup; [|discriminate].
  injection Htry as <- <-.
  apply upload_all_ok in Hup as (new & -> & Hlen & Hnew & _). cbn [app] in *.
  exists job_input, name, (bucket storage), new.
  split; [exact Hinput|]. split; [exact Hwt|]. split; [exact Hname|].
  split; [by eapply storage_init_ok|].
  split; [by destruct new, images|]. split; [reflexivity|].
  intros j url Hj.
  destruct (lookup_lt_is_Some_2 images j) as [image Himage].
  { rewrite <- Hlen. by eapply lookup_lt_Some. }
  destruct (Hnew j image Himage) as (u & Hu & _ & Hs).
  rewrite Z.add_0_l in Hs. congruence.
Qed.
End Replies.

(** ** comfyui_client.py: submission, stream and outputs *)

Section Streaming.
Context `{py : Platform} `{svc : Services}.

Lemma only_emits_pure P {A} (r : result A) : only_emits P (lift r).
Proof. intros s. exists []. by rewrite app_nil_r. Qed.

Lemma only_emits_ret P {A} (a : A) : only_emits P (ret a).
Proof. intros s. exists []. by rewrite app_nil_r. Qed.

Lemma only_emits_raise P {A} e : only_emits P (@raise A e).
Proof. intros s. exists []. by rewrite app_nil_r. Qed.

Lemma only_emits_perform P e : P e = true -> only_emits P (perform e).
Proof. intros He s. exists [e]. split; [done|]. cbn. by rewrite He. Qed.

Lemma only_emits_bind P {A B} (c : M A) (k : A -> M B) :
  only_emits P c -> (forall a, only_emits P (k a)) -> only_emits P (bind c k).
Proof.
  intros Hc Hk s. unfold bind. destruct (Hc s) as (t & Ht & HP).
  destruct (c s) as [[a|e] s1]; cbn [snd] in *.
  - destruct (Hk a s1) as (t' & Ht' & HP'). exists (t ++ t').
    split; [by rewrite Ht', Ht, app_assoc|].
    rewrite forallb_app. by rewrite HP, HP'.
  - by exists t.
Qed.

Ltac emits :=
  repeat first
    [ apply only_emits_ret
    | apply only_emits_raise
    | apply only_emits_pure
    | apply only_emits_perform; reflexivity
    | apply only_emits_bind; [|intros ?]
    | match goal with
      | |- only_emits _ (match ?x with _ => _ end) => destruct x
      end ].

Lemma only_emits_view_images infos images :
  only_emits on_stream (view_images infos images).
Proof.
  revert images. induction infos as [|info infos IH]; intros images;
    cbn [view_images]; [emits|].
  apply only_emits_bind; [unfold view_image; emits|intros ?; apply IH].
Qed.

Lemma only_emits_view_nodes nodes images :
  only_emits on_stream (view_nodes nodes images).
Proof.
  revert images. induction nodes as [|[node_id out] nodes IH]; intros images;
    cbn [view_nodes]; [emits|].
  emits. { apply only_emits_view_images. } apply IH.
Qed.

Lemma only_emits_fetch_outputs self prompt_id :
  only_emits on_stream (_fetch_outputs self prompt_id).
Proof. unfold _fetch_outputs. emits. all: apply only_emits_view_nodes. Qed.

Lemma only_emits_wait_loop self prompt_id start ws :
  only_emits on_stream (wait_loop self prompt_id start ws).
Proof.
  induction ws as [|[blocked outcome] ws IH]; intros s; cbn [wait_loop].
  - case_bool_decide; cbn [snd].
    + by exists [WsRecv].
    + exists []. by rewrite app_nil_r.
  - case_bool_decide; cbn [snd]; [|exists []; by rewrite app_nil_r].
    set (s1 := emit WsRecv (tick (Z.of_N blocked) s)).
    assert (Hgo : forall c : M (list bytes), only_emits on_stream c ->
      exists t, trace (c s1).2 = trace s ++ t /\ forallb on_stream t = true).
    { intros c Hc. destruct (Hc s1) as (t & Ht & HP). exists (WsRecv :: t).
      split; [|done]. rewrite Ht. subst s1. cbn [emit tick trace].
      by rewrite <- app_assoc. }
    assert (Hstop : exists t, trace s1 = trace s ++ t
                              /\ forallb on_stream t = true)
      by (by exists [WsRecv]).
    destruct outcome as [[bin|[msg|]]|e]; cbn [snd]; try exact Hstop.
    + by apply Hgo.
    + destruct (on_message prompt_id msg); cbn [snd]; try exact Hstop.
      * by apply Hgo.
      * apply Hgo, only_emits_fetch_outputs.
Qed.

(** X7.  The calls of [execute_workflow], whatever happens: first the
    submission of the prompt.  If the submission raises, that exception is
    raised and no call follows.  If it returns, the WebSocket connection
    is attempted; if that raises, that exception is raised and no call
    follows.  Otherwise only receptions, the history request and image
    requests follow, and the last call closes the connection, also when
    the wait ends in an exception. *)
Theorem stream_is_closed_on_every_path self workflow job_id s :
  exists t,
    trace (execute_workflow self workflow job_id s).2
    = trace s ++ PostPrompt workflow (client_id self) :: t
    /\ match (_queue_prompt self workflow s).1 with
       | Raise e =>
           t = [] /\ (execute_workflow self workflow job_id s).1 = Raise e
       | Ok _ =>
           match ws_endpoint (client_id self) with
           | Raise e =>
               t = [WsConnect (client_id self)]
               /\ (execute_workflow self workflow job_id s).1 = Raise e
           | Ok ws =>
               exists calls,
                 forallb on_stream calls = true
                 /\ t = WsConnect (client_id self) :: calls ++ [WsClose]
           end
       end.
Proof.
  assert (Hq : (_queue_prompt self workflow s).2
               = emit (PostPrompt workflow (client_id self)) s).
  { unfold _queue_prompt, bind, perform, lift.
    destruct (raise_for_status _) as [body|e]; [|reflexivity].
    destruct (body_json body); [|reflexivity]. by destruct (py_getitem _ _). }
  remember (execute_workflow self workflow job_id s) as run eqn:Hrun.
  unfold execute_workflow, bind at 1 in Hrun.
  destruct (_queue_prompt self workflow s) as [[prompt_id|e] s1];
    cbn [snd fst] in *; subst s1.
  2:{ subst run. exists []. split; [reflexivity|]. split; reflexivity. }
  unfold bind, perform, lift, try_finally, _wait_for_completion in Hrun.
  destruct (ws_endpoint (client_id self)) as [ws|e].
  2:{ subst run. exists [WsConnect (client_id self)]. split.
      - cbn [snd emit trace]. by rewrite <- app_assoc.
      - split; reflexivity. }
  set (s2 := emit (WsConnect (client_id self)) _) in Hrun.
  destruct (only_emits_wait_loop self prompt_id (clock s2) ws s2)
    as (calls & Ht & HP).
  destruct (wait_loop self prompt_id (clock s2) ws s2) as [r s3];
    cbn [snd] in *. subst run.
  exists (WsConnect (client_id self) :: calls ++ [WsClose]). split.
  - cbn [snd emit trace]. rewrite Ht. subst s2. cbn [emit trace].
    by rewrite <- !app_assoc.
  - exists calls. auto.
Qed.

(** X9.  An [executing] message for the own prompt ends the wait only
    when its node is [None].  With a node it is passed over.  With node
    [None], received within the time limit after frames that are all
    passed over, [execute_workflow] returns what [_fetch_outputs] returns
    for the prompt, started after the receptions so far, and then closes
    the connection; later frames are not read. *)
Theorem completion_fetches_outputs self workflow job_id s prompt_id s1
    prefix blocked m d rest :
  _queue_prompt self workflow s = (Ok prompt_id, s1) ->
  ws_endpoint (client_id self)
  = Ok (prefix ++ (blocked, Recv (TextFrame (Some (JObj m)))) :: rest) ->
  Forall (ignored prompt_id) prefix ->
  total_blocked prefix < EXECUTION_TIMEOUT * 1000 ->
  m !! "type" = Some (JStr "executing") ->
  dict_get_or m "data" (JObj ∅) = JObj d ->
  py_eq (dict_get d "prompt_id") prompt_id = true ->
  (is_none (dict_get d "node") = false ->
   on_message prompt_id (JObj m) = Continue)
  /\ (is_none (dict_get d "node") = true ->
      execute_workflow self workflow job_id s
      = ((_fetch_outputs self prompt_id
            (received (prefix ++ [(blocked, Recv (TextFrame (Some (JObj m))))])
               (emit (WsConnect (client_id self)) s1))).1,
         emit WsClose
           (_fetch_outputs self prompt_id
              (received (prefix ++ [(blocked, Recv (TextFrame (Some (JObj m))))])
                 (emit (WsConnect (client_id self)) s1))).2)).
Proof.
  intros Hq Hws Hign Ht Htype Hd Hpid.
  assert (Hmsg : on_message prompt_id (JObj m)
                 = if is_none (dict_get d "node") then Completed else Continue).
  { unfold on_message. rewrite (dict_get_some _ _ _ Htype), Hd.
    replace (py_eq (JStr "executing") (JStr "executing")) with true
      by reflexivity.
    rewrite Hpid. reflexivity. }
  split; intros Hnode; rewrite Hnode in Hmsg; [exact Hmsg|].
  rewrite (execute_workflow_connected _ _ _ _ _ _ _ Hq Hws).
  rewrite wait_loop_skip by (done || (cbn [emit clock]; lia)).
  rewrite wait_loop_message
    by (rewrite received_clock; cbn [emit clock]; lia).
  rewrite Hmsg. by rewrite received_app.
Qed.

(** X10.  A message of one of the three types the loop reads whose
    [data] is present but is not a dict makes [msg_data.get] fail: the
    message yields an [AttributeError], for whichever prompt, and the wait
    loop raises it on receiving the message, within the time limit. *)
Theorem message_without_object_data_fails prompt_id m t v :
  m !! "type" = Some (JStr t) ->
  t ∈ ["executing"; "execution_error"; "progress"] ->
  m !! "data" = Some v ->
  (forall d, v <> JObj d) ->
  on_message prompt_id (JObj m) = Failed (attribute_error (NoAttribute v "get"))
  /\ forall self start blocked rest s,
       clock s - start < EXECUTION_TIMEOUT * 1000 ->
       wait_loop self prompt_id start
         ((blocked, Recv (TextFrame (Some (JObj m)))) :: rest) s
       = (Raise (attribute_error (NoAttribute v "get")),
          emit WsRecv (tick (Z.of_N blocked) s)).
Proof.
  intros Htype Ht Hdata Hv.
  assert (Hmsg : on_message prompt_id (JObj m)
                 = Failed (attribute_error (NoAttribute v "get"))).
  { unfold on_message, dict_get, dict_get_or. rewrite Htype, Hdata.
    cbn [default].
    rewrite !elem_of_cons, elem_of_nil in Ht.
    destruct Ht as [->|[->|[->|[]]]].
    all: repeat match goal with
         | |- context [py_eq (JStr ?a) (JStr ?b)] =>
             let r := eval vm_compute in (bool_decide (a = b)) in
             replace (py_eq (JStr a) (JStr b)) with r by reflexivity
         end.
    all: destruct v; try reflexivity; by destruct (Hv d). }
  split; [exact Hmsg|]. intros self start blocked rest s Hnow.
  rewrite wait_loop_message by done. by rewrite Hmsg.
Qed.

(** X11.  A [progress] message whose [max] is not a number (a string,
    [None], a list, ...) raises the [TypeError] of [max_val > 0] when the
    message is for the own prompt, and is passed over when it is for
    another prompt. *)
Theorem progress_with_unordered_max_fails prompt_id m d mx :
  m !! "type" = Some (JStr "progress") ->
  dict_get_or m "data" (JObj ∅) = JObj d ->
  d !! "max" = Some mx ->
  num_of mx = None ->
  on_message prompt_id (JObj m)
  = if py_eq (dict_get d "prompt_id") prompt_id
    then Failed (type_error (NotOrdered mx))
    else Continue.
Proof.
  intros Htype Hd Hmax Hnum. unfold on_message.
  rewrite (dict_get_some _ _ _ Htype), Hd.
  replace (py_eq (JStr "progress") (JStr "executing")) with false
    by reflexivity.
  replace (py_eq (JStr "progress") (JStr "execution_error")) with false
    by reflexivity.
  replace (py_eq (JStr "progress") (JStr "progress")) with true by reflexivity.
  destruct (py_eq _ prompt_id); [|reflexivity].
  unfold dict_get_or. rewrite Hmax. cbn [default id]. unfold py_gt_zero.
  by rewrite Hnum.
Qed.

(** X8.  When the submission of the prompt fails, [execute_workflow]
    raises and the only call made is the submission: no WebSocket
    connection is opened.  This holds when the engine answers with a status
    from 400 to 599 (an [HTTPError]), when its answer is a dict without
    [prompt_id] (a [KeyError]), and when the request itself raises. *)
Theorem rejected_submission_opens_no_stream self workflow job_id s :
  (forall status body,
      prompt_endpoint workflow (client_id self) = Reply status body ->
      400 <= status < 600 ->
      execute_workflow self workflow job_id s
      = (Raise (Exn (Foreign "requests.exceptions.HTTPError")
                    (fault_text (HttpStatus status))),
         emit (PostPrompt workflow (client_id self)) s))
  /\ (forall status d,
        prompt_endpoint workflow (client_id self)
        = Reply status (Some (JObj d)) ->
        ~ (400 <= status < 600) ->
        d !! "prompt_id" = None ->
        execute_workflow self workflow job_id s
        = (Raise (key_error "prompt_id"),
           emit (PostPrompt workflow (client_id self)) s))
  /\ (forall e,
        prompt_endpoint workflow (client_id self) = NoReply e ->
        execute_workflow self workflow job_id s
        = (Raise e, emit (PostPrompt workflow (client_id self)) s)).
Proof.
  unfold execute_workflow, _queue_prompt, bind, perform, lift.
  split; [|split].
  - intros status body -> Hst. cbn [raise_for_status].
    by rewrite bool_decide_eq_true_2.
  - intros status d -> Hst Hnone. cbn [raise_for_status].
    rewrite bool_decide_eq_false_2 by done.
    cbn [body_json py_getitem]. by rewrite Hnone.
  - by intros e ->.
Qed.
End Streaming.

Section Outputs.
Context `{py : Platform} `{svc : Services}.

Lemma raise_for_status_ok {A} (r : http_reply A) (body : A) :
  raise_for_status r = Ok body ->
  exists status, r = Reply status body /\ ~ (400 <= status < 600).
Proof.
  destruct r as [status b|e]; cbn [raise_for_status]; [|discriminate].
  case_bool_decide; [discriminate|]. intros [= ->]. eauto.
Qed.

Lemma view_image_ok image_info s content s' :
  view_image image_info s = (Ok content, s') -> retrieved image_info content.
Proof.
  unfold view_image, bind, lift, perform. intros Hrun.
  destruct image_info as [| | | | | |info]; try discriminate.
  cbn [py_getitem as_dict] in Hrun.
  destruct (info !! "filename") as [filename|] eqn:Hf; [|discriminate].
  destruct (raise_for_status _) as [body|e] eqn:Hview; [|discriminate].
  injection Hrun as <- _.
  apply raise_for_status_ok in Hview as (status & Hview & Hst).
  by exists info, filename, status.
Qed.

Lemma view_images_ok infos :
  forall images s images' s',
    view_images infos images s = (Ok images', s') ->
    exists new, images' = images ++ new /\ Forall2 retrieved infos new.
Proof.
  induction infos as [|info infos IH]; intros images s images' s' Hrun.
  - injection Hrun as <- _. exists []. by rewrite app_nil_r.
  - cbn [view_images] in Hrun. unfold bind in Hrun.
    destruct (view_image info s) as [[content|e] s1] eqn:Hview; [|discriminate].
    apply IH in Hrun as (new & -> & Hnew).
    exists (content :: new). split; [by rewrite <- app_assoc|].
    constructor; [by eapply view_image_ok|exact Hnew].
Qed.

Lemma view_nodes_ok nodes :
  forall images s images' s',
    view_nodes nodes images s = (Ok images', s') ->
    exists new,
      images' = images ++ new
      /\ Forall2 retrieved (concat (image_entries <$> nodes.*2)) new.
Proof.
  induction nodes as [|[node_id node_output] nodes IH];
    intros images s images' s' Hrun.
  - injection Hrun as <- _. exists []. by rewrite app_nil_r.
  - cbn [view_nodes] in Hrun. unfold bind, lift in Hrun.
    destruct node_output as [| | | | | |out]; try discriminate.
    cbn [as_dict] in Hrun.
    destruct (py_iter _) as [infos|e] eqn:Hiter; [|discriminate].
    destruct (view_images infos images s) as [[images1|e] s1] eqn:Hview;
      [|discriminate].
    apply view_images_ok in Hview as (new1 & -> & Hnew1).
    apply IH in Hrun as (new2 & -> & Hnew2).
    exists (new1 ++ new2). split; [by rewrite <- app_assoc|].
    cbn [fmap list_fmap snd concat image_entries]. rewrite Hiter.
    by apply Forall2_app.
Qed.

Lemma items_in_order_perm order (d : gmap string json) :
  items_in_order order d ≡ₚ map_to_list d.
Proof.
  revert d. induction order as [|k order IH]; intros d; [reflexivity|].
  cbn [items_in_order]. destruct (d !! k) as [v|] eqn:Hk; [|apply IH].
  rewrite IH. by apply map_to_list_delete.
Qed.

Lemma items_in_order_keys order (d : gmap string json) :
  NoDup order ->
  (forall k, k ∈ order <-> is_Some (d !! k)) ->
  (items_in_order order d).*1 = order.
Proof.
  revert d. induction order as [|k order IH]; intros d Hnd Hkeys.
  - cbn [items_in_order]. replace d with (∅ : gmap string json);
      [by rewrite map_to_list_empty|].
    symmetry. apply map_empty. intros k.
    destruct (d !! k) as [v|] eqn:Hk; [|reflexivity].
    assert (k ∈ []) as Hin by (apply Hkeys; eauto).
    by apply elem_of_nil in Hin.
  - apply NoDup_cons in Hnd as [Hnew Hnd].
    cbn [items_in_order].
    destruct (proj1 (Hkeys k) ltac:(left)) as [v Hk]. rewrite Hk.
    cbn [fmap list_fmap fst]. f_equal. apply IH; [exact Hnd|].
    intros k'. split.
    + intros Hin. rewrite lookup_delete_ne by (by intros ->).
      apply Hkeys. by right.
    + intros Hsome. destruct (decide (k = k')) as [<-|Hne].
      * rewrite lookup_delete_eq in Hsome. by destruct Hsome.
      * rewrite lookup_delete_ne in Hsome by done.
        apply Hkeys in Hsome. by apply elem_of_cons in Hsome as [->|].
Qed.

Lemma items_in_order_empty order :
  items_in_order order (∅ : gmap string json) = [].
Proof.
  induction order as [|k order IH]; cbn [items_in_order].
  - apply map_to_list_empty.
  - by rewrite lookup_empty.
Qed.

(** X12.  When [_fetch_outputs] returns images, the history request was
    answered with a dict and a status outside 400 to 599, and the images
    are, in order, the contents the engine serves for the image entries of
    the nodes of the [outputs] of the prompt: node after node in the order
    in which the history document lists the nodes, entry after entry
    within a node; every node is visited once; every entry has a
    [filename], and [subfolder] and [type] default to the empty string and
    to [output]. *)
Theorem outputs_are_retrieved_in_order self prompt_id s images s' :
  _fetch_outputs self prompt_id s = (Ok images, s') ->
  exists status history prompt_history outputs,
    history_endpoint (py_str prompt_id) = Reply status (Some (JObj history))
    /\ ~ (400 <= status < 600)
    /\ dict_get_any history prompt_id (JObj ∅) = Ok (JObj prompt_history)
    /\ dict_get_or prompt_history "outputs" (JObj ∅) = JObj outputs
    /\ Forall2 retrieved
         (concat (image_entries
                    <$> (items_in_order (outputs_order (py_str prompt_id))
                           outputs).*2))
         images
    /\ items_in_order (outputs_order (py_str prompt_id)) outputs
       ≡ₚ map_to_list outputs
    /\ (NoDup (outputs_order (py_str prompt_id)) ->
        (forall node, node ∈ outputs_order (py_str prompt_id)
                      <-> is_Some (outputs !! node)) ->
        (items_in_order (outputs_order (py_str prompt_id)) outputs).*1
        = outputs_order (py_str prompt_id)).
Proof.
  unfold _fetch_outputs, bind, lift, perform. intros Hrun.
  destruct (raise_for_status _) as [body|e] eqn:Hreply; [|discriminate].
  apply raise_for_status_ok in Hreply as (status & Hreply & Hst).
  destruct body as [history|]; [|discriminate]. cbn [body_json] in Hrun.
  destruct history as [| | | | | |history]; try discriminate.
  cbn [as_dict] in Hrun.
  destruct (dict_get_any history prompt_id (JObj ∅)) as [ph|e] eqn:Hph;
    [|discriminate].
  destruct ph as [| | | | | |ph]; try discriminate. cbn [as_dict] in Hrun.
  destruct (dict_get_or ph "outputs" (JObj ∅)) as [| | | | | |outputs] eqn:Hout;
    try discriminate.
  apply view_nodes_ok in Hrun as (new & -> & Hnew).
  exists status, history, ph, outputs.
  repeat (split; [done|]). split; [apply items_in_order_perm|].
  apply items_in_order_keys.
Qed.

(** X13.  A history that does not list the prompt, or lists it without
    [outputs], gives the empty list of images and no exception; only the
    history request is made. *)
Theorem unknown_prompt_has_no_outputs self pid status history s :
  history_endpoint pid = Reply status (Some (JObj history)) ->
  ~ (400 <= status < 600) ->
  history !! pid = None
  \/ (exists prompt_history,
        history !! pid = Some (JObj prompt_history)
        /\ prompt_history !! "outputs" = None) ->
  _fetch_outputs self (JStr pid) s = (Ok [], emit (GetHistory pid) s).
Proof.
  intros Hreply Hst Hcase.
  unfold _fetch_outputs, bind, lift, perform. cbn [py_str].
  rewrite Hreply. cbn [raise_for_status].
  rewrite bool_decide_eq_false_2 by done.
  cbn [body_json as_dict dict_get_any]. unfold dict_get_or.
  destruct Hcase as [-> | (ph & -> & Hout)]; cbn [default id as_dict].
  - rewrite lookup_empty. cbn [default]. by rewrite items_in_order_empty.
  - rewrite Hout. cbn [default]. by rewrite items_in_order_empty.
Qed.
End Outputs.

(** ** workflow_loader.py: the two injections *)

Section Injection.
Context `{py : Platform} `{svc : Services}.

Lemma str_contains_slash_cons c rest :
  str_contains "/" (String c rest)
  = bool_decide (c = "/"%char) || str_contains "/" rest.
Proof.
  unfold str_contains. cbn [String.index String.prefix].
  destruct (ascii_dec "/" c) as [<-|Hne].
  - rewrite bool_decide_eq_true_2 by done. by destruct rest.
  - rewrite bool_decide_eq_false_2 by congruence.
    cbn [orb]. by destruct (String.index 0 "/" rest).
Qed.

Lemma str_contains_slash_app a b :
  str_contains "/" (a +:+ b) = str_contains "/" a || str_contains "/" b.
Proof.
  induction a as [|c a IH]; [reflexivity|].
  change (String c a +:+ b) with (String c (a +:+ b)).
  rewrite !str_contains_slash_cons, IH. by rewrite orb_assoc.
Qed.

Lemma basename_join dir name :
  str_contains "/" name = false -> basename (dir +:+ "/" +:+ name) = name.
Proof.
  intros Hname. induction dir as [|c dir IH].
  - change (EmptyString +:+ "/" +:+ name) with (String "/" name).
    cbn [basename]. rewrite Hname. by rewrite bool_decide_eq_true_2.
  - change (String c dir +:+ "/" +:+ name)
      with (String c (dir +:+ "/" +:+ name)).
    cbn [basename]. rewrite str_contains_slash_app, str_contains_slash_app.
    replace (str_contains "/" "/") with true by reflexivity.
    by rewrite orb_true_r.
Qed.

Lemma hex_digit_no_slash d : hex_digit d <> "/"%char.
Proof.
  unfold hex_digit. generalize (Z.to_nat d). intros n.
  do 17 (destruct n as [|n]; [discriminate|]). cbn. by destruct n.
Qed.

Lemma hex_fixed_no_slash w n : str_contains "/" (hex_fixed w n) = false.
Proof.
  revert n. induction w as [|w IH]; intros n; [reflexivity|].
  cbn [hex_fixed]. rewrite str_contains_slash_app, IH. cbn [orb].
  rewrite str_contains_slash_cons.
  rewrite bool_decide_eq_false_2 by apply hex_digit_no_slash. reflexivity.
Qed.

Lemma staged_filename_no_slash prefix u content_type :
  str_contains "/" prefix = false ->
  str_contains "/" (staged_filename prefix u content_type) = false.
Proof.
  intros Hp. unfold staged_filename.
  rewrite !str_contains_slash_app, Hp, hex_fixed_no_slash.
  by destruct (str_contains "jpeg" _).
Qed.

Lemma download_ok u dest_dir prefix status content_type body s :
  web u = Reply status (content_type, body) ->
  ~ (400 <= status < 600) ->
  fs_failure (dest_dir +:+ "/" +:+ staged_filename prefix u content_type) = None ->
  _download_image (JStr u) dest_dir prefix s
  = (Ok (dest_dir +:+ "/" +:+ staged_filename prefix u content_type),
     emit (WriteFile (dest_dir +:+ "/" +:+ staged_filename prefix u content_type)
             body)
       (emit (FetchUrl (JStr u)) s)).
Proof.
  intros Hweb Hst Hfs.
  unfold _download_image, bind, perform, lift, fs_call, bind, perform.
  rewrite Hweb. cbn [raise_for_status].
  rewrite bool_decide_eq_false_2 by done. cbn [fst snd].
  fold (staged_filename prefix u content_type). rewrite Hfs. reflexivity.
Qed.

Lemma append_same_prefix a b c : a +:+ b = a +:+ c -> b = c.
Proof.
  induction a as [|x a IH]; [done|].
  change (String x a +:+ b) with (String x (a +:+ b)).
  change (String x a +:+ c) with (String x (a +:+ c)).
  intros [= H]. auto.
Qed.

(** X17.  [_inject_face_swap] on a request whose two URLs are served
    (status outside 400 to 599), with a working file system and nodes 1, 2
    and 10 well formed where present.  It creates the staging directory,
    then fetches and writes the source, then the target.  The two staged
    paths differ.  Node 1 gets the base name of the staged source as
    [image], node 2 that of the staged target; node 10 gets
    [input_faces_index] as the string of [face_index] (default 0),
    [console_log_level] 1, and [face_restore_model] set to [none] only when
    [restore_face] (default true) is falsy, otherwise left as in the
    template. *)
Theorem face_swap_injection workflow params u1 u2
    st1 ct1 body1 st2 ct2 body2 s :
  (forall node, node ∈ ["1"; "2"; "10"] -> node_ok workflow node) ->
  params !! "source_image" = Some (JStr u1) ->
  params !! "target_image" = Some (JStr u2) ->
  web u1 = Reply st1 (ct1, body1) -> ~ (400 <= st1 < 600) ->
  web u2 = Reply st2 (ct2, body2) -> ~ (400 <= st2 < 600) ->
  (forall path, fs_failure path = None) ->
  exists graph s',
    _inject_face_swap workflow params s = (Ok graph, s')
    /\ trace s'
       = trace s
         ++ [Makedirs staging_dir;
             FetchUrl (JStr u1);
             WriteFile (staging_dir +:+ "/"
                        +:+ staged_filename "source_face" u1 ct1) body1;
             FetchUrl (JStr u2);
             WriteFile (staging_dir +:+ "/"
                        +:+ staged_filename "target_image" u2 ct2) body2]
    /\ staging_dir +:+ "/" +:+ staged_filename "source_face" u1 ct1
       <> staging_dir +:+ "/" +:+ staged_filename "target_image" u2 ct2
    /\ (is_Some (workflow !! "1") ->
        slot graph "1" "image"
        = Some (JStr (staged_filename "source_face" u1 ct1)))
    /\ (is_Some (workflow !! "2") ->
        slot graph "2" "image"
        = Some (JStr (staged_filename "target_image" u2 ct2)))
    /\ (is_Some (workflow !! "10") ->
        slot graph "10" "input_faces_index"
        = Some (JStr (py_str (dict_get_or params "face_index" (JInt 0))))
        /\ slot graph "10" "console_log_level" = Some (JInt 1)
        /\ slot graph "10" "face_restore_model"
           = if truthy (dict_get_or params "restore_face" (JBool true))
             then slot workflow "10" "face_restore_model"
             else Some (JStr "none")).
Proof.
  intros Hok Hsrc Htgt Hweb1 Hst1 Hweb2 Hst2 Hfs.
  set (p1 := staging_dir +:+ "/" +:+ staged_filename "source_face" u1 ct1).
  set (p2 := staging_dir +:+ "/" +:+ staged_filename "target_image" u2 ct2).
  set (fields10 :=
         [("input_faces_index",
           JStr (py_str (dict_get_or params "face_index" (JInt 0))));
          ("console_log_level", JInt 1)]
         ++ (if truthy (dict_get_or params "restore_face" (JBool true))
             then [] else [("face_restore_model", JStr "none")])).
  destruct (set_inputs_spec "1" [("image", JStr (basename p1))] workflow)
    as (w1 & H1 & Hok1 & Hkeys1 & Hframe1 & Hset1).
  { apply Hok. in_list. }
  destruct (set_inputs_spec "2" [("image", JStr (basename p2))] w1)
    as (w2 & H2 & Hok2 & Hkeys2 & Hframe2 & Hset2).
  { apply Hok1, Hok. in_list. }
  destruct (set_inputs_spec "10" fields10 w2)
    as (w3 & H3 & _ & _ & Hframe3 & Hset3).
  { apply Hok2, Hok1, Hok. in_list. }
  assert (Hb1 : basename p1 = staged_filename "source_face" u1 ct1)
    by (apply basename_join, staged_filename_no_slash; reflexivity).
  assert (Hb2 : basename p2 = staged_filename "target_image" u2 ct2)
    by (apply basename_join, staged_filename_no_slash; reflexivity).
  eexists w3, _. split; [|split; [|split; [|split; [|split]]]].
  - unfold _inject_face_swap, bind at 1, lift. cbn [py_getitem].
    rewrite Hsrc. unfold bind at 1. rewrite Htgt.
    unfold bind at 1, fs_call, bind at 1, perform. rewrite Hfs.
    unfold ret at 1. fold staging_dir.
    unfold bind at 1. rewrite (download_ok _ _ _ _ _ _ _ Hweb1 Hst1 (Hfs _)).
    unfold bind at 1. rewrite (download_ok _ _ _ _ _ _ _ Hweb2 Hst2 (Hfs _)).
    fold p1 p2. unfold bind, lift. rewrite H1, H2. fold fields10.
    rewrite H3. reflexivity.
  - cbn [emit trace]. by rewrite <- !app_assoc.
  - intros Heq. apply append_same_prefix in Heq. cbn in Heq. discriminate.
  - intros Hhas. rewrite Hframe3, Hframe2 by (by left). rewrite <- Hb1.
    apply Hset1; [done|no_dup|in_list].
  - intros Hhas. rewrite Hframe3 by (by left). rewrite <- Hb2.
    apply Hset2; [by apply Hkeys1|no_dup|in_list].
  - intros Hhas.
    assert (is_Some (w2 !! "10")) as Hhas2 by (by apply Hkeys2, Hkeys1).
    assert (NoDup fields10.*1) as Hnd
      by (subst fields10; destruct (truthy _); no_dup).
    split; [|split].
    + apply (Hset3 Hhas2 Hnd). subst fields10. in_list.
    + apply (Hset3 Hhas2 Hnd). subst fields10. in_list.
    + destruct (truthy (dict_get_or params "restore_face" (JBool true)))
        eqn:Hrestore.
      * rewrite Hframe3.
        { rewrite Hframe2, Hframe1 by (by left). reflexivity. }
        right. subst fields10. try rewrite Hrestore.
        intros Hin%list_elem_of_In. cbn in Hin. intuition discriminate.
      * apply (Hset3 Hhas2 Hnd). subst fields10. try rewrite Hrestore. in_list.
Qed.

Lemma not_in_list {A} (x : A) (l : list A) : ~ In x l -> x ∉ l.
Proof. by rewrite list_elem_of_In. Qed.

(** X14.  [_inject_image_gen] on a request with a prompt and a template
    whose nodes 3 to 6 are well formed where present: it returns a graph
    with the nodes of the template, draws one random number also when the
    request gives a seed, writes to each of the eight slots of
    [image_gen_slots] whose node is present the value of the request or
    the default ([batch_size] is always 1), and leaves every other slot as
    it was in the template. *)
Theorem image_gen_injection workflow params prompt s :
  (forall node, node ∈ ["3"; "4"; "5"; "6"] -> node_ok workflow node) ->
  params !! "prompt" = Some prompt ->
  exists graph drawn,
    _inject_image_gen workflow params s = (Ok graph, draw_entropy s)
    /\ 0 <= drawn < 2 ^ 32
    /\ (forall node, is_Some (graph !! node) <-> is_Some (workflow !! node))
    /\ (forall node field value,
          (node, field, value) ∈ image_gen_slots params prompt drawn ->
          is_Some (workflow !! node) ->
          slot graph node field = Some value)
    /\ (forall node field,
          (node, field) ∉ (image_gen_slots params prompt drawn).*1 ->
          slot graph node field = slot workflow node field).
Proof.
  intros Hok Hprompt.
  destruct (randint_range 0 (2 ^ 32 - 1) s ltac:(lia)) as (drawn & Hdraw & Hseed).
  destruct (set_inputs_spec "3" [("text", prompt)] workflow)
    as (w3 & H3 & Hok3 & Hkeys3 & Hframe3 & Hset3).
  { apply Hok. in_list. }
  destruct (set_inputs_spec "4"
              [("text", dict_get_or params "negative_prompt"
                          (JStr "blurry, low quality, watermark, text"))] w3)
    as (w4 & H4 & Hok4 & Hkeys4 & Hframe4 & Hset4).
  { apply Hok3, Hok. in_list. }
  destruct (set_inputs_spec "5"
              [("width", dict_get_or params "width" (JInt 1280));
               ("height", dict_get_or params "height" (JInt 720));
               ("batch_size", JInt 1)] w4)
    as (w5 & H5 & Hok5 & Hkeys5 & Hframe5 & Hset5).
  { apply Hok4, Hok3, Hok. in_list. }
  destruct (set_inputs_spec "6"
              [("seed", dict_get_or params "seed" (JInt drawn));
               ("steps", dict_get_or params "steps" (JInt 25));
               ("cfg", dict_get_or params "cfg_scale" (JFloat (15 # 2)))] w5)
    as (w6 & H6 & _ & Hkeys6 & Hframe6 & Hset6).
  { apply Hok5, Hok4, Hok3, Hok. in_list. }
  exists w6, drawn. split; [|split; [lia|split; [|split]]].
  - unfold _inject_image_gen, bind at 1, lift. cbn [py_getitem].
    rewrite Hprompt. unfold bind at 1. rewrite Hdraw.
    unfold bind, lift, ret. by rewrite H3, H4, H5, H6.
  - intros node. by rewrite Hkeys6, Hkeys5, Hkeys4, Hkeys3.
  - intros node field value Hin Hhas.
    apply list_elem_of_In in Hin. cbn [image_gen_slots In] in Hin.
    destruct Hin as [Hin|[Hin|[Hin|[Hin|[Hin|[Hin|[Hin|[Hin|[]]]]]]]]];
      injection Hin as <- <- <-.
    + rewrite Hframe6, Hframe5, Hframe4 by (by left).
      apply Hset3; [done|no_dup|in_list].
    + rewrite Hframe6, Hframe5 by (by left).
      apply Hset4; [by apply Hkeys3|no_dup|in_list].
    + rewrite Hframe6 by (by left).
      apply Hset5; [by apply Hkeys4, Hkeys3|no_dup|in_list].
    + rewrite Hframe6 by (by left).
      apply Hset5; [by apply Hkeys4, Hkeys3|no_dup|in_list].
    + rewrite Hframe6 by (by left).
      apply Hset5; [by apply Hkeys4, Hkeys3|no_dup|in_list].
    + apply Hset6; [by apply Hkeys5, Hkeys4, Hkeys3|no_dup|in_list].
    + apply Hset6; [by apply Hkeys5, Hkeys4, Hkeys3|no_dup|in_list].
    + apply Hset6; [by apply Hkeys5, Hkeys4, Hkeys3|no_dup|in_list].
  - intros node field Hout.
    rewrite list_elem_of_In in Hout. cbn [image_gen_slots fmap list_fmap fst In] in Hout.
    assert (Hany : forall n f, In (n, f)
              [("3", "text"); ("4", "text"); ("5", "width"); ("5", "height");
               ("5", "batch_size"); ("6", "seed"); ("6", "steps"); ("6", "cfg")]
              -> (node, field) <> (n, f)).
    { intros n f Hin Heq. apply Hout. by rewrite Heq. }
    rewrite Hframe6, Hframe5, Hframe4, Hframe3; [reflexivity| | | |].
    + destruct (decide (node = "3")) as [->|]; [right|by left].
      apply not_in_list. intros [<-|[]]. by apply (Hany "3" "text"); cbn; auto.
    + destruct (decide (node = "4")) as [->|]; [right|by left].
      apply not_in_list. intros [<-|[]]. by apply (Hany "4" "text"); cbn; auto.
    + destruct (decide (node = "5")) as [->|]; [right|by left].
      apply not_in_list. intros [<-|[<-|[<-|[]]]].
      * by apply (Hany "5" "width"); cbn; auto.
      * by apply (Hany "5" "height"); cbn; auto.
      * by apply (Hany "5" "batch_size"); cbn; auto 10.
    + destruct (decide (node = "6")) as [->|]; [right|by left].
      apply not_in_list. intros [<-|[<-|[<-|[]]]].
      * by apply (Hany "6" "seed"); cbn; auto 10.
      * by apply (Hany "6" "steps"); cbn; auto 10.
      * by apply (Hany "6" "cfg"); cbn; auto 10.
Qed.

(** X15.  A template whose node 3 is a dict without [inputs] makes
    [_inject_image_gen] raise [KeyError: 'inputs'], after the random seed
    has been drawn. *)
Theorem node_without_inputs_fails workflow params prompt fields s :
  params !! "prompt" = Some prompt ->
  workflow !! "3" = Some (JObj fields) ->
  fields !! "inputs" = None ->
  _inject_image_gen workflow params s
  = (Raise (key_error "inputs"), draw_entropy s).
Proof.
  intros Hprompt Hnode Hinputs.
  unfold _inject_image_gen, bind at 1, lift. cbn [py_getitem].
  rewrite Hprompt. unfold bind at 1, randint. unfold bind at 1, lift.
  unfold set_inputs at 1, has_key. rewrite bool_decide_eq_true_2 by eauto.
  cbn [foldl bind_result fst snd]. unfold set_input.
  cbn [py_getitem bind_result]. rewrite Hnode.
  cbn [py_getitem bind_result]. rewrite Hinputs. reflexivity.
Qed.

(** X16.  [load] with a string other than the two known types raises
    [ValueError: Unknown workflow type: <type>] and touches nothing: no
    file is looked up or read. *)
Theorem unknown_type_opens_no_file workflow_dir name params s :
  name ∉ valid_types ->
  load workflow_dir (JStr name) params s
  = (Raise (Exn ValueError ("Unknown workflow type: " +:+ name)), s).
Proof.
  intros Hname. unfold load, bind, lift, workflow_filename.
  assert (WORKFLOW_MAP !! name = None) as ->; [|reflexivity].
  unfold WORKFLOW_MAP, valid_types in *.
  rewrite !lookup_insert_ne, lookup_empty; [done| |];
    intros <-; apply Hname; in_list.
Qed.

(** X18.  When fetching the source image fails (the URL is not a string
    the HTTP library accepts, the request raises, or the status is from
    400 to 599), [_inject_face_swap] raises that exception.  The staging
    directory was created and the source was requested; the target is not
    requested and no file is written. *)
Theorem failed_download_stops_the_injection workflow params source e s :
  params !! "source_image" = Some source ->
  is_Some (params !! "target_image") ->
  fs_failure staging_dir = None ->
  fetch_failure source = Some e ->
  _inject_face_swap workflow params s
  = (Raise e, emit (FetchUrl source) (emit (Makedirs staging_dir) s)).
Proof.
  intros Hsrc [target Htgt] Hfs Hfail.
  unfold _inject_face_swap, bind at 1, lift. cbn [py_getitem].
  rewrite Hsrc. unfold bind at 1. rewrite Htgt.
  unfold bind at 1, fs_call, bind at 1, perform. fold staging_dir.
  rewrite Hfs. unfold ret at 1. unfold bind at 1.
  unfold fetch_failure in Hfail.
  destruct source; try (by injection Hfail as <-).
  unfold _download_image, bind, perform, lift.
  destruct (raise_for_status _) as [resp|x]; [discriminate|].
  by injection Hfail as <-.
Qed.
End Injection.

(** ** Readiness and the launch of the engine *)

Section Launch.
Context `{py : Platform} `{svc : Services}.

Lemma wait_for_ready_loop_bounds fuel start timeout longest s r s' :
  (forall n, Z.of_N (system_stats n).1 <= longest) ->
  wait_for_ready_loop fuel start timeout s = Some (r, s') ->
  (probes_done s <= probes_done s')%nat
  /\ clock s <= clock s'
  /\ (probes_done s' = probes_done s
      \/ clock s - start
         + 2000 * (Z.of_nat (probes_done s' - probes_done s) - 1)
         < timeout * 1000)
  /\ (clock s' = clock s
      \/ clock s' - start < timeout * 1000 + longest + 2000).
Proof.
  intros Hlong. revert s.
  induction fuel as [|fuel IH]; intros s Hrun; [discriminate|].
  cbn [wait_for_ready_loop] in Hrun.
  case_bool_decide as Hnow.
  - pose proof (Hlong (probes_done s)) as Hd.
    destruct (system_stats (probes_done s)) as [d outcome].
    cbn [fst] in Hd. pose proof (N2Z.is_nonneg d) as Hd0.
    set (s1 := emit GetSystemStats (tick (Z.of_N d) (next_probe s))) in *.
    assert (Hnext :
      wait_for_ready_loop fuel start timeout (sleep 2 s1).2 = Some (r, s') ->
      (probes_done s <= probes_done s')%nat
      /\ clock s <= clock s'
      /\ (probes_done s' = probes_done s
          \/ clock s - start
             + 2000 * (Z.of_nat (probes_done s' - probes_done s) - 1)
             < timeout * 1000)
      /\ (clock s' = clock s
          \/ clock s' - start < timeout * 1000 + longest + 2000)).
    { intros Hrest. apply IH in Hrest. cbn in Hrest.
      destruct Hrest as (Hp & Hc & Hn & Ht). repeat split; try lia. }
    assert (Hhere :
      (probes_done s <= probes_done s1)%nat
      /\ clock s <= clock s1
      /\ (probes_done s1 = probes_done s
          \/ clock s - start
             + 2000 * (Z.of_nat (probes_done s1 - probes_done s) - 1)
             < timeout * 1000)
      /\ (clock s1 = clock s
          \/ clock s1 - start < timeout * 1000 + longest + 2000))
      by (cbn; repeat split; lia).
    destruct outcome as [status body|e].
    + case_bool_decide; [|by apply Hnext]. by injection Hrun as <- <-.
    + destruct (is_requests_ConnectionError e); [by apply Hnext|].
      by injection Hrun as <- <-.
  - injection Hrun as <- <-. repeat split; try lia; by left.
Qed.

Lemma wait_for_ready_loop_draws_nothing fuel start timeout s r s' :
  wait_for_ready_loop fuel start timeout s = Some (r, s') ->
  uuids_drawn s' = uuids_drawn s /\ entropy_drawn s' = entropy_drawn s.
Proof.
  revert s. induction fuel as [|fuel IH]; intros s Hrun; [discriminate|].
  cbn [wait_for_ready_loop] in Hrun.
  case_bool_decide; [|by injection Hrun as <- <-].
  destruct (system_stats (probes_done s)) as [d [status body|e]].
  - case_bool_decide; [by injection Hrun as <- <-|]. by apply IH in Hrun.
  - destruct (is_requests_ConnectionError e); [by apply IH in Hrun|].
    by injection Hrun as <- <-.
Qed.

(** X19.  Whenever [wait_for_ready] ends, with a boolean or an
    exception: it made no probe at all when the timeout is not positive,
    and otherwise its probe number [k] started less than [timeout] seconds
    in, at least [2 (k - 1)] seconds after the first; and the call took
    less than the timeout plus the longest probe plus one sleep of two
    seconds. *)
Theorem wait_for_ready_is_bounded self timeout fuel longest s r s' :
  (forall n, Z.of_N (system_stats n).1 <= longest) ->
  wait_for_ready self timeout fuel s = Some (r, s') ->
  (probes_done s <= probes_done s')%nat
  /\ 2000 * (Z.of_nat (probes_done s' - probes_done s) - 1)
     < Z.max 0 (timeout * 1000)
  /\ 0 <= clock s' - clock s < Z.max 0 (timeout * 1000) + longest + 2000.
Proof.
  intros Hlong Hrun.
  pose proof (Hlong 0%nat) as H0.
  pose proof (N2Z.is_nonneg (system_stats 0).1).
  destruct (wait_for_ready_loop_bounds _ _ _ _ _ _ _ Hlong Hrun)
    as (Hp & Hc & Hn & Ht).
  repeat split; lia.
Qed.

(** X20.  [start_comfyui], probes either answered or failing to connect.
    If launching the process raises, that exception is raised and nothing
    else happens.  Otherwise one client is built and the engine is polled
    with a timeout of 120 seconds: the function returns normally as soon
    as a probe is answered with status 200, no earlier probe having been,
    and raises [RuntimeError: ComfyUI failed to start within timeout] when
    120 seconds have passed without such an answer. *)
Theorem start_comfyui_awaits_the_engine launch_failure s :
  (forall n, probe_tolerated (system_stats n).2) ->
  exists outcome s',
    (forall fuel, (62 <= fuel)%nat ->
       start_comfyui launch_failure fuel s = Some (outcome, s'))
    /\ match launch_failure with
       | Some e => outcome = Raise e /\ s' = s
       | None =>
           uuids_drawn s' = S (uuids_drawn s)
           /\ exists rounds,
                (forall i, (i < rounds)%nat ->
                   probe_up (system_stats (probes_done s + i)).2 = false)
                /\ (outcome = Ok tt
                    /\ probe_up (system_stats (probes_done s + rounds)).2 = true
                    /\ trace s' = trace s ++ polling rounds ++ [GetSystemStats]
                    \/ outcome = Raise (Exn RuntimeError
                                   "ComfyUI failed to start within timeout")
                       /\ 120000 <= clock s' - clock s
                       /\ trace s' = trace s ++ polling rounds)
       end.
Proof.
  intros Htol. destruct launch_failure as [e|].
  - exists (Raise e), s. split; [reflexivity|done].
  - destruct (wait_for_ready_loop_spec 62 (clock (draw_uuid s)) 120
                (draw_uuid s) Htol)
      as (ready & rounds & s' & Hrun & Htr & Hdown & Hend); [lia|lia|].
    assert (Hids : uuids_drawn s' = S (uuids_drawn s)).
    { by apply wait_for_ready_loop_draws_nothing in Hrun as [-> _]. }
    destruct ready.
    + exists (Ok tt), s'. split; [|split; [exact Hids|]].
      * intros fuel Hfuel. unfold start_comfyui, ComfyUIClient_init, wait_for_ready.
        by rewrite (wait_for_ready_loop_more _ _ _ _ _ _ Hfuel Hrun).
      * exists rounds. split; [exact Hdown|]. left. auto.
    + exists (Raise (Exn RuntimeError "ComfyUI failed to start within timeout")), s'.
      split; [|split; [exact Hids|]].
      * intros fuel Hfuel. unfold start_comfyui, ComfyUIClient_init, wait_for_ready.
        by rewrite (wait_for_ready_loop_more _ _ _ _ _ _ Hfuel Hrun).
      * exists rounds. split; [exact Hdown|]. right.
        rewrite app_nil_r in Htr. cbn in Hend. auto.
Qed.
End Launch.

(** ** The further properties on the stub deployments *)

(** The workflow directory is [/opt/wf/], with a trailing slash, and has
    no template: the path in the reply has a single slash. *)
Lemma missing_template_is_reported_witness :
  validate_input (py := stub_platform) image_gen_input = Ok (true, EmptyString)
  /\ WORKFLOW_DIR (svc := relocated) = "/opt/wf/"
  /\ @template_files relocated !! "/opt/wf/flux_image_gen.json" = None
  /\ handler (py := stub_platform) (svc := relocated) image_gen_job
       initial_state
     = (Ok (error_envelope
              "Workflow template not found: /opt/wf/flux_image_gen.json"),
        initial_state).
Proof.
  split; [reflexivity|]. split; [reflexivity|]. split; [reflexivity|].
  apply (missing_template_is_reported (py := stub_platform) (svc := relocated)
           image_gen_job image_gen_input EmptyString "image_gen"
           "flux_image_gen.json" initial_state); reflexivity.
Defined.

(** The job runs to its image and then finds no bucket. *)
Lemma missing_bucket_is_found_after_the_run_witness :
  @environ bucketless !! "S3_BUCKET" = None
  /\ handler (py := stub_platform) (svc := bucketless) image_gen_job
       initial_state
     = (Ok (error_envelope "'S3_BUCKET'"),
        (execute_workflow (py := stub_platform) (svc := bucketless)
           stub_client stub_graph (JStr "job-1")
           (mkState 0 1 1 0
              [ReadTemplate "/opt/handler/workflows/flux_image_gen.json"])).2).
Proof.
  split; [reflexivity|].
  apply (missing_bucket_is_found_after_the_run (py := stub_platform)
           (svc := bucketless) image_gen_job image_gen_input EmptyString
           (JStr "image_gen") initial_state stub_graph
           (mkState 0 0 1 0
              [ReadTemplate "/opt/handler/workflows/flux_image_gen.json"])
           stub_client
           (mkState 0 1 1 0
              [ReadTemplate "/opt/handler/workflows/flux_image_gen.json"])
           [[Byte.x89; Byte.x50]]).
  - reflexivity.
  - reflexivity.
  - reflexivity.
  - vm_compute. reflexivity.
  - reflexivity.
  - vm_compute. reflexivity.
  - discriminate.
  - reflexivity.
Defined.

(** The first job of the working deployment. *)
Lemma success_reply_lists_every_image_witness :
  handler (py := stub_platform) (svc := working) image_gen_job initial_state
  = (Ok first_reply, after_first_job)
  /\ exists job_input name bucket urls,
       dict_get_or image_gen_job "input" (JObj ∅) = JObj job_input
       /\ job_input !! "workflow_type" = Some (JStr name)
       /\ name ∈ valid_types
       /\ @environ working !! "S3_BUCKET" = Some bucket
       /\ urls <> []
       /\ first_reply
          = <["status" := JStr "success"]>
              (<["output_urls" := JArr (JStr <$> urls)]>
               (<["workflow_type" := JStr name]>
                (<["job_id" := dict_get_or image_gen_job "id" (JStr "unknown")]>
                   ∅)))
       /\ forall j url, urls !! j = Some url ->
            @s3_presign working bucket
              (output_key (py := stub_platform)
                 (dict_get_or image_gen_job "id" (JStr "unknown")) (JStr name)
                 (Z.of_nat j))
              PRESIGNED_URL_EXPIRY = Ok url.
Proof.
  assert (Hrun : handler (py := stub_platform) (svc := working) image_gen_job
                   initial_state = (Ok first_reply, after_first_job))
    by (vm_compute; reflexivity).
  split; [exact Hrun|].
  apply (success_reply_lists_every_image (py := stub_platform) (svc := working)
           image_gen_job initial_state first_reply after_first_job Hrun).
  reflexivity.
Defined.

(** Two images are stored one after the other. *)
Lemma uploads_follow_the_images_witness :
  upload_all (py := stub_platform) (svc := working) stub_storage (JStr "job-1")
    (JStr "image_gen") 0 two_images [] initial_state
  = (Ok ["https://results.example/outputs/job-1/image_gen_0.png";
         "https://results.example/outputs/job-1/image_gen_1.png"],
     mkState 0 0 0 0
       (stored_all (py := stub_platform) stub_storage (JStr "job-1")
          (JStr "image_gen") 0 two_images))
  /\ trace (mkState 0 0 0 0
              (stored_all (py := stub_platform) stub_storage (JStr "job-1")
                 (JStr "image_gen") 0 two_images))
     = trace initial_state
       ++ stored_all (py := stub_platform) stub_storage (JStr "job-1")
            (JStr "image_gen") 0 two_images.
Proof.
  assert (Hrun : upload_all (py := stub_platform) (svc := working) stub_storage
                   (JStr "job-1") (JStr "image_gen") 0 two_images []
                   initial_state
                 = (Ok ["https://results.example/outputs/job-1/image_gen_0.png";
                        "https://results.example/outputs/job-1/image_gen_1.png"],
                    mkState 0 0 0 0
                      (stored_all (py := stub_platform) stub_storage
                         (JStr "job-1") (JStr "image_gen") 0 two_images)))
    by (vm_compute; reflexivity).
  split; [exact Hrun|].
  apply (uploads_follow_the_images (py := stub_platform) (svc := working)
           stub_storage (JStr "job-1") (JStr "image_gen") two_images
           initial_state _ _ Hrun).
Defined.

(** The bucket refuses the first write: the second image is not sent. *)
Lemma failed_upload_keeps_earlier_images_witness :
  upload_all (py := stub_platform) (svc := read_only) stub_storage
    (JStr "job-1") (JStr "image_gen") 0 two_images [] initial_state
  = (Raise access_denied,
     emit (PutObject "results" "outputs/job-1/image_gen_0.png"
             [Byte.x89; Byte.x50] "image/png") initial_state)
  /\ exists done image rest,
       two_images = done ++ image :: rest
       /\ trace (emit (PutObject "results" "outputs/job-1/image_gen_0.png"
                         [Byte.x89; Byte.x50] "image/png") initial_state)
          = trace initial_state
            ++ stored_all (py := stub_platform) stub_storage (JStr "job-1")
                 (JStr "image_gen") 0 done
            ++ match @s3_put_failure read_only (bucket stub_storage)
                       (output_key (py := stub_platform) (JStr "job-1")
                          (JStr "image_gen") (Z.of_nat (length done)))
                       image "image/png" with
               | Some _ =>
                   [PutObject (bucket stub_storage)
                      (output_key (py := stub_platform) (JStr "job-1")
                         (JStr "image_gen") (Z.of_nat (length done)))
                      image "image/png"]
               | None =>
                   stored (py := stub_platform) stub_storage (JStr "job-1")
                     (JStr "image_gen") (Z.of_nat (length done)) image
               end.
Proof.
  assert (Hrun : upload_all (py := stub_platform) (svc := read_only)
                   stub_storage (JStr "job-1") (JStr "image_gen") 0 two_images
                   [] initial_state
                 = (Raise access_denied,
                    emit (PutObject "results" "outputs/job-1/image_gen_0.png"
                            [Byte.x89; Byte.x50] "image/png") initial_state))
    by (vm_compute; reflexivity).
  split; [exact Hrun|].
  apply (failed_upload_keeps_earlier_images (py := stub_platform)
           (svc := read_only) stub_storage (JStr "job-1") (JStr "image_gen")
           two_images initial_state _ _ Hrun).
Defined.

(** The engine answers the submission with status 500. *)
Lemma rejected_submission_opens_no_stream_witness :
  execute_workflow (py := stub_platform) (svc := refusing) stub_client
    stub_template (JStr "job-1") initial_state
  = (Raise (Exn (Foreign "requests.exceptions.HTTPError")
                (@fault_text stub_platform (HttpStatus 500))),
     emit (PostPrompt stub_template "client-0") initial_state).
Proof.
  apply (proj1 (rejected_submission_opens_no_stream (py := stub_platform)
                  (svc := refusing) stub_client stub_template (JStr "job-1")
                  initial_state) 500 None); [reflexivity|lia].
Defined.

(** A preview and a progress event, then the completion of the prompt. *)
Lemma completion_fetches_outputs_witness :
  Forall (ignored (py := stub_platform) (JStr "p-1")) before_completion
  /\ execute_workflow (py := stub_platform) (svc := working) stub_client
       stub_template (JStr "job-1") initial_state
     = ((_fetch_outputs (py := stub_platform) (svc := working) stub_client
           (JStr "p-1")
           (received (finished_stream)
              (emit (WsConnect (client_id stub_client))
                 (emit (PostPrompt stub_template "client-0") initial_state)))).1,
        emit WsClose
          (_fetch_outputs (py := stub_platform) (svc := working) stub_client
             (JStr "p-1")
             (received (finished_stream)
                (emit (WsConnect (client_id stub_client))
                   (emit (PostPrompt stub_template "client-0")
                      initial_state)))).2).
Proof.
  assert (Hign : Forall (ignored (py := stub_platform) (JStr "p-1"))
                   before_completion)
    by (repeat constructor).
  split; [exact Hign|].
  apply (proj2 (completion_fetches_outputs (py := stub_platform)
                  (svc := working) stub_client stub_template (JStr "job-1")
                  initial_state (JStr "p-1") _ before_completion 20%N
                  (event "executing" (executing_data (JStr "p-1") JNull))
                  (executing_data (JStr "p-1") JNull) []
                  (stub_submission working eq_refl) eq_refl Hign
                  ltac:(vm_compute; reflexivity) eq_refl eq_refl eq_refl)).
  reflexivity.
Defined.

(** The data of a progress event is the number 3. *)
Lemma message_without_object_data_fails_witness :
  on_message (py := stub_platform) (JStr "p-1") (JObj flat_progress)
  = Failed (attribute_error (py := stub_platform) (NoAttribute (JInt 3) "get"))
  /\ forall self start blocked rest s,
       clock s - start < EXECUTION_TIMEOUT * 1000 ->
       wait_loop (py := stub_platform) (svc := working) self (JStr "p-1") start
         ((blocked, Recv (TextFrame (Some (JObj flat_progress)))) :: rest) s
       = (Raise (attribute_error (py := stub_platform)
                   (NoAttribute (JInt 3) "get")),
          emit WsRecv (tick (Z.of_N blocked) s)).
Proof.
  apply (message_without_object_data_fails (py := stub_platform)
           (svc := working) (JStr "p-1") flat_progress "progress" (JInt 3)).
  - reflexivity.
  - apply (bool_decide_unpack _). vm_compute. exact I.
  - reflexivity.
  - discriminate.
Defined.

(** The maximum of a progress event arrives as the string [25]. *)
Lemma progress_with_unordered_max_fails_witness :
  num_of (JStr "25") = None
  /\ on_message (py := stub_platform) (JStr "p-1")
       (JObj (event "progress" quoted_max))
     = Failed (type_error (py := stub_platform) (NotOrdered (JStr "25"))).
Proof.
  split; [reflexivity|].
  apply (progress_with_unordered_max_fails (py := stub_platform) (JStr "p-1")
           (event "progress" quoted_max) quoted_max (JStr "25"));
    reflexivity.
Defined.

(** The history document lists node 8 before node 9: the image of node 8
    is retrieved first. *)
Lemma outputs_are_retrieved_in_order_witness :
  _fetch_outputs (py := stub_platform) (svc := archive) stub_client
    (JStr "p-1") initial_state
  = (Ok [[Byte.x01]; [Byte.x02]],
     mkState 0 0 0 0
       [GetHistory "p-1";
        GetView (JStr "a.png") (JStr EmptyString) (JStr "output");
        GetView (JStr "b.png") (JStr EmptyString) (JStr "output")])
  /\ exists status history prompt_history outputs,
       @history_endpoint archive (py_str (py := stub_platform) (JStr "p-1"))
       = Reply status (Some (JObj history))
       /\ ~ (400 <= status < 600)
       /\ dict_get_any (py := stub_platform) history (JStr "p-1") (JObj ∅)
          = Ok (JObj prompt_history)
       /\ dict_get_or prompt_history "outputs" (JObj ∅) = JObj outputs
       /\ Forall2 (retrieved (svc := archive))
            (concat (image_entries (py := stub_platform)
                       <$> (items_in_order
                              (@outputs_order archive
                                 (py_str (py := stub_platform) (JStr "p-1")))
                              outputs).*2))
            [[Byte.x01]; [Byte.x02]]
       /\ items_in_order
            (@outputs_order archive (py_str (py := stub_platform) (JStr "p-1")))
            outputs
          ≡ₚ map_to_list outputs
       /\ (NoDup (@outputs_order archive
                    (py_str (py := stub_platform) (JStr "p-1"))) ->
           (forall node,
               node ∈ @outputs_order archive
                        (py_str (py := stub_platform) (JStr "p-1"))
               <-> is_Some (outputs !! node)) ->
           (items_in_order
              (@outputs_order archive
                 (py_str (py := stub_platform) (JStr "p-1")))
              outputs).*1
           = @outputs_order archive
               (py_str (py := stub_platform) (JStr "p-1"))).
Proof.
  assert (Hrun : _fetch_outputs (py := stub_platform) (svc := archive)
                   stub_client (JStr "p-1") initial_state
                 = (Ok [[Byte.x01]; [Byte.x02]],
                    mkState 0 0 0 0
                      [GetHistory "p-1";
                       GetView (JStr "a.png") (JStr EmptyString)
                         (JStr "output");
                       GetView (JStr "b.png") (JStr EmptyString)
                         (JStr "output")]))
    by (vm_compute; reflexivity).
  split; [exact Hrun|].
  apply (outputs_are_retrieved_in_order (py := stub_platform) (svc := archive)
           stub_client (JStr "p-1") initial_state _ _ Hrun).
Defined.

(** The history of the fruitless deployment is empty. *)
Lemma unknown_prompt_has_no_outputs_witness :
  @history_endpoint fruitless "p-1" = Reply 200 (Some (JObj ∅))
  /\ _fetch_outputs (py := stub_platform) (svc := fruitless) stub_client
       (JStr "p-1") initial_state
     = (Ok [], emit (GetHistory "p-1") initial_state).
Proof.
  split; [reflexivity|].
  apply (unknown_prompt_has_no_outputs (py := stub_platform) (svc := fruitless)
           stub_client "p-1" 200 ∅ initial_state).
  - reflexivity.
  - lia.
  - left. reflexivity.
Defined.

(** The request of the first job, on the stub template. *)
Lemma image_gen_injection_witness :
  image_gen_input !! "prompt" = Some (JStr "a kitchen")
  /\ exists graph drawn,
       _inject_image_gen (py := stub_platform) (svc := working) stub_template
         image_gen_input initial_state
       = (Ok graph, draw_entropy initial_state)
       /\ 0 <= drawn < 2 ^ 32
       /\ (forall node,
             is_Some (graph !! node) <-> is_Some (stub_template !! node))
       /\ (forall node field value,
             (node, field, value)
             ∈ image_gen_slots image_gen_input (JStr "a kitchen") drawn ->
             is_Some (stub_template !! node) ->
             slot graph node field = Some value)
       /\ (forall node field,
             (node, field)
             ∉ (image_gen_slots image_gen_input (JStr "a kitchen") drawn).*1 ->
             slot graph node field = slot stub_template node field).
Proof.
  split; [reflexivity|].
  apply (image_gen_injection (py := stub_platform) (svc := working)
           stub_template image_gen_input (JStr "a kitchen") initial_state
           stub_template_ok eq_refl).
Defined.

(** The text node of the template has no inputs. *)
Lemma node_without_inputs_fails_witness :
  _inject_image_gen (py := stub_platform) (svc := working) bare_template
    image_gen_input initial_state
  = (Raise (key_error "inputs"), draw_entropy initial_state).
Proof.
  apply (node_without_inputs_fails (py := stub_platform) (svc := working)
           bare_template image_gen_input (JStr "a kitchen")
           {[ "class_type" := JStr "CLIPTextEncode" ]} initial_state);
    reflexivity.
Defined.

(** [upscale] is not a workflow type. *)
Lemma unknown_type_opens_no_file_witness :
("upscale" ∉ valid_types)
  /\ load (py := stub_platform) (svc := working) "/opt/handler/workflows"
       (JStr "upscale") image_gen_input initial_state
     = (Raise (Exn ValueError ("Unknown workflow type: " +:+ "upscale")),
        initial_state).
Proof.
  assert (Hnew : "upscale" ∉ valid_types)
    by (apply (bool_decide_unpack _); vm_compute; exact I).
  split; [exact Hnew|].
  apply (unknown_type_opens_no_file (py := stub_platform) (svc := working)
           "/opt/handler/workflows" "upscale" image_gen_input initial_state
           Hnew).
Defined.

Lemma swap_template_ok node :
  node ∈ ["1"; "2"; "10"] -> node_ok swap_template node.
Proof.
  intros Hin n Hn.
  repeat (apply elem_of_cons in Hin as [->|Hin]);
    [..|by apply elem_of_nil in Hin].
  all: vm_compute in Hn; injection Hn as <-.
  all: eexists _, _; split; [reflexivity|vm_compute; reflexivity].
Qed.

(** A JPEG source and a target served without a content type. *)
Lemma face_swap_injection_witness :
  exists graph s',
    _inject_face_swap (py := stub_platform) (svc := swapping) swap_template
      swap_input initial_state = (Ok graph, s')
    /\ trace s'
       = trace initial_state
         ++ [Makedirs (staging_dir (svc := swapping));
             FetchUrl (JStr "https://x/a.jpg");
             WriteFile (staging_dir (svc := swapping) +:+ "/"
                        +:+ staged_filename (py := stub_platform) "source_face"
                              "https://x/a.jpg" (Some "image/jpeg"))
               [Byte.xff; Byte.xd8];
             FetchUrl (JStr "https://x/b.png");
             WriteFile (staging_dir (svc := swapping) +:+ "/"
                        +:+ staged_filename (py := stub_platform) "target_image"
                              "https://x/b.png" None)
               [Byte.x89; Byte.x50]]
    /\ staging_dir (svc := swapping) +:+ "/"
       +:+ staged_filename (py := stub_platform) "source_face"
             "https://x/a.jpg" (Some "image/jpeg")
       <> staging_dir (svc := swapping) +:+ "/"
          +:+ staged_filename (py := stub_platform) "target_image"
                "https://x/b.png" None
    /\ (is_Some (swap_template !! "1") ->
        slot graph "1" "image"
        = Some (JStr (staged_filename (py := stub_platform) "source_face"
                        "https://x/a.jpg" (Some "image/jpeg"))))
    /\ (is_Some (swap_template !! "2") ->
        slot graph "2" "image"
        = Some (JStr (staged_filename (py := stub_platform) "target_image"
                        "https://x/b.png" None)))
    /\ (is_Some (swap_template !! "10") ->
        slot graph "10" "input_faces_index"
        = Some (JStr (py_str (py := stub_platform)
                        (dict_get_or swap_input "face_index" (JInt 0))))
        /\ slot graph "10" "console_log_level" = Some (JInt 1)
        /\ slot graph "10" "face_restore_model"
           = if truthy (dict_get_or swap_input "restore_face" (JBool true))
             then slot swap_template "10" "face_restore_model"
             else Some (JStr "none")).
Proof.
  apply (face_swap_injection (py := stub_platform) (svc := swapping)
           swap_template swap_input "https://x/a.jpg" "https://x/b.png"
           200 (Some "image/jpeg") [Byte.xff; Byte.xd8]
           200 None [Byte.x89; Byte.x50] initial_state swap_template_ok).
  - reflexivity.
  - reflexivity.
  - reflexivity.
  - lia.
  - reflexivity.
  - lia.
  - reflexivity.
Defined.

(** The source image is not found on the server. *)
Lemma failed_download_stops_the_injection_witness :
  fetch_failure (py := stub_platform) (svc := swapping)
    (JStr "https://x/missing.jpg")
  = Some (Exn (Foreign "requests.exceptions.HTTPError")
              (@fault_text stub_platform (HttpStatus 404)))
  /\ _inject_face_swap (py := stub_platform) (svc := swapping) swap_template
       lost_source_input initial_state
     = (Raise (Exn (Foreign "requests.exceptions.HTTPError")
                   (@fault_text stub_platform (HttpStatus 404))),
        emit (FetchUrl (JStr "https://x/missing.jpg"))
          (emit (Makedirs (staging_dir (svc := swapping))) initial_state)).
Proof.
  split; [reflexivity|].
  apply (failed_download_stops_the_injection (py := stub_platform)
           (svc := swapping) swap_template lost_source_input
           (JStr "https://x/missing.jpg") _ initial_state).
  - reflexivity.
  - eexists. reflexivity.
  - reflexivity.
  - reflexivity.
Defined.

Lemma up_at_third_is_quick n : Z.of_N (up_at_third n).1 <= 10.
Proof. unfold up_at_third, never_up. by destruct (n <? 2)%nat. Qed.

(** An engine that refuses two connections and then answers: three
    probes in four seconds. *)
Lemma wait_for_ready_is_bounded_witness :
  wait_for_ready (svc := starting) stub_client 120 5 initial_state
  = Some (Ok true,
          mkState 4030 0 0 3
            [GetSystemStats; Sleep 2000; GetSystemStats; Sleep 2000;
             GetSystemStats])
  /\ (probes_done initial_state <= 3)%nat
  /\ 2000 * (Z.of_nat (3 - probes_done initial_state) - 1)
     < Z.max 0 (120 * 1000)
  /\ 0 <= 4030 - clock initial_state < Z.max 0 (120 * 1000) + 10 + 2000.
Proof.
  assert (Hrun : wait_for_ready (svc := starting) stub_client 120 5
                   initial_state
                 = Some (Ok true,
                         mkState 4030 0 0 3
                           [GetSystemStats; Sleep 2000; GetSystemStats;
                            Sleep 2000; GetSystemStats]))
    by (vm_compute; reflexivity).
  split; [exact Hrun|].
  apply (wait_for_ready_is_bounded (svc := starting) stub_client 120 5 10
           initial_state _ _ up_at_third_is_quick Hrun).
Defined.

(** The same engine at the launch. *)
Lemma start_comfyui_awaits_the_engine_witness :
  (forall n, probe_tolerated (@system_stats starting n).2)
  /\ exists outcome s',
       (forall fuel, (62 <= fuel)%nat ->
          start_comfyui (svc := starting) None fuel initial_state
          = Some (outcome, s'))
       /\ uuids_drawn s' = S (uuids_drawn initial_state)
       /\ exists rounds,
            (forall i, (i < rounds)%nat ->
               probe_up
                 (@system_stats starting (probes_done initial_state + i)).2
               = false)
            /\ (outcome = Ok tt
                /\ probe_up
                     (@system_stats starting
                        (probes_done initial_state + rounds)).2 = true
                /\ trace s'
                   = trace initial_state ++ polling rounds ++ [GetSystemStats]
                \/ outcome = Raise (Exn RuntimeError
                               "ComfyUI failed to start within timeout")
                   /\ 120000 <= clock s' - clock initial_state
                   /\ trace s' = trace initial_state ++ polling rounds).
Proof.
  split; [exact up_at_third_tolerated|].
  apply (start_comfyui_awaits_the_engine (svc := starting) None initial_state
           up_at_third_tolerated).
Defined.
